(** * BOSS timer (hello.py): recurrence, alerts and configuration

    A shallow embedding of the timer logic of [hello.py]: the table of
    BOSS rows held by [BossTimer], the once-per-second pass
    [refresh_all_timers] with the recurrence loop, [update_row_display],
    [check_alert_conditions], [trigger_alarm], [stop_alarm_sound], and the
    configuration file written by [save_config] and read by [load_config].

    Conventions.
    - A [datetime] is the number of microseconds since midnight of day 0;
      a [timedelta] is a number of microseconds.  Both are unbounded
      integers: the range limits of Python's [datetime] (years 1..9999) are
      not modelled, and the limit of [timedelta] appears where a theorem
      needs it, as [timedelta_max].
    - A Python [float] is the rational it denotes; every floating-point
      operation rounds its exact result with a function [fl].  The
      definitions take [fl] as a parameter, the theorems hold for every
      [fl] in the class [Rounding], and [binary64], the rounding of the
      program, is shown to be in it.
    - A text (a Python [str]) is the string of the bytes of its UTF-8
      encoding; the library functions that look at characters decode it.
      The decimal digits and the white space are those of Unicode 14.0,
      the tables of CPython 3.11.  The limit that this interpreter puts on
      the number of digits of a decimal text
      ([sys.int_max_str_digits], 4300 unless the setting is changed) is a
      setting of the interpreter and is not modelled.
    - [print] and [logging.info] output is not modelled, the visible
      effects (banners, sounds, message boxes, logged errors) are recorded
      in an event log. *)

From Stdlib Require Import ZArith QArith Qround Qabs Qpower Lqa Lia String Ascii.
From Stdlib Require Import DecimalString DecimalZ DecimalPos.
From stdpp Require Import gmap strings list.

Local Open Scope Z_scope.

(** * Python library functions used by the program *)
Module Py.

(** ** Characters

    The code points of a text.  Bytes that are no UTF-8 encoding (no
    Python [str] has them) are read as U+FFFD. *)

Definition byte (c : ascii) : Z := Z.of_nat (nat_of_ascii c).

Definition continuation (c : ascii) : option Z :=
  if (128 <=? byte c) && (byte c <? 192) then Some (byte c - 128) else None.

Definition replacement : Z := 65533.

Fixpoint code_points (s : string) : list Z :=
  match s with
  | EmptyString => []
  | String c r =>
      let b := byte c in
      if b <? 128 then b :: code_points r
      else
        match r with
        | String c1 r1 =>
            match continuation c1 with
            | Some x1 =>
                if (192 <=? b) && (b <? 224) then ((b - 192) * 64 + x1) :: code_points r1
                else
                  match r1 with
                  | String c2 r2 =>
                      match continuation c2 with
                      | Some x2 =>
                          if (224 <=? b) && (b <? 240)
                          then (((b - 224) * 64 + x1) * 64 + x2) :: code_points r2
                          else
                            match r2 with
                            | String c3 r3 =>
                                match continuation c3 with
                                | Some x3 =>
                                    if (240 <=? b) && (b <? 248)
                                    then ((((b - 240) * 64 + x1) * 64 + x2) * 64 + x3)
                                           :: code_points r3
                                    else replacement :: code_points r
                                | None => replacement :: code_points r
                                end
                            | EmptyString => replacement :: code_points r
                            end
                      | None => replacement :: code_points r
                      end
                  | EmptyString => replacement :: code_points r
                  end
            | None => replacement :: code_points r
            end
        | EmptyString => [replacement]
        end
  end.

(** The characters of general category Nd come in runs of ten, the digits
    0 to 9 of a script; these are the code points of the zeros. *)
Definition digit_zeros : list Z :=
  [48; 1632; 1776; 1984; 2406; 2534; 2662; 2790; 2918; 3046; 3174; 3302; 3430; 3558;
   3664; 3792; 3872; 4160; 4240; 6112; 6160; 6470; 6608; 6784; 6800; 6992; 7088; 7232;
   7248; 42528; 43216; 43264; 43472; 43504; 43600; 44016; 65296; 66720; 68912; 69734;
   69872; 69942; 70096; 70384; 70736; 70864; 71248; 71360; 71472; 71904; 72016; 72784;
   73040; 73120; 92768; 92864; 93008; 120782; 120792; 120802; 120812; 120822; 123200;
   123632; 125264; 130032].

(** [Py_UNICODE_TODECIMAL]: the value of a decimal digit of any script;
    these are also the characters that [\d] matches in a [str] pattern. *)
Definition decimal (cp : Z) : option Z :=
  match List.find (fun z => (z <=? cp) && (cp <=? z + 9)) digit_zeros with
  | Some z => Some (cp - z)
  | None => None
  end.

(** [Py_UNICODE_ISSPACE] from U+007F on. *)
Definition is_unicode_space (cp : Z) : bool :=
  (cp =? 133) || (cp =? 160) || (cp =? 5760) || ((8192 <=? cp) && (cp <=? 8202))
  || (cp =? 8232) || (cp =? 8233) || (cp =? 8239) || (cp =? 8287) || (cp =? 12288).

Definition digit_char (d : Z) : ascii := ascii_of_nat (48 + Z.to_nat d).

(** What [int()] makes of a character before it reads the text
    ([_PyUnicode_TransformDecimalAndSpaceToASCII]): characters below U+007F
    stay, other white space becomes a space, other digits become ASCII
    digits, and anything else a question mark, which no number contains
    (the text is cut after it). *)
Definition to_ascii (cp : Z) : ascii :=
  if cp <? 127 then ascii_of_nat (Z.to_nat cp)
  else if is_unicode_space cp then " "%char
  else match decimal cp with
       | Some d => digit_char d
       | None => "?"%char
       end.

Definition transform (s : string) : string :=
  string_of_list_ascii (List.map to_ascii (code_points s)).

(** ** [int(text)] and [str(n)]

    [int] turns the text into ASCII as above, strips the white space that
    C's [isspace] knows, accepts an optional sign and then decimal digits,
    between which single underscores may stand.  [None] is Python's
    [ValueError]. *)

Definition is_space (c : ascii) : bool :=
  let n := nat_of_ascii c in
  (Nat.eqb n 32 || (Nat.leb 9 n && Nat.leb n 13))%bool.

Fixpoint lstrip (s : string) : string :=
  match s with
  | String c r => if is_space c then lstrip r else s
  | EmptyString => EmptyString
  end.

Fixpoint rstrip (s : string) : string :=
  match s with
  | String c r =>
      match rstrip r with
      | EmptyString => if is_space c then EmptyString else String c EmptyString
      | r' => String c r'
      end
  | EmptyString => EmptyString
  end.

Definition strip (s : string) : string := rstrip (lstrip s).

(** The digits of a text in which underscores group them: no underscore
    first, last or next to another one, and at least one character. *)
Fixpoint ungroup (after_digit : bool) (s : string) : option string :=
  match s with
  | EmptyString => if after_digit then Some EmptyString else None
  | String c r =>
      if Ascii.eqb c "_"%char then
        if after_digit then ungroup false r else None
      else String c <$> ungroup true r
  end.

(** An unsigned decimal numeral with digit grouping. *)
Definition digits (s : string) : option Z :=
  match ungroup false s with
  | Some d => Z.of_uint <$> NilZero.uint_of_string d
  | None => None
  end.

(** [int(text)] of a [str]: the characters are transformed, the white
    space around is dropped, and what is left has to be an optional sign
    and a decimal numeral, with or without digit grouping; [None] stands
    for the [ValueError] that [int()] raises otherwise. *)
Definition int (s : string) : option Z :=
  match strip (transform s) with
  | EmptyString => None
  | String c r =>
      if Ascii.eqb c "+"%char then digits r
      else if Ascii.eqb c "-"%char then Z.opp <$> digits r
      else digits (String c r)
  end.

(** [str(n)] of an [int] *)
Definition str (n : Z) : string := NilZero.string_of_int (Z.to_int n).

(** ** Dates and times *)

Definition datetime := Z.
Definition timedelta := Z.

Definition us_per_second : Z := 1000000.
Definition us_per_day : Z := 86400 * us_per_second.

(** [datetime.time] as produced by [strptime("%H:%M:%S")]: the
    microsecond field is always 0. *)
Record time := mk_time { hour : Z; minute : Z; second : Z }.

Definition time_us (t : time) : Z :=
  ((hour t * 60 + minute t) * 60 + second t) * us_per_second.

(** [dt.date()], as a day number. *)
Definition date (dt : datetime) : Z := dt / us_per_day.

(** [datetime.combine(d, t)] *)
Definition combine (d : Z) (t : time) : datetime := d * us_per_day + time_us t.

(** [datetime.timedelta(days=d)] *)
Definition days (d : Z) : timedelta := d * us_per_day.

(** [datetime.timedelta(minutes=m, seconds=s)] *)
Definition mk_timedelta (m s : Z) : timedelta := (m * 60 + s) * us_per_second.

(** [dt.time()] truncated to whole seconds, the part [strftime] prints. *)
Definition time_of (dt : datetime) : time :=
  let s := (dt mod us_per_day) / us_per_second in
  {| hour := s / 3600; minute := (s / 60) mod 60; second := s mod 60 |}.

(** ["%02d"] for a value in 0..99 *)
Definition two_digits (n : Z) : string :=
  String (digit_char (n / 10)) (String (digit_char (n mod 10)) EmptyString).

Definition format_HMS (t : time) : string :=
  (two_digits (hour t) ++ ":" ++ two_digits (minute t) ++ ":"
     ++ two_digits (second t))%string.

(** [dt.strftime("%H:%M:%S")] *)
Definition strftime_HMS (dt : datetime) : string := format_HMS (time_of dt).

(** An ASCII digit between [lo] and [hi], a character class [[lo-hi]] of
    the pattern. *)
Definition ascii_digit (lo hi cp : Z) : option Z :=
  if (48 + lo <=? cp) && (cp <=? 48 + hi) then Some (cp - 48) else None.

(** A field that matches [[0-k]\d|\d]: one digit of any script, or an
    ASCII digit up to [k] and a digit of any script. *)
Definition field_val (k : Z) (cps : list Z) : option Z :=
  match cps with
  | [a] => decimal a
  | [a; b] =>
      match ascii_digit 0 k a, decimal b with
      | Some x, Some y => Some (10 * x + y)
      | _, _ => None
      end
  | _ => None
  end.

(** The hour, [2[0-3]|[0-1]\d|\d]. *)
Definition hour_val (cps : list Z) : option Z :=
  match cps with
  | [a; b] =>
      if a =? 50 then
        match ascii_digit 0 3 b with
        | Some y => Some (20 + y)
        | None => None
        end
      else field_val 1 cps
  | _ => field_val 1 cps
  end.

(** The fields of a text between its colons. *)
Fixpoint split_colon (s : string) : list string :=
  match s with
  | EmptyString => [EmptyString]
  | String c r =>
      if Ascii.eqb c ":"%char then EmptyString :: split_colon r
      else match split_colon r with
           | f :: fs => String c f :: fs
           | [] => [String c EmptyString]
           end
  end.

(** [datetime.strptime(text, "%H:%M:%S").time()]: the text has to match
    [(2[0-3]|[0-1]\d|\d):([0-5]\d|\d):(6[0-1]|[0-5]\d|\d)] as a whole,
    where [\d] is a decimal digit of any script and the classes are ASCII.
    A second field of 60 or 61 matches, but the [datetime] constructor
    refuses it, so the call raises [ValueError] as for a mismatch. *)
Definition strptime_HMS (s : string) : option time :=
  match split_colon s with
  | [h; m; sec] =>
      match hour_val (code_points h), field_val 5 (code_points m),
            field_val 5 (code_points sec) with
      | Some hh, Some mm, Some ss => Some {| hour := hh; minute := mm; second := ss |}
      | _, _, _ => None
      end
  | _ => None
  end.

(** [str(datetime.timedelta(seconds=n))] *)
Definition str_timedelta (n : Z) : string :=
  let d := n / 86400 in
  let s := n mod 86400 in
  let hms := (str (s / 3600) ++ ":" ++ two_digits ((s / 60) mod 60) ++ ":"
                ++ two_digits (s mod 60))%string in
  if d =? 0 then hms
  else (str d ++ (if (Z.abs d =? 1)%Z then " day, " else " days, ") ++ hms)%string.

End Py.

(** * Floating point

    [timedelta.total_seconds()] and the progress computation work on
    Python floats (IEEE binary64).  A float is modelled by the rational it
    denotes and an operation by the exact operation followed by the
    rounding [fl].  The proofs use three properties of rounding to nearest:
    it is monotone, it leaves integers up to 2^53 unchanged, and on normal
    numbers its relative error is at most 2^-53.  Overflow and gradual
    underflow are not modelled: the quantities of the program, seconds
    between 10^-6 and the length of a period, are normal numbers. *)

Definition normal_min : Q := 1 # (2 ^ 1022).
Definition normal_max : Q := inject_Z (2 ^ 1023).
Definition unit_roundoff : Q := 1 # (2 ^ 53).

Class Rounding (fl : Q -> Q) : Prop := {
  fl_mono : forall x y : Q, (x <= y)%Q -> (fl x <= fl y)%Q;
  fl_int : forall n : Z, - 2 ^ 53 <= n <= 2 ^ 53 -> (fl (inject_Z n) == inject_Z n)%Q;
  fl_err : forall x : Q, (normal_min <= Qabs x)%Q -> (Qabs x <= normal_max)%Q ->
           (Qabs (fl x - x) <= unit_roundoff * Qabs x)%Q
}.

(** Exact arithmetic, the rounding that changes nothing. *)
Definition no_rounding (x : Q) : Q := x.

(** Round to the nearest integer, ties to the even one. *)
Definition round_half_even (x : Q) : Z :=
  let f := Qfloor x in
  match (x - inject_Z f ?= 1 # 2)%Q with
  | Lt => f
  | Gt => f + 1
  | Eq => if Z.even f then f else f + 1
  end.

(** For positive [x], the [e] with [2^e <= x < 2^(e+1)]. *)
Definition exponent (x : Q) : Z :=
  let k := Z.log2 (Qnum x) - Z.log2 (Zpos (Qden x)) in
  if Qle_bool (2 ^ k) x then k else k - 1.

(** Rounding of a positive number to 53 significant bits. *)
Definition round53 (x : Q) : Q :=
  let e := exponent x - 52 in
  (inject_Z (round_half_even (x / 2 ^ e)) * 2 ^ e)%Q.

(** IEEE 754 binary64 rounding to nearest, ties to even, of a number in
    the range of the normal numbers (exponents are not limited here). *)
Definition binary64 (x : Q) : Q :=
  match (x ?= 0)%Q with
  | Eq => 0%Q
  | Gt => round53 x
  | Lt => (- round53 (- x))%Q
  end.

(** [int(x)] of a float: truncation toward zero. *)
Definition trunc (x : Q) : Z := Z.quot (Qnum x) (Zpos (Qden x)).

(** * The table and the application state *)

(** One row of [self.table].  Column 0 (the sequence number) carries no
    information and is left out. *)
Record row := mk_row {
  boss_name : string;        (* column 1, item text *)
  period_min : string;       (* column 2, QLineEdit text *)
  period_sec : string;       (* column 3, QLineEdit text *)
  last_time : string;        (* column 4, item text *)
  next_time : string;        (* column 5, item text *)
  remaining_time : string;   (* column 6, item text *)
  enabled : bool;            (* column 7, QCheckBox *)
  progress_value : Z;        (* column 8, QProgressBar value *)
  progress_format : string   (* column 8, QProgressBar format *)
}.

Inductive sound := AlarmWav | WarningWav.

(** Visible effects, in the order they happen. *)
Inductive event :=
| Banner (boss : string)               (* show_alert: "<boss> refreshes in 3 minutes" *)
| PlaySound (s : sound)                (* play_sound *)
| MessageBox (boss : string) (shown : string)    (* the "BOSS refreshed" box *)
| LogRowError (i : nat)                (* logging.error in refresh_all_timers *)
| LogSaveError                         (* logging.error in save_config *)
| LogLoadError.                        (* logging.error in load_config *)

(** Values found in the configuration file. *)
Inductive json := JStr (s : string) | JInt (n : Z) | JBool (b : bool).

(** [BossTimer] with its surroundings: the successive readings of
    [datetime.datetime.now()] and the content of [boss_config.json]
    ([None]: no such file), a JSON array of flat objects. *)
Record BossTimer := mk_BossTimer {
  table : list row;
  ringing : bool;                              (* self.ringing *)
  auto_time : bool;                            (* the "auto mode" radio button *)
  clock : nat -> Py.datetime;                  (* n-th reading of now() *)
  reads : nat;                                 (* readings taken so far *)
  log : list event;
  config_file : option (list (gmap string json))
}.

Definition set_table (t : list row) (st : BossTimer) : BossTimer :=
  mk_BossTimer t (ringing st) (auto_time st) (clock st) (reads st) (log st) (config_file st).
Definition set_ringing (b : bool) (st : BossTimer) : BossTimer :=
  mk_BossTimer (table st) b (auto_time st) (clock st) (reads st) (log st) (config_file st).
Definition set_auto_time (b : bool) (st : BossTimer) : BossTimer :=
  mk_BossTimer (table st) (ringing st) b (clock st) (reads st) (log st) (config_file st).
Definition emit (e : event) (st : BossTimer) : BossTimer :=
  mk_BossTimer (table st) (ringing st) (auto_time st) (clock st) (reads st) (log st ++ [e])
    (config_file st).
Definition set_config_file (f : option (list (gmap string json))) (st : BossTimer) : BossTimer :=
  mk_BossTimer (table st) (ringing st) (auto_time st) (clock st) (reads st) (log st) f.

(** [datetime.datetime.now()] *)
Definition now (st : BossTimer) : Py.datetime * BossTimer :=
  (clock st (reads st),
   mk_BossTimer (table st) (ringing st) (auto_time st) (clock st) (S (reads st)) (log st)
     (config_file st)).

(** Update of row [i] of the table; no effect when there is no such row. *)
Definition update_row (i : nat) (f : row -> row) (st : BossTimer) : BossTimer :=
  match table st !! i with
  | Some r => set_table (<[i := f r]> (table st)) st
  | None => st
  end.

Definition set_last_time (s : string) (r : row) : row :=
  mk_row (boss_name r) (period_min r) (period_sec r) s (next_time r) (remaining_time r)
    (enabled r) (progress_value r) (progress_format r).
Definition set_next_time (s : string) (r : row) : row :=
  mk_row (boss_name r) (period_min r) (period_sec r) (last_time r) s (remaining_time r)
    (enabled r) (progress_value r) (progress_format r).
Definition set_remaining_time (s : string) (r : row) : row :=
  mk_row (boss_name r) (period_min r) (period_sec r) (last_time r) (next_time r) s
    (enabled r) (progress_value r) (progress_format r).
Definition set_enabled (b : bool) (r : row) : row :=
  mk_row (boss_name r) (period_min r) (period_sec r) (last_time r) (next_time r)
    (remaining_time r) b (progress_value r) (progress_format r).
Definition set_boss_name (s : string) (r : row) : row :=
  mk_row s (period_min r) (period_sec r) (last_time r) (next_time r)
    (remaining_time r) (enabled r) (progress_value r) (progress_format r).
Definition set_period_min (s : string) (r : row) : row :=
  mk_row (boss_name r) s (period_sec r) (last_time r) (next_time r)
    (remaining_time r) (enabled r) (progress_value r) (progress_format r).
Definition set_period_sec (s : string) (r : row) : row :=
  mk_row (boss_name r) (period_min r) s (last_time r) (next_time r)
    (remaining_time r) (enabled r) (progress_value r) (progress_format r).

(** [QProgressBar.setValue(v)] then [setFormat(f"{v}%")]: Qt ignores a value
    outside the bar's range 0..100, the format is set regardless. *)
Definition set_progress (v : Z) (r : row) : row :=
  mk_row (boss_name r) (period_min r) (period_sec r) (last_time r) (next_time r)
    (remaining_time r) (enabled r)
    (if (0 <=? v) && (v <=? 100) then v else progress_value r)
    (Py.str v ++ "%")%string.

(** * The recurrence computation (refresh_all_timers, lines 674-681) *)

(** Lines 674-676: the last trigger on today's date, or on yesterday's when
    that lies in the future. *)
Definition last_occurrence (now : Py.datetime) (last : Py.time) : Py.datetime :=
  let last_dt := Py.combine (Py.date now) last in
  if now <? last_dt then last_dt - Py.days 1 else last_dt.

(** Lines 680-681: [while next_time < now: next_time += period].  Each
    execution of the loop body takes one unit of [fuel]; [None] says that
    the loop was still running when the fuel ran out. *)
Fixpoint advance (fuel : nat) (next period now : Z) : option Z :=
  if next <? now then
    match fuel with
    | O => None
    | S fuel' => advance fuel' (next + period) period now
    end
  else Some next.

(** Lines 674-681, the spec's [computeNextOccurrence]. *)
Definition computeNextOccurrence (fuel : nat) (last : Py.time) (period : Py.timedelta)
    (now : Py.datetime) : option Py.datetime :=
  advance fuel (last_occurrence now last + period) period now.

(** Lines 668-672: the three fields of a row read by the pass; [None] when
    [int()] or [strptime] raises. *)
Definition parse_row (r : row) : option (Z * Z * Py.time) :=
  match Py.int (period_min r), Py.int (period_sec r), Py.strptime_HMS (last_time r) with
  | Some m, Some s, Some t => Some (m, s, t)
  | _, _, _ => None
  end.

Definition show_alert (boss : string) (st : BossTimer) : BossTimer := emit (Banner boss) st.
Definition play_sound (s : sound) (st : BossTimer) : BossTimer := emit (PlaySound s) st.
Definition play_warning_sound (st : BossTimer) : BossTimer := play_sound WarningWav st.

(** [stop_alarm_sound]: the flag is cleared in the [finally] branch. *)
Definition stop_alarm_sound (st : BossTimer) : BossTimer := set_ringing false st.

Definition Qltb (x y : Q) : bool := negb (Qle_bool y x).

(** The exact quotient that [total_seconds] rounds. *)
Definition secs (td : Py.timedelta) : Q := inject_Z td / inject_Z Py.us_per_second.
Arguments secs td%_Z.

Section Timer.
Context (fl : Q -> Q).

(** [td.total_seconds()]: microseconds divided by 10^6, rounded once. *)
Definition total_seconds (td : Py.timedelta) : Q := fl (secs td).

(** Line 708: [int((1 - remaining / total_sec) * 100)] *)
Definition progress_percent (remaining total_sec : Q) : Z :=
  trunc (fl (fl (1 - fl (remaining / total_sec)) * 100)).

(** The spec's [computeDisplayState]: what [update_row_display] computes
    from its arguments before writing it to the row. *)
Definition computeDisplayState (next_time period now : Z) : Q * option Z :=
  let remaining := total_seconds (next_time - now) in
  let total_sec := total_seconds period in
  (remaining, if Qltb 0 total_sec then Some (progress_percent remaining total_sec) else None).

Definition update_row_display (i : nat) (next_time period now : Z) (st : BossTimer) : BossTimer :=
  let st := update_row i (set_next_time (Py.strftime_HMS next_time)) st in
  let remaining := total_seconds (next_time - now) in
  let st := update_row i (set_remaining_time (Py.str_timedelta (trunc remaining))) st in
  let total_sec := total_seconds period in
  if Qltb 0 total_sec
  then update_row i (set_progress (progress_percent remaining total_sec)) st
  else st.

(** [update_boss_time]; [refresh] is [refresh_all_timers]. *)
Definition update_boss_time (refresh : BossTimer -> option BossTimer) (i : nat)
    (st : BossTimer) : option BossTimer :=
  let (t, st) := now st in
  refresh (update_row i (set_last_time (Py.strftime_HMS t)) st).

Definition trigger_alarm (refresh : BossTimer -> option BossTimer) (i : nat) (next_time : Z)
    (st : BossTimer) : option BossTimer :=
  let st := set_ringing true st in
  match table st !! i with
  | None => Some st
  | Some r =>
      let st := play_sound AlarmWav st in
      let st := emit (MessageBox (boss_name r) (Py.strftime_HMS next_time)) st in
      if auto_time st then update_boss_time refresh i st else Some st
  end.

Definition check_alert_conditions (refresh : BossTimer -> option BossTimer) (i : nat)
    (next_time now : Z) (st : BossTimer) : option BossTimer :=
  match table st !! i with
  | None => Some st
  | Some r =>
      if negb (enabled r) then Some st
      else
        let remaining := total_seconds (next_time - now) in
        let st :=
          if Qle_bool 178 remaining && Qle_bool remaining 180
          then play_warning_sound (show_alert (boss_name r) st)
          else st in
        if Qle_bool remaining 0 && negb (ringing st)
        then trigger_alarm refresh i next_time st
        else Some st
  end.

(** The body of the loop of [refresh_all_timers] for row [i].  Every row
    has all its cells ([add_boss_row] creates them), so [is_row_valid]
    holds; the exceptions of the body are those of [int()] and [strptime],
    caught and logged by its [except] clause. *)
Definition refresh_row (fuel : nat) (refresh : BossTimer -> option BossTimer) (now : Z) (i : nat)
    (st : BossTimer) : option BossTimer :=
  match table st !! i with
  | None => Some st
  | Some r =>
      match parse_row r with
      | None => Some (emit (LogRowError i) st)
      | Some (m, s, last) =>
          let period := Py.mk_timedelta m s in
          match computeNextOccurrence fuel last period now with
          | None => None
          | Some next_time =>
              check_alert_conditions refresh i next_time now
                (update_row_display i next_time period now st)
          end
      end
  end.

Fixpoint for_rows (body : nat -> BossTimer -> option BossTimer) (rows : list nat) (st : BossTimer)
    : option BossTimer :=
  match rows with
  | [] => Some st
  | i :: rest =>
      match body i st with
      | Some st' => for_rows body rest st'
      | None => None
      end
  end.

(** [refresh_all_timers]: one reading of the clock, then every row in
    order.  [fuel] bounds both the nesting of passes (an alarm in auto mode
    starts a pass inside the pass) and the iterations of each recurrence
    loop; [None] means that it did not suffice. *)
Fixpoint refresh_all_timers (fuel : nat) (st : BossTimer) : option BossTimer :=
  match fuel with
  | O => None
  | S fuel' =>
      let (t, st) := now st in
      for_rows (refresh_row fuel (refresh_all_timers fuel') t)
        (seq 0 (List.length (table st))) st
  end.

End Timer.

Arguments total_seconds fl td%_Z.

(** * Rows, user actions and the event loop *)

Definition default_name : string := "新BOSS".

(** [add_boss_row]: a new last row with the default cells; a fresh
    [QProgressBar] has value -1 and format "%p%". *)
Definition add_boss_row (st : BossTimer) : BossTimer :=
  let (t, st) := now st in
  set_table
    (table st ++
       [mk_row default_name "60" "0" (Py.strftime_HMS t) "" "" true (-1) "%p%"])
    st.

(** [delete_selected_row] with row [i] selected. *)
Definition delete_selected_row (i : nat) (st : BossTimer) : BossTimer :=
  set_table (delete i (table st)) st.

(** What the user, the timers and the dialogs can make happen. *)
Inductive input :=
| Tick                                  (* refresh_timer fires *)
| StopAlarm                             (* mute button, or the alarm box is closed *)
| ForceRefresh                          (* refresh button *)
| AddBoss                               (* new button *)
| DeleteRow (i : nat)                   (* delete button, row i selected *)
| EditLastTime (i : nat) (s : string)   (* double click on column 4, text accepted *)
| SetPeriodMin (i : nat) (s : string)   (* typing in column 2 *)
| SetPeriodSec (i : nat) (s : string)   (* typing in column 3 *)
| SetEnabled (i : nat) (b : bool)       (* check box of column 7 *)
| SetAutoMode (b : bool).               (* radio buttons *)

Section Loop.
Context (fl : Q -> Q).

(** [handle_cell_edit] for column 4: only in manual mode, and only a text
    that [is_valid_time] accepts. *)
Definition handle_cell_edit (fuel : nat) (i : nat) (s : string) (st : BossTimer)
    : option BossTimer :=
  if negb (auto_time st) then
    match Py.strptime_HMS s with
    | Some _ => refresh_all_timers fl fuel (update_row i (set_last_time s) st)
    | None => Some st
    end
  else Some st.

Definition step (fuel : nat) (inp : input) (st : BossTimer) : option BossTimer :=
  match inp with
  | Tick => refresh_all_timers fl fuel st
  | StopAlarm => Some (stop_alarm_sound st)
  | ForceRefresh => refresh_all_timers fl fuel st
  | AddBoss => Some (add_boss_row st)
  | DeleteRow i => Some (delete_selected_row i st)
  | EditLastTime i s => handle_cell_edit fuel i s st
  | SetPeriodMin i s => Some (update_row i (set_period_min s) st)
  | SetPeriodSec i s => Some (update_row i (set_period_sec s) st)
  | SetEnabled i b => Some (update_row i (set_enabled b) st)
  | SetAutoMode b => Some (set_auto_time b st)
  end.

Fixpoint run (fuel : nat) (inps : list input) (st : BossTimer) : option BossTimer :=
  match inps with
  | [] => Some st
  | inp :: rest =>
      match step fuel inp st with
      | Some st' => run fuel rest st'
      | None => None
      end
  end.

End Loop.

(** * The configuration file *)

(** One object of the array written by [save_config]; [None] when [int()]
    raises on one of the period texts. *)
Definition config_item (r : row) : option (gmap string json) :=
  match Py.int (period_min r), Py.int (period_sec r) with
  | Some m, Some s =>
      Some (<["name" := JStr (boss_name r)]>
            (<["minutes" := JInt m]>
             (<["seconds" := JInt s]>
              (<["last_time" := JStr (last_time r)]>
               (<["enabled" := JBool (enabled r)]> ∅)))))
  | _, _ => None
  end.

(** [save_config]: the list is built first, so an exception leaves the
    file as it was and is logged. *)
Definition save_config (st : BossTimer) : BossTimer :=
  match mapM config_item (table st) with
  | Some config => set_config_file (Some config) st
  | None => emit LogSaveError st
  end.

(** [str(v)] *)
Definition json_str (v : json) : string :=
  match v with
  | JStr s => s
  | JInt n => Py.str n
  | JBool b => if b then "True" else "False"
  end.

(** The argument of [setText] must be a [str]. *)
Definition as_text (v : json) : option string :=
  match v with JStr s => Some s | _ => None end.

(** The argument of [setChecked] must be a [bool] or an [int]. *)
Definition as_bool (v : json) : option bool :=
  match v with
  | JBool b => Some b
  | JInt n => Some (negb (n =? 0))
  | JStr _ => None
  end.

(** The body of the loop of [load_config]; the flag is [false] when a
    [TypeError] ended it ([str(...)] never raises). *)
Definition load_item (item : gmap string json) (st : BossTimer) : BossTimer * bool :=
  let st := add_boss_row st in
  let i := (List.length (table st) - 1)%nat in
  match as_text (default (JStr default_name) (item !! "name")) with
  | None => (st, false)
  | Some name =>
      let st := update_row i (set_boss_name name) st in
      let st := update_row i
                  (set_period_min (json_str (default (JInt 60) (item !! "minutes")))) st in
      let st := update_row i
                  (set_period_sec (json_str (default (JInt 0) (item !! "seconds")))) st in
      match as_text (default (JStr "00:00:00") (item !! "last_time")) with
      | None => (st, false)
      | Some t =>
          let st := update_row i (set_last_time t) st in
          match as_bool (default (JBool true) (item !! "enabled")) with
          | None => (st, false)
          | Some b => (update_row i (set_enabled b) st, true)
          end
      end
  end.

Fixpoint load_items (config : list (gmap string json)) (st : BossTimer) : BossTimer * bool :=
  match config with
  | [] => (st, true)
  | item :: rest =>
      let (st', ok) := load_item item st in
      if ok then load_items rest st' else (st', false)
  end.

(** [load_config]: nothing happens without a file. *)
Definition load_config (st : BossTimer) : BossTimer :=
  match config_file st with
  | None => st
  | Some config =>
      let (st', ok) := load_items config st in
      if ok then st' else emit LogLoadError st'
  end.

(** The fields of a row that the configuration file keeps. *)
Definition entry_of_row (r : row) : string * option Z * option Z * string * bool :=
  (boss_name r, Py.int (period_min r), Py.int (period_sec r), last_time r, enabled r).

(** * Vocabulary of the specification *)

Inductive AlertState := NoAlert | PreWarning | Due.

(** The decision of [check_alert_conditions] (lines 714-728) as a function
    of the remaining seconds, the check box and [self.ringing]: the tests in
    the order of the source, the first that holds decides. *)
Definition classifyAlert (remainingSeconds : Q) (enabled alreadyRinging : bool)
    : AlertState :=
  if negb enabled then NoAlert
  else if Qle_bool 178 remainingSeconds && Qle_bool remainingSeconds 180 then PreWarning
  else if Qle_bool remainingSeconds 0 && negb alreadyRinging then Due
  else NoAlert.

(** What [check_alert_conditions] does to the state for each decision. *)
Definition alert_action (refresh : BossTimer -> option BossTimer) (i : nat) (boss : string)
    (next_time : Z) (a : AlertState) (st : BossTimer) : option BossTimer :=
  match a with
  | NoAlert => Some st
  | PreWarning => Some (play_warning_sound (show_alert boss st))
  | Due => trigger_alarm refresh i next_time st
  end.

(** A time of day as [strptime] returns it. *)
Definition valid_time (t : Py.time) : Prop :=
  0 <= Py.hour t <= 23 /\ 0 <= Py.minute t <= 59 /\ 0 <= Py.second t <= 59.

(** How often the body of the loop of lines 680-681 runs when it starts
    from [next], in closed form. *)
Definition iterations (next period now : Z) : Z :=
  Z.max 0 ((now - next + period - 1) / period).

(** The number of periods that lines 679-681 add to the anchor, in closed
    form: the quotient of the elapsed time by the period, rounded up, and at
    least one. *)
Definition periods_added (anchor period now : Z) : Z :=
  Z.max 1 ((now - anchor + period - 1) / period).

Definition closed_form (anchor period now : Z) : Z :=
  anchor + periods_added anchor period now * period.



(** Alarms started so far: [trigger_alarm] plays [alarm.wav] exactly once. *)
Definition is_alarm (e : event) : bool :=
  match e with PlaySound AlarmWav => true | _ => false end.

Definition alarms (st : BossTimer) : nat := List.length (List.filter is_alarm (log st)).

(** Rows whose alarm box was shown, in order. *)
Definition alarm_boxes (st : BossTimer) : list string :=
  omap (fun e => match e with MessageBox boss _ => Some boss | _ => None end) (log st).

(** Pre-warning banners shown so far. *)
Definition is_banner (e : event) : bool :=
  match e with Banner _ => true | _ => false end.

Definition banners (st : BossTimer) : nat := List.length (List.filter is_banner (log st)).

Definition is_stop (inp : input) : bool :=
  match inp with StopAlarm => true | _ => false end.

(** The ticks of a 1 Hz timer: [n] readings one second apart from [t0]. *)
Definition ticks_1Hz (t0 : Py.datetime) (n : nat) : list Py.datetime :=
  List.map (fun k => t0 + Z.of_nat k * Py.us_per_second) (seq 0 n).

(** How many of the given ticks raise the pre-warning of an enabled row
    whose next occurrence is [next_time]. *)
Definition prewarnings (fl : Q -> Q) (next_time : Z) (ringing_at : Z -> bool)
    (ticks : list Py.datetime) : nat :=
  List.length
    (List.filter
       (fun t =>
          match classifyAlert (total_seconds fl (next_time - t)) true (ringing_at t) with
          | PreWarning => true
          | _ => false
          end)
       ticks).

(** A window with one row and a clock given by a list of readings (the
    last one repeats). *)
Definition one_row (name mins secs last : string) (on : bool) : row :=
  mk_row name mins secs last "" "" on (-1) "%p%".

Definition clock_of (readings : list Py.datetime) (n : nat) : Py.datetime :=
  List.nth n readings (List.last readings 0).

Definition window (rows : list row) (auto : bool) (readings : list Py.datetime) : BossTimer :=
  mk_BossTimer rows false auto (clock_of readings) 0 [] None.

(** Day 739000 at the given time of day. *)
Definition at_time (h m s us : Z) : Py.datetime :=
  Py.combine 739000 (Py.mk_time h m s) + us.

(** The row that [update_row_display] leaves in place of [r]. *)
Definition displayed (fl : Q -> Q) (next_time period now : Z) (r : row) : row :=
  let r := set_next_time (Py.strftime_HMS next_time) r in
  let r := set_remaining_time
             (Py.str_timedelta (trunc (fst (computeDisplayState fl next_time period now)))) r in
  match snd (computeDisplayState fl next_time period now) with
  | Some p => set_progress p r
  | None => r
  end.

(** How a run without acknowledgment may change the flag and the number
    of alarms: nothing changes while the flag is set, and from a clear flag
    either nothing changes or the flag is set and one alarm was started. *)
Definition at_most_one_alarm (st st' : BossTimer) : Prop :=
  (ringing st = true -> ringing st' = true /\ alarms st' = alarms st) /\
  (ringing st = false ->
   (ringing st' = false /\ alarms st' = alarms st) \/
   (ringing st' = true /\ alarms st' = S (alarms st))).

(** Two rows with the same period and last time, in manual mode, evaluated
    at the very microsecond both are due. *)
Definition two_due_rows : BossTimer :=
  window [one_row "A" "60" "0" "10:00:00" true; one_row "B" "60" "0" "10:00:00" true]
    false [at_time 11 0 0 0].

(** What the pass started inside an alarm has to respect. *)
Definition keeps_one_alarm (refresh : BossTimer -> option BossTimer) : Prop :=
  forall st st', refresh st = Some st' -> at_most_one_alarm st st'.

(** Texts of ASCII digits. *)
Fixpoint all_digits (s : string) : bool :=
  match s with
  | EmptyString => true
  | String c r => (48 <=? Py.byte c) && (Py.byte c <=? 57) && all_digits r
  end.

(** Texts without white space. *)
Fixpoint no_space (s : string) : bool :=
  match s with
  | EmptyString => true
  | String c r => negb (Py.is_space c) && no_space r
  end.

(** The row that [load_config] builds from the object that [save_config]
    wrote for a row with periods [m] and [s]. *)
Definition reloaded (r : row) (m s : Z) : row :=
  mk_row (boss_name r) (Py.str m) (Py.str s) (last_time r) "" "" (enabled r) (-1) "%p%".

(** Fuel for a day of one-second periods. *)
Definition day_fuel : nat := Z.to_nat 86400.

(** A window whose only row has a period of 0 minutes and 0 seconds and
    was last triggered at midnight; the clock shows a second past midnight. *)
Definition zero_period_window : BossTimer :=
  window [one_row "boss" "0" "0" "00:00:00" true] true [at_time 0 0 1 0].


(** * Further parts of the program and of its vocabulary *)

(** [is_valid_time] (lines 650-657) *)
Definition is_valid_time (s : string) : bool :=
  match Py.strptime_HMS s with Some _ => true | None => false end.

(** The cells of a row that only the user changes. *)
Definition settings (r : row) : string * string * string * bool :=
  (boss_name r, period_min r, period_sec r, enabled r).

(** A computation that keeps the property [P] of the window. *)
Definition preserves (P : BossTimer -> Prop) (refresh : BossTimer -> option BossTimer) : Prop :=
  forall st st', refresh st = Some st' -> P st -> P st'.

(** Every last time of the table is a text that [is_valid_time] accepts. *)
Definition last_times_valid (st : BossTimer) : Prop :=
  Forall (fun r => is_valid_time (last_time r) = true) (table st).

(** A row whose period texts, when both are integers, give a positive
    period. *)
Definition period_ok (r : row) : bool :=
  match Py.int (period_min r), Py.int (period_sec r) with
  | Some m, Some s => 0 <? m * 60 + s
  | _, _ => true
  end.

(** No row of the table has period texts that read as a period of zero
    or less. *)
Definition periods_positive (st : BossTimer) : Prop :=
  Forall (fun r => period_ok r = true) (table st).

(** A computation that returns and keeps [P] from every window with [P]
    and [Q]. *)
Definition returns (P Q : BossTimer -> Prop) (refresh : BossTimer -> option BossTimer) : Prop :=
  forall st, P st -> Q st -> exists st', refresh st = Some st' /\ P st' /\ Q st'.

(** The alarm flag is set. *)
Definition is_ringing (st : BossTimer) : Prop := ringing st = true.

(** No condition on the window. *)
Definition any_window (st : BossTimer) : Prop := True.

(** The row that the body of the loop of [load_config] leaves for an
    object of the file; [None] when one of its values has a type that
    [setText] or [setChecked] refuses. *)
Definition row_of_item (item : gmap string json) : option row :=
  match as_text (default (JStr default_name) (item !! "name")),
        as_text (default (JStr "00:00:00") (item !! "last_time")),
        as_bool (default (JBool true) (item !! "enabled")) with
  | Some name, Some last, Some b =>
      Some (mk_row name (json_str (default (JInt 60) (item !! "minutes")))
              (json_str (default (JInt 0) (item !! "seconds"))) last "" "" b (-1) "%p%")
  | _, _, _ => None
  end.

(** * Button colours ([adjust_color], lines 339-347) *)

(** The value of a hexadecimal digit, in either case. *)
Definition hex_val (c : ascii) : option Z :=
  let n := Z.of_nat (nat_of_ascii c) in
  if (48 <=? n) && (n <=? 57) then Some (n - 48)
  else if (97 <=? n) && (n <=? 102) then Some (n - 87)
  else if (65 <=? n) && (n <=? 70) then Some (n - 55)
  else None.

(** Hexadecimal digits with single underscores between them: at least one
    digit, no underscore first, last or after another one. *)
Fixpoint hex_digits (acc : Z) (after_digit : bool) (s : string) : option Z :=
  match s with
  | EmptyString => if after_digit then Some acc else None
  | String c r =>
      if Ascii.eqb c "_"%char then
        if after_digit then hex_digits acc false r else None
      else
        match hex_val c with
        | Some d => hex_digits (16 * acc + d) true r
        | None => None
        end
  end.

(** [int(text, 16)] of an ASCII text: white space around, an optional
    sign, an optional prefix [0x] or [0X] that one underscore may follow,
    then the digits; [None] is Python's [ValueError]. *)
Definition int16 (s : string) : option Z :=
  let s := Py.strip s in
  let '(negative, s) :=
    match s with
    | String c r =>
        if Ascii.eqb c "+"%char then (false, r)
        else if Ascii.eqb c "-"%char then (true, r)
        else (false, s)
    | EmptyString => (false, s)
    end in
  let s :=
    match s with
    | String z (String x r) =>
        if Ascii.eqb z "0"%char && (Ascii.eqb x "x"%char || Ascii.eqb x "X"%char) then
          match r with
          | String u r' => if Ascii.eqb u "_"%char then r' else r
          | EmptyString => r
          end
        else s
    | _ => s
    end in
  match hex_digits 0 false s with
  | Some n => Some (if negative then - n else n)
  | None => None
  end.

(** [text.lstrip('#')] *)
Fixpoint lstrip_hash (s : string) : string :=
  match s with
  | String c r => if Ascii.eqb c "#"%char then lstrip_hash r else s
  | EmptyString => EmptyString
  end.

(** The tuple [rgb]: the slices [0:2], [2:4] and [4:6] read as hexadecimal
    numbers.  A slice that reaches beyond the end of the text is shorter
    or empty, as [substring] is. *)
Definition channels (hex_color : string) : option (Z * Z * Z) :=
  match int16 (substring 0 2 hex_color), int16 (substring 2 2 hex_color),
        int16 (substring 4 2 hex_color) with
  | Some r, Some g, Some b => Some (r, g, b)
  | _, _, _ => None
  end.

(** [min(255, max(0, channel + amount))] *)
Definition new_channel (channel amount : Z) : Z := Z.min 255 (Z.max 0 (channel + amount)).

Definition hex_char (d : Z) : ascii :=
  ascii_of_nat (Z.to_nat (if d <? 10 then 48 + d else 87 + d)).

(** [f"{n:02x}"] for a value in 0..255 *)
Definition format_02x (n : Z) : string :=
  String (hex_char (n / 16)) (String (hex_char (n mod 16)) EmptyString).

Definition adjust_color (hex_color : string) (amount : Z) : option string :=
  match channels (lstrip_hash hex_color) with
  | Some (r, g, b) =>
      Some (String "#"%char
              (format_02x (new_channel r amount) ++ format_02x (new_channel g amount)
                 ++ format_02x (new_channel b amount))%string)
  | None => None
  end.

(** The six colours that [setup_ui] hands to [create_button]. *)
Definition button_colors : list string :=
  ["#4FC3F7"; "#F44336"; "#FF9800"; "#8BC34A"; "#9C27B0"; "#607D8B"]%string.

(** * The update check ([check_for_updates], lines 818-831) *)

Definition VERSION : string := "1.0.0".

(** The three message boxes of [check_for_updates]. *)
Inductive notice := NewVersion (tag : string) | UpToDate | CheckFailed.

(** [tag_name] is the value of [response.json()["tag_name"]], [None] when
    the request, the decoding or the lookup raises.  Python orders [str]
    values by code point, which is the order of their UTF-8 bytes; the
    comparison of a value of another type with a [str] raises
    [TypeError]. *)
Definition check_for_updates (tag_name : option json) : notice :=
  match tag_name with
  | Some (JStr latest_version) =>
      if String.ltb VERSION latest_version then NewVersion latest_version else UpToDate
  | _ => CheckFailed
  end.

(** A release tag of three numbers. *)
Definition version_tag (a b c : Z) : string :=
  (Py.str a ++ "." ++ Py.str b ++ "." ++ Py.str c)%string.

(** Whether version [a.b.c] is later than 1.0.0, as numbers. *)
Definition later_than_1_0_0 (a b c : nat) : bool :=
  (Nat.ltb 1 a || (Nat.eqb a 1 && (Nat.ltb 0 b || Nat.ltb 0 c)))%bool.

(** No row can be classified as due at time [t] with the flag at [b],
    whatever its next occurrence. *)
Definition never_due (fl : Q -> Q) (t : Py.datetime) (b : bool) : Prop :=
  forall next_time e,
    t <= next_time -> next_time mod Py.us_per_second = 0 ->
    classifyAlert (total_seconds fl (next_time - t)) e b <> Due.

(** * Sequence numbers (column 0 of the table) *)

(** Column 0 from top to bottom.  [add_boss_row] gives the new last row
    the text [str(row + 1)] (line 530). *)
Definition add_number (numbers : list string) : list string :=
  numbers ++ [Py.str (Z.of_nat (List.length numbers) + 1)].

(** [renumber_rows] *)
Definition renumber_rows (numbers : list string) : list string :=
  List.map (fun row => Py.str (Z.of_nat row + 1)) (seq 0 (List.length numbers)).

(** [delete_selected_row] on column 0; [currentRow()] is -1 when no row
    is selected. *)
Definition delete_number (row : Z) (numbers : list string) : list string :=
  if 0 <=? row then renumber_rows (delete (Z.to_nat row) numbers) else numbers.

(** The two buttons that change the number of rows. *)
Inductive row_action := NewRow | DeleteSelected (row : Z).

Definition numbers_after (actions : list row_action) : list string :=
  foldl (fun numbers a =>
           match a with
           | NewRow => add_number numbers
           | DeleteSelected row => delete_number row numbers
           end) [] actions.

(** * Windows for the evaluations *)

(** Two rows that the pass cannot read: a period that is no number, an
    hour of 25. *)
Definition malformed_rows : BossTimer :=
  window [one_row "A" "x" "0" "10:00:00" true; one_row "B" "60" "0" "25:00:00" true]
    false [at_time 11 0 0 0].

(** A disabled row of 1 minute and -60 seconds before an ordinary row. *)
Definition cancelling_period : BossTimer :=
  window [one_row "A" "1" "-60" "08:00:00" false; one_row "B" "60" "0" "10:00:00" true]
    true [at_time 9 0 0 0].

(** One row in auto mode; the clock is read at 11:00:00 and a few
    microseconds later. *)
Definition due_in_auto_mode : BossTimer :=
  window [one_row "A" "60" "0" "10:00:00" true] true
    [at_time 11 0 0 0; at_time 11 0 0 5; at_time 11 0 0 9].

(** The same row evaluated one microsecond after its occurrence. *)
Definition a_microsecond_late : BossTimer :=
  window [one_row "A" "60" "0" "10:00:00" true] false [at_time 11 0 0 1].

(** A file of three objects, the second with a number for a name. *)
Definition file_with_bad_name : list (gmap string json) :=
  [∅; <["name" := JInt 5]> ∅; ∅].

(** The object that [save_config] writes for row A of [two_due_rows]. *)
Definition item_A : gmap string json :=
  <["name" := JStr "A"]>
    (<["minutes" := JInt 60]>
       (<["seconds" := JInt 0]>
          (<["last_time" := JStr "10:00:00"]> (<["enabled" := JBool true]> ∅)))).


(** * Vocabulary of the pre-warning, the progress and the saved table *)

(** Warning sounds played so far. *)
Definition is_warning (e : event) : bool :=
  match e with PlaySound WarningWav => true | _ => false end.

Definition warning_sounds (st : BossTimer) : nat :=
  List.length (List.filter is_warning (log st)).

(** A window of one row whose clock shows [t0] at the first reading and
    one second more at each further one. *)
Definition ticking (r : row) (rings auto : bool) (t0 : Py.datetime) : BossTimer :=
  mk_BossTimer [r] rings auto (fun k => t0 + Z.of_nat k * Py.us_per_second) 0 [] None.

(** Whether a tick at [t] raises the pre-warning of an enabled row whose
    next occurrence is [next_time]. *)
Definition prewarns (fl : Q -> Q) (next_time : Z) (rings : bool) (t : Py.datetime) : bool :=
  match classifyAlert (total_seconds fl (next_time - t)) true rings with
  | PreWarning => true
  | _ => false
  end.

(** What the log gets from the given ticks of the pre-warning of the row
    called [name]. *)
Definition prewarning_events (fl : Q -> Q) (name : string) (next_time : Z) (rings : bool)
    (ticks : list Py.datetime) : list event :=
  List.flat_map
    (fun t => if prewarns fl next_time rings t then [Banner name; PlaySound WarningWav] else [])
    ticks.

(** Row [i] of the window [s] still has the settings and the last time of
    [r], and the log has only grown since [st]. *)
Definition row_kept (st : BossTimer) (i : nat) (r : row) (s : BossTimer) : Prop :=
  (exists l, log s = log st ++ l) /\
  exists r', table s !! i = Some r' /\ settings r' = settings r /\ last_time r' = last_time r.

(** Two rows in auto mode: A is due at 11:00:00 and B three minutes
    later.  The clock is read at 11:00:00 by the tick, then by
    [update_boss_time] and by the pass that it starts, then by two more
    ticks a second apart. *)
Definition alarm_beside_prewarning : BossTimer :=
  window [one_row "A" "60" "0" "10:00:00" true; one_row "B" "60" "0" "10:03:00" true]
    true
    [at_time 11 0 0 0; at_time 11 0 0 100; at_time 11 0 0 200; at_time 11 0 1 0;
     at_time 11 0 2 0].




(** A table whose only row has an empty minutes field. *)
Definition cleared_period : BossTimer :=
  window [one_row "A" "" "0" "10:00:00" true] false [at_time 9 0 0 0].

(** * Properties of the library functions and of the recurrence loop *)

Lemma us_per_day_val : Py.us_per_day = 86400000000.
Proof. reflexivity. Qed.

Lemma decimal_range cp d : Py.decimal cp = Some d -> 0 <= d <= 9.
Proof.
  unfold Py.decimal. destruct (List.find _ _) as [z|] eqn:E; [|discriminate].
  intros [= <-]. apply List.find_some in E as [_ E].
  apply andb_true_iff in E as [?%Z.leb_le ?%Z.leb_le]. lia.
Qed.

Lemma ascii_digit_range lo hi cp d : Py.ascii_digit lo hi cp = Some d -> lo <= d <= hi.
Proof.
  unfold Py.ascii_digit. destruct (_ && _) eqn:E; [|discriminate].
  intros [= <-]. apply andb_true_iff in E as [?%Z.leb_le ?%Z.leb_le]. lia.
Qed.

Lemma field_val_range k cs n : 0 <= k -> Py.field_val k cs = Some n -> 0 <= n <= 10 * k + 9.
Proof.
  intros Hk. destruct cs as [|a [|b [|? ?]]]; cbn [Py.field_val]; try discriminate.
  - intros ?%decimal_range. lia.
  - destruct (Py.ascii_digit 0 k a) eqn:Ea; [|discriminate].
    destruct (Py.decimal b) eqn:Eb; [|discriminate].
    intros [= <-]. apply ascii_digit_range in Ea. apply decimal_range in Eb. lia.
Qed.

Lemma hour_val_range cs n : Py.hour_val cs = Some n -> 0 <= n <= 23.
Proof.
  assert (H1 : Py.field_val 1 cs = Some n -> 0 <= n <= 23)
    by (intros H%field_val_range; lia).
  destruct cs as [|a [|b [|? ?]]]; cbn [Py.hour_val]; try exact H1.
  destruct (a =? 50); [|exact H1].
  destruct (Py.ascii_digit 0 3 b) eqn:Eb; [|discriminate].
  intros [= <-]. apply ascii_digit_range in Eb. lia.
Qed.

Lemma strptime_valid s t : Py.strptime_HMS s = Some t -> valid_time t.
Proof.
  unfold Py.strptime_HMS.
  destruct (Py.split_colon s) as [|h [|m [|sec [|? ?]]]]; try discriminate.
  destruct (Py.hour_val _) eqn:Eh; [|discriminate].
  destruct (Py.field_val 5 (Py.code_points m)) eqn:Em; [|discriminate].
  destruct (Py.field_val 5 (Py.code_points sec)) eqn:Es; [|discriminate].
  intros [= <-]. apply hour_val_range in Eh. apply field_val_range in Em, Es; try lia.
  unfold valid_time; simpl. lia.
Qed.

Lemma time_us_range t : valid_time t -> 0 <= Py.time_us t < Py.us_per_day.
Proof.
  unfold valid_time, Py.time_us, Py.us_per_day, Py.us_per_second. lia.
Qed.

Lemma date_bounds t : Py.date t * Py.us_per_day <= t < Py.date t * Py.us_per_day + Py.us_per_day.
Proof.
  unfold Py.date. rewrite us_per_day_val.
  pose proof (Z.div_mod t 86400000000 ltac:(lia)).
  pose proof (Z.mod_pos_bound t 86400000000 ltac:(lia)). lia.
Qed.

(** The anchor lies in the day that ends now. *)
Lemma last_occurrence_range t last :
  valid_time last -> t - Py.us_per_day < last_occurrence t last <= t.
Proof.
  intros Hv%time_us_range. pose proof (date_bounds t).
  unfold last_occurrence, Py.combine, Py.days.
  destruct (Z.ltb_spec t (Py.date t * Py.us_per_day + Py.time_us last)); lia.
Qed.

Lemma mk_timedelta_pos m s : 0 < m * 60 + s -> Py.us_per_second <= Py.mk_timedelta m s.
Proof. unfold Py.mk_timedelta, Py.us_per_second. lia. Qed.

Lemma iterations_done next period t : 0 < period -> t <= next -> iterations next period t = 0.
Proof.
  intros Hp Hn. unfold iterations.
  assert ((t - next + period - 1) / period <= 0); [|lia].
  apply Z.lt_succ_r. apply Z.div_lt_upper_bound; lia.
Qed.

Lemma iterations_step next period t :
  0 < period -> next < t ->
  iterations next period t = 1 + iterations (next + period) period t.
Proof.
  intros Hp Hn. unfold iterations.
  replace (t - next + period - 1) with ((t - (next + period) + period - 1) + 1 * period) by lia.
  rewrite Z.div_add by lia.
  assert (0 <= (t - (next + period) + period - 1) / period); [|lia].
  apply Z.div_pos; lia.
Qed.

Lemma advance_iterations fuel : forall next period t,
  0 < period ->
  (iterations next period t <= Z.of_nat fuel ->
   advance fuel next period t = Some (next + iterations next period t * period)) /\
  (Z.of_nat fuel < iterations next period t -> advance fuel next period t = None).
Proof.
  induction fuel as [|fuel IH]; intros next period t Hp.
  - simpl. destruct (Z.ltb_spec next t) as [Hlt|Hge].
    + rewrite (iterations_step _ _ _ Hp Hlt).
      assert (0 <= iterations (next + period) period t) by (unfold iterations; lia).
      split; [lia|reflexivity].
    + rewrite (iterations_done _ _ _ Hp Hge). split; [intros _; f_equal; lia|lia].
  - cbn [advance]. destruct (Z.ltb_spec next t) as [Hlt|Hge].
    + rewrite (iterations_step _ _ _ Hp Hlt).
      destruct (IH (next + period) period t Hp) as [IH1 IH2].
      split; intros Hf.
      * rewrite IH1 by lia. f_equal. lia.
      * apply IH2. lia.
    + rewrite (iterations_done _ _ _ Hp Hge). split; [intros _; f_equal; lia|lia].
Qed.

Lemma iterations_bounds next period t :
  0 < period -> next < t ->
  let j := iterations next period t in
  t <= next + j * period /\ next + j * period - period < t.
Proof.
  intros Hp Hn j. subst j. unfold iterations.
  pose proof (Z.div_mod (t - next + period - 1) period ltac:(lia)).
  pose proof (Z.mod_pos_bound (t - next + period - 1) period Hp).
  assert (0 <= (t - next + period - 1) / period) by (apply Z.div_pos; lia).
  rewrite Z.max_r by lia. nia.
Qed.

Lemma periods_added_iterations anchor period t :
  0 < period -> anchor <= t ->
  periods_added anchor period t = 1 + iterations (anchor + period) period t.
Proof.
  intros Hp Ha. unfold periods_added, iterations.
  replace (t - anchor + period - 1) with ((t - (anchor + period) + period - 1) + 1 * period) by lia.
  rewrite Z.div_add by lia. lia.
Qed.

(** * Properties of the rounding *)

Lemma no_rounding_ok : Rounding no_rounding.
Proof.
  split; unfold no_rounding.
  - auto.
  - reflexivity.
  - intros x _ _. assert (E : (x - x == 0)%Q) by ring. rewrite E.
    simpl. unfold unit_roundoff. pose proof (Qabs_nonneg x).
    apply Qmult_le_0_compat; [discriminate|assumption].
Qed.

Lemma normal_min_small : (normal_min <= 1 # 1000000)%Q.
Proof. unfold normal_min, Qle; simpl. vm_compute. discriminate. Qed.

Lemma normal_max_large : (1000 <= normal_max)%Q.
Proof. unfold normal_max, Qle; simpl. vm_compute. discriminate. Qed.

Section Float.
Context {fl : Q -> Q} `{!Rounding fl}.

Lemma fl_proper x y : (x == y)%Q -> (fl x == fl y)%Q.
Proof.
  intros E. apply Qle_antisym; apply fl_mono; rewrite E; apply Qle_refl.
Qed.

Lemma fl_const n x : - 2 ^ 53 <= n <= 2 ^ 53 -> (x == inject_Z n)%Q -> (fl x == inject_Z n)%Q.
Proof. intros Hn E. rewrite (fl_proper _ _ E). apply fl_int, Hn. Qed.

(** Upward error on the normal numbers between 10^-6 and 1000. *)
Lemma fl_close x :
  (1 # 1000000 <= x)%Q -> (x <= 1000)%Q ->
  (x - unit_roundoff * x <= fl x)%Q /\ (fl x <= x + unit_roundoff * x)%Q.
Proof.
  intros Hlo Hhi.
  assert (Hx : (0 <= x)%Q) by lra.
  pose proof normal_min_small. pose proof normal_max_large.
  assert (Ha : Qabs x == x) by (apply Qabs_pos; assumption).
  pose proof (fl_err x) as He. rewrite Ha in He.
  specialize (He ltac:(lra) ltac:(lra)).
  apply Qabs_Qle_condition in He. lra.
Qed.

Lemma secs_scaled d : (secs d * 1000000 == inject_Z d)%Q.
Proof. unfold secs, Py.us_per_second. field. Qed.

Lemma secs_le d e : d <= e -> (secs d <= secs e)%Q.
Proof.
  intros H. rewrite Zle_Qle in H.
  pose proof (secs_scaled d). pose proof (secs_scaled e). lra.
Qed.

Lemma secs_whole n : (secs (n * Py.us_per_second) == inject_Z n)%Q.
Proof.
  unfold secs. rewrite inject_Z_mult. unfold Py.us_per_second. field.
Qed.

Lemma total_seconds_le d e : d <= e -> (total_seconds fl d <= total_seconds fl e)%Q.
Proof. intros H. unfold total_seconds. apply fl_mono, secs_le, H. Qed.

Lemma total_seconds_whole n :
  - 2 ^ 53 <= n <= 2 ^ 53 -> (total_seconds fl (n * Py.us_per_second) == inject_Z n)%Q.
Proof. intros Hn. apply fl_const; [exact Hn|apply secs_whole]. Qed.

Lemma total_seconds_0 : (total_seconds fl 0 == 0)%Q.
Proof. apply (total_seconds_whole 0). lia. Qed.


Lemma total_seconds_nonpos d : d <= 0 -> (total_seconds fl d <= 0)%Q.
Proof. intros Hd. rewrite <- total_seconds_0. apply total_seconds_le, Hd. Qed.

Lemma total_seconds_pos d : 0 < d -> (0 < total_seconds fl d)%Q.
Proof.
  intros Hd. unfold total_seconds.
  assert (H1 : (secs 1 <= secs d)%Q) by (apply secs_le; lia).
  pose proof (secs_scaled 1) as E1. change (inject_Z 1) with 1%Q in E1.
  destruct (Qlt_le_dec 1000 (secs d)) as [Hbig|Hsmall].
  - apply Qlt_le_trans with (inject_Z 1000); [reflexivity|].
    rewrite <- (fl_int 1000) by lia. apply fl_mono. change (inject_Z 1000) with 1000%Q. lra.
  - destruct (fl_close (secs d)) as [Hlo _]; [lra|lra|].
    unfold unit_roundoff in Hlo.
    assert ((1 # 2 ^ 53) * secs d <= (1 # 2) * secs d)%Q.
    { apply Qmult_le_compat_r; [|lra]. unfold Qle; simpl. vm_compute. discriminate. }
    lra.
Qed.

Lemma inject_Z_range n a b :
  a <= n <= b -> (inject_Z a <= inject_Z n)%Q /\ (inject_Z n <= inject_Z b)%Q.
Proof. intros [? ?]. split; rewrite <- Zle_Qle; assumption. Qed.

Lemma roundoff_small x : (0 <= x)%Q -> (unit_roundoff * x <= (1 # 2000000000) * x)%Q.
Proof.
  intros Hx. apply Qmult_le_compat_r; [|exact Hx].
  unfold unit_roundoff, Qle; simpl. vm_compute. discriminate.
Qed.

(** The tests of [check_alert_conditions] decide on the exact number of
    microseconds. *)
Lemma total_seconds_ge_const d n :
  1 <= n <= 999 ->
  Qle_bool (inject_Z n) (total_seconds fl d) = (n * Py.us_per_second <=? d).
Proof.
  intros Hn. destruct (Z.leb_spec (n * Py.us_per_second) d) as [Hle|Hlt].
  - apply Qle_bool_iff. rewrite <- (total_seconds_whole n) by lia.
    apply total_seconds_le, Hle.
  - apply not_true_is_false. rewrite Qle_bool_iff. apply Qlt_not_le.
    destruct (inject_Z_range n 1 999 Hn) as [Hn1 Hn2].
    change (inject_Z 1) with 1%Q in Hn1. change (inject_Z 999) with 999%Q in Hn2.
    destruct (Z.le_gt_cases d ((n - 1) * Py.us_per_second)) as [Hfar|Hnear].
    + apply Qle_lt_trans with (inject_Z (n - 1)).
      * rewrite <- (total_seconds_whole (n - 1)) by lia. apply total_seconds_le, Hfar.
      * rewrite <- Zlt_Qlt. lia.
    + unfold total_seconds.
      pose proof (secs_scaled d) as Ed.
      assert (Hd : (inject_Z d <= inject_Z (n * Py.us_per_second + -1))%Q)
        by (rewrite <- Zle_Qle; lia).
      assert (Hd' : (inject_Z ((n + -1) * Py.us_per_second + 1) <= inject_Z d)%Q)
        by (rewrite <- Zle_Qle; lia).
      rewrite inject_Z_plus, inject_Z_mult in Hd, Hd'. rewrite inject_Z_plus in Hd'.
      change (inject_Z Py.us_per_second) with 1000000%Q in Hd, Hd'.
      change (inject_Z (-1)) with (-1)%Q in Hd, Hd'. change (inject_Z 1) with 1%Q in Hd'.
      destruct (fl_close (secs d)) as [_ Hhi]; [lra|lra|].
      pose proof (roundoff_small (secs d) ltac:(lra)). lra.
Qed.

Lemma total_seconds_le_const d n :
  0 <= n <= 998 ->
  Qle_bool (total_seconds fl d) (inject_Z n) = (d <=? n * Py.us_per_second).
Proof.
  intros Hn. destruct (Z.leb_spec d (n * Py.us_per_second)) as [Hle|Hlt].
  - apply Qle_bool_iff. rewrite <- (total_seconds_whole n) by lia.
    apply total_seconds_le, Hle.
  - apply not_true_is_false. rewrite Qle_bool_iff. apply Qlt_not_le.
    destruct (inject_Z_range n 0 998 Hn) as [Hn1 Hn2].
    change (inject_Z 0) with 0%Q in Hn1. change (inject_Z 998) with 998%Q in Hn2.
    destruct (Z.le_gt_cases ((n + 1) * Py.us_per_second) d) as [Hfar|Hnear].
    + apply Qlt_le_trans with (inject_Z (n + 1)).
      * rewrite <- Zlt_Qlt. lia.
      * rewrite <- (total_seconds_whole (n + 1)) by lia. apply total_seconds_le, Hfar.
    + unfold total_seconds.
      pose proof (secs_scaled d) as Ed.
      assert (Hd : (inject_Z (n * Py.us_per_second + 1) <= inject_Z d)%Q)
        by (rewrite <- Zle_Qle; lia).
      assert (Hd' : (inject_Z d <= inject_Z ((n + 1) * Py.us_per_second))%Q)
        by (rewrite <- Zle_Qle; lia).
      rewrite inject_Z_plus, inject_Z_mult in Hd. rewrite inject_Z_mult, inject_Z_plus in Hd'.
      change (inject_Z Py.us_per_second) with 1000000%Q in Hd, Hd'.
      change (inject_Z 1) with 1%Q in Hd, Hd'.
      destruct (fl_close (secs d)) as [Hlo _]; [lra|lra|].
      pose proof (roundoff_small (secs d) ltac:(lra)). lra.
Qed.

Lemma trunc_floor q : (0 <= q)%Q -> trunc q = Qfloor q.
Proof.
  intros Hq. unfold trunc, Qfloor. destruct q as [n d]; simpl.
  apply Z.quot_div_nonneg; [|lia].
  unfold Qle in Hq; simpl in Hq. lia.
Qed.

Lemma trunc_const q n : 0 <= n -> (q == inject_Z n)%Q -> trunc q = n.
Proof.
  intros Hn E. rewrite trunc_floor.
  - rewrite (Qfloor_comp _ _ E). apply Qfloor_Z.
  - rewrite E. change 0%Q with (inject_Z 0). rewrite <- Zle_Qle. exact Hn.
Qed.



Lemma fl_1 : (fl 1 == 1)%Q.
Proof. apply (fl_int 1). lia. Qed.

Lemma fl_100 : (fl 100 == 100)%Q.
Proof. apply (fl_int 100). lia. Qed.



Lemma progress_percent_reset r T :
  (r == T)%Q -> (0 < T)%Q -> progress_percent fl r T = 0.
Proof.
  intros E HT. unfold progress_percent. apply trunc_const; [lia|].
  apply fl_const; [lia|].
  assert (E1 : (fl (r / T) == 1)%Q).
  { apply (fl_const 1); [lia|]. rewrite E. field. lra. }
  assert (E2 : (fl (1 - fl (r / T)) == 0)%Q).
  { apply (fl_const 0); [lia|]. rewrite E1. reflexivity. }
  rewrite E2. reflexivity.
Qed.


End Float.

(** * Rounding to binary64 *)

Lemma two_pow_pos e : (0 < 2 ^ e)%Q.
Proof. apply Qpower_0_lt. reflexivity. Qed.

Lemma two_pow_Z n : 0 <= n -> (inject_Z (2 ^ n) == 2 ^ n)%Q.
Proof. intros Hn. apply (Zpower_Qpower 2 n Hn). Qed.

Lemma two_pow_succ e : (2 ^ (e + 1) == 2 * 2 ^ e)%Q.
Proof. rewrite Qpower_plus by discriminate. rewrite Qpower_1_r. ring. Qed.

Lemma two_pow_le a b : a <= b -> (2 ^ a <= 2 ^ b)%Q.
Proof. intros H. apply Qpower_le_compat_l; [exact H|discriminate]. Qed.

Lemma two_pow_lt a b : a < b -> (2 ^ a < 2 ^ b)%Q.
Proof. intros H. apply Qpower_lt_compat_l; [exact H|reflexivity]. Qed.

Lemma exponent_spec x : (0 < x)%Q -> (2 ^ exponent x <= x)%Q /\ (x < 2 ^ (exponent x + 1))%Q.
Proof.
  intros Hx. destruct x as [a b]. unfold exponent. cbn [Qnum Qden].
  assert (Ha : 0 < a) by (unfold Qlt in Hx; cbn in Hx; lia).
  set (la := Z.log2 a). set (lb := Z.log2 (Z.pos b)).
  assert (Hla0 : 0 <= la) by apply Z.log2_nonneg.
  assert (Hlb0 : 0 <= lb) by apply Z.log2_nonneg.
  destruct (Z.log2_spec a Ha) as [Ha1 Ha2]. fold la in Ha1, Ha2.
  destruct (Z.log2_spec (Z.pos b) ltac:(lia)) as [Hb1 Hb2]. fold lb in Hb1, Hb2.
  assert (Qa1 : (2 ^ la <= inject_Z a)%Q) by (rewrite <- two_pow_Z by lia; rewrite <- Zle_Qle; lia).
  assert (Qa2 : (inject_Z a < 2 ^ (la + 1))%Q)
    by (rewrite <- two_pow_Z by lia; rewrite <- Zlt_Qlt; lia).
  assert (Qb1 : (2 ^ lb <= inject_Z (Z.pos b))%Q)
    by (rewrite <- two_pow_Z by lia; rewrite <- Zle_Qle; lia).
  assert (Qb2 : (inject_Z (Z.pos b) < 2 ^ (lb + 1))%Q)
    by (rewrite <- two_pow_Z by lia; rewrite <- Zlt_Qlt; lia).
  assert (Hxb : ((a # b) * inject_Z (Z.pos b) == inject_Z a)%Q).
  { unfold Qeq, Qmult, inject_Z. cbn. lia. }
  assert (Hb0 : (0 < inject_Z (Z.pos b))%Q) by reflexivity.
  set (x := (a # b)%Q) in *. set (qb := inject_Z (Z.pos b)) in *. set (qa := inject_Z a) in *.
  (* 2^(k-1) < x < 2^(k+1) *)
  assert (Hup : (x < 2 ^ (la - lb + 1))%Q).
  { assert (E : (2 ^ (la - lb + 1) * 2 ^ lb == 2 ^ (la + 1))%Q).
    { rewrite <- Qpower_plus by discriminate. apply Qpower_comp; [reflexivity|lia]. }
    pose proof (two_pow_pos (la - lb + 1)). pose proof (two_pow_pos lb).
    apply Qnot_le_lt. intros Hc.
    assert ((2 ^ (la - lb + 1) * 2 ^ lb <= x * qb)%Q).
    { apply Qle_trans with (2 ^ (la - lb + 1) * qb)%Q.
      - apply Qmult_le_l; assumption.
      - apply Qmult_le_r; assumption. }
    lra. }
  assert (Hlow : (2 ^ (la - lb - 1) < x)%Q).
  { assert (E : (2 ^ (la - lb - 1) * 2 ^ (lb + 1) == 2 ^ la)%Q).
    { rewrite <- Qpower_plus by discriminate. apply Qpower_comp; [reflexivity|lia]. }
    pose proof (two_pow_pos (la - lb - 1)). pose proof (two_pow_pos (lb + 1)).
    apply Qnot_le_lt. intros Hc.
    assert ((x * qb < 2 ^ (la - lb - 1) * 2 ^ (lb + 1))%Q).
    { apply Qle_lt_trans with (2 ^ (la - lb - 1) * qb)%Q.
      - apply Qmult_le_r; assumption.
      - apply Qmult_lt_l; assumption. }
    lra. }
  destruct (Qle_bool (2 ^ (la - lb)) x) eqn:E.
  - apply Qle_bool_iff in E. split; assumption.
  - assert (Hlt : (x < 2 ^ (la - lb))%Q).
    { apply Qnot_le_lt. intros Hc. apply Qle_bool_iff in Hc. congruence. }
    replace (la - lb - 1 + 1) with (la - lb) by lia. split; [apply Qlt_le_weak|]; assumption.
Qed.

Lemma exponent_unique x e :
  (0 < x)%Q -> (2 ^ e <= x)%Q -> (x < 2 ^ (e + 1))%Q -> exponent x = e.
Proof.
  intros Hx H1 H2. destruct (exponent_spec x Hx) as [G1 G2].
  assert (exponent x < e + 1).
  { apply (Qpower_lt_compat_l_inv 2); [|reflexivity]. apply Qle_lt_trans with x; assumption. }
  assert (e < exponent x + 1).
  { apply (Qpower_lt_compat_l_inv 2); [|reflexivity]. apply Qle_lt_trans with x; assumption. }
  lia.
Qed.

Lemma exponent_comp x y : (0 < x)%Q -> (x == y)%Q -> exponent x = exponent y.
Proof.
  intros Hx E. assert (Hy : (0 < y)%Q) by (rewrite <- E; exact Hx).
  destruct (exponent_spec y Hy) as [G1 G2].
  apply exponent_unique; [exact Hx|rewrite E; exact G1|rewrite E; exact G2].
Qed.

Lemma exponent_mono x y : (0 < x)%Q -> (x <= y)%Q -> exponent x <= exponent y.
Proof.
  intros Hx Hxy. assert (Hy : (0 < y)%Q) by lra.
  destruct (exponent_spec x Hx) as [G1 _]. destruct (exponent_spec y Hy) as [_ G2].
  assert (exponent x < exponent y + 1); [|lia].
  apply (Qpower_lt_compat_l_inv 2); [|reflexivity]. lra.
Qed.

Lemma round_half_even_near x :
  (inject_Z (round_half_even x) - x <= 1 # 2)%Q /\ (x - inject_Z (round_half_even x) <= 1 # 2)%Q.
Proof.
  unfold round_half_even. pose proof (Qfloor_le x) as Hlo. pose proof (Qlt_floor x) as Hhi.
  rewrite inject_Z_plus in Hhi. change (inject_Z 1) with 1%Q in Hhi.
  destruct (Qcompare_spec (x - inject_Z (Qfloor x)) (1 # 2)) as [E|E|E].
  - destruct (Z.even (Qfloor x)); [|rewrite inject_Z_plus; change (inject_Z 1) with 1%Q]; lra.
  - lra.
  - rewrite inject_Z_plus. change (inject_Z 1) with 1%Q. lra.
Qed.

Lemma round_half_even_floor x :
  Qfloor x <= round_half_even x <= Qfloor x + 1.
Proof.
  unfold round_half_even.
  destruct (x - inject_Z (Qfloor x) ?= 1 # 2)%Q; [destruct (Z.even _)| |]; lia.
Qed.

Lemma round_half_even_mono x y : (x <= y)%Q -> round_half_even x <= round_half_even y.
Proof.
  intros Hxy. pose proof (Qfloor_resp_le x y Hxy) as Hf.
  destruct (Z.eq_dec (Qfloor x) (Qfloor y)) as [E|Hne].
  - unfold round_half_even. rewrite <- E.
    destruct (Qcompare_spec (x - inject_Z (Qfloor x)) (1 # 2)) as [Ex|Ex|Ex];
      destruct (Qcompare_spec (y - inject_Z (Qfloor x)) (1 # 2)) as [Ey|Ey|Ey];
      try destruct (Z.even (Qfloor x)); try lia; lra.
  - pose proof (round_half_even_floor x). pose proof (round_half_even_floor y). lia.
Qed.

Lemma round_half_even_comp x y : (x == y)%Q -> round_half_even x = round_half_even y.
Proof.
  intros E. apply Z.le_antisymm; apply round_half_even_mono; rewrite E; apply Qle_refl.
Qed.

Lemma round_half_even_Z n : round_half_even (inject_Z n) = n.
Proof.
  unfold round_half_even. rewrite Qfloor_Z.
  destruct (Qcompare_spec (inject_Z n - inject_Z n) (1 # 2)) as [E|E|E]; [lra|reflexivity|lra].
Qed.

(** The significand of a positive number lies between 2^52 and 2^53. *)
Lemma significand_range x :
  (0 < x)%Q ->
  (inject_Z (2 ^ 52) <= x / 2 ^ (exponent x - 52))%Q /\
  (x / 2 ^ (exponent x - 52) < inject_Z (2 ^ 53))%Q.
Proof.
  intros Hx. destruct (exponent_spec x Hx) as [G1 G2].
  pose proof (two_pow_pos (exponent x - 52)) as He.
  rewrite !two_pow_Z by lia.
  assert (E1 : (2 ^ 52 * 2 ^ (exponent x - 52) == 2 ^ exponent x)%Q).
  { rewrite <- Qpower_plus by discriminate. apply Qpower_comp; [reflexivity|lia]. }
  assert (E2 : (2 ^ 53 * 2 ^ (exponent x - 52) == 2 ^ (exponent x + 1))%Q).
  { rewrite <- Qpower_plus by discriminate. apply Qpower_comp; [reflexivity|lia]. }
  split.
  - apply Qle_shift_div_l; [exact He|]. rewrite E1. exact G1.
  - apply Qlt_shift_div_r; [exact He|]. rewrite E2. exact G2.
Qed.

Lemma round53_range x :
  (0 < x)%Q -> (2 ^ exponent x <= round53 x)%Q /\ (round53 x <= 2 ^ (exponent x + 1))%Q.
Proof.
  intros Hx. destruct (significand_range x Hx) as [S1 S2]. unfold round53.
  pose proof (two_pow_pos (exponent x - 52)) as He.
  assert (E1 : (2 ^ exponent x == inject_Z (2 ^ 52) * 2 ^ (exponent x - 52))%Q).
  { rewrite two_pow_Z by lia. rewrite <- Qpower_plus by discriminate.
    apply Qpower_comp; [reflexivity|lia]. }
  assert (E2 : (2 ^ (exponent x + 1) == inject_Z (2 ^ 53) * 2 ^ (exponent x - 52))%Q).
  { rewrite two_pow_Z by lia. rewrite <- Qpower_plus by discriminate.
    apply Qpower_comp; [reflexivity|lia]. }
  rewrite E1, E2. split; apply Qmult_le_r; try exact He; rewrite <- Zle_Qle.
  - rewrite <- (round_half_even_Z (2 ^ 52)). apply round_half_even_mono, S1.
  - rewrite <- (round_half_even_Z (2 ^ 53)). apply round_half_even_mono, Qlt_le_weak, S2.
Qed.

Lemma round53_pos x : (0 < x)%Q -> (0 < round53 x)%Q.
Proof.
  intros Hx. destruct (round53_range x Hx) as [H _].
  apply Qlt_le_trans with (2 ^ exponent x)%Q; [apply two_pow_pos|exact H].
Qed.

Lemma round53_mono x y : (0 < x)%Q -> (x <= y)%Q -> (round53 x <= round53 y)%Q.
Proof.
  intros Hx Hxy. assert (Hy : (0 < y)%Q) by lra.
  pose proof (exponent_mono x y Hx Hxy) as He.
  destruct (Z.eq_dec (exponent x) (exponent y)) as [E|Hne].
  - unfold round53. rewrite E. pose proof (two_pow_pos (exponent y - 52)) as Hp.
    apply Qmult_le_r; [exact Hp|]. rewrite <- Zle_Qle. apply round_half_even_mono.
    apply Qmult_le_r; [apply Qinv_lt_0_compat; exact Hp|exact Hxy].
  - destruct (round53_range x Hx) as [_ H1]. destruct (round53_range y Hy) as [H2 _].
    apply Qle_trans with (2 ^ (exponent x + 1))%Q; [exact H1|].
    apply Qle_trans with (2 ^ exponent y)%Q; [apply two_pow_le; lia|exact H2].
Qed.

Lemma round53_comp x y : (0 < x)%Q -> (x == y)%Q -> (round53 x == round53 y)%Q.
Proof.
  intros Hx E. assert (Hy : (0 < y)%Q) by (rewrite <- E; exact Hx).
  apply Qle_antisym; apply round53_mono; try assumption; rewrite E; apply Qle_refl.
Qed.

Lemma round53_err x :
  (0 < x)%Q -> (Qabs (round53 x - x) <= (1 # 2 ^ 53) * x)%Q.
Proof.
  intros Hx. destruct (exponent_spec x Hx) as [G1 _].
  set (e := exponent x - 52). pose proof (two_pow_pos e) as He.
  destruct (round_half_even_near (x / 2 ^ e)) as [N1 N2].
  assert (Ex : (x == x / 2 ^ e * 2 ^ e)%Q) by (field; lra).
  assert (Eh : ((1 # 2) * 2 ^ e <= (1 # 2 ^ 53) * x)%Q).
  { assert (E53 : (2 ^ exponent x == 2 ^ 52 * 2 ^ e)%Q).
    { rewrite <- Qpower_plus by discriminate. apply Qpower_comp; [reflexivity|unfold e; lia]. }
    rewrite E53 in G1.
    assert (E52 : (2 ^ 52 == inject_Z (2 ^ 52))%Q) by (symmetry; apply two_pow_Z; lia).
    rewrite E52 in G1. 
    assert (((1 # 2 ^ 53) * (inject_Z (2 ^ 52) * 2 ^ e) == (1 # 2) * 2 ^ e)%Q).
    { rewrite Qmult_assoc. apply Qmult_comp; [reflexivity|reflexivity]. }
    rewrite <- H. apply Qmult_le_l; [reflexivity|exact G1]. }
  unfold round53. fold e. set (n := inject_Z (round_half_even (x / 2 ^ e))) in *.
  apply Qabs_Qle_condition. 
  assert (A : (n * 2 ^ e - x == (n - x / 2 ^ e) * 2 ^ e)%Q) by (rewrite Ex at 1; ring).
  rewrite A. split.
  - apply Qle_trans with (- ((1 # 2) * 2 ^ e))%Q; [lra|].
    assert (En : (- ((1 # 2) * 2 ^ e) == (- (1 # 2)) * 2 ^ e)%Q) by ring.
    rewrite En. apply Qmult_le_r; [exact He|lra].
  - apply Qle_trans with ((1 # 2) * 2 ^ e)%Q; [|exact Eh].
    apply Qmult_le_r; [exact He|lra].
Qed.

Lemma round53_int n : 0 < n <= 2 ^ 53 -> (round53 (inject_Z n) == inject_Z n)%Q.
Proof.
  intros [Hn0 Hn].
  assert (Hx : (0 < inject_Z n)%Q)
    by (change 0%Q with (inject_Z 0); rewrite <- Zlt_Qlt; lia).
  destruct (exponent_spec (inject_Z n) Hx) as [G1 G2].
  assert (HE : exponent (inject_Z n) <= 53).
  { apply (Qpower_le_compat_l_inv 2); [|reflexivity].
    apply Qle_trans with (inject_Z n); [exact G1|].
    rewrite <- two_pow_Z by lia. rewrite <- Zle_Qle. exact Hn. }
  unfold round53. set (e := exponent (inject_Z n) - 52) in *.
  pose proof (two_pow_pos e) as He.
  destruct (Z.le_gt_cases e 0) as [Hneg|Hpos].
  - assert (Es : (inject_Z n / 2 ^ e == inject_Z (n * 2 ^ (- e)))%Q).
    { rewrite inject_Z_mult, two_pow_Z by lia. rewrite Qpower_opp. field. lra. }
    rewrite (round_half_even_comp _ _ Es), round_half_even_Z.
    rewrite inject_Z_mult, two_pow_Z by lia. rewrite Qpower_opp. field. lra.
  - assert (e = 1) by (unfold e in *; lia).
    assert (HE53 : exponent (inject_Z n) = 53) by (unfold e in *; lia).
    rewrite HE53 in G1. rewrite <- two_pow_Z in G1 by lia. rewrite <- Zle_Qle in G1.
    assert (n = 2 ^ 53) by lia. subst n. rewrite H.
    assert (Es : (inject_Z (2 ^ 53) / 2 ^ 1 == inject_Z (2 ^ 52))%Q) by reflexivity.
    rewrite (round_half_even_comp _ _ Es), round_half_even_Z. reflexivity.
Qed.

Lemma binary64_rounding : Rounding binary64.
Proof.
  split.
  - intros x y Hxy. unfold binary64.
    destruct (Qcompare_spec x 0) as [Ex|Ex|Ex]; destruct (Qcompare_spec y 0) as [Ey|Ey|Ey];
      try lra.
    + apply Qlt_le_weak, round53_pos, Ey.
    + pose proof (round53_pos (- x) ltac:(lra)). lra.
    + assert (round53 (- y) <= round53 (- x))%Q by (apply round53_mono; lra). lra.
    + pose proof (round53_pos (- x) ltac:(lra)). pose proof (round53_pos y Ey). lra.
    + apply round53_mono; assumption.
  - intros n Hn. unfold binary64.
    destruct (Qcompare_spec (inject_Z n) 0) as [E|E|E].
    + symmetry. exact E.
    + change 0%Q with (inject_Z 0) in E. rewrite <- Zlt_Qlt in E.
      rewrite <- inject_Z_opp. rewrite round53_int by lia. rewrite inject_Z_opp. ring.
    + change 0%Q with (inject_Z 0) in E. rewrite <- Zlt_Qlt in E. apply round53_int. lia.
  - intros x _ _. unfold binary64, unit_roundoff.
    destruct (Qcompare_spec x 0) as [E|E|E].
    + rewrite E. vm_compute. discriminate.
    + pose proof (round53_err (- x) ltac:(lra)) as H.
      rewrite (Qabs_neg x) by lra.
      assert (En : (- round53 (- x) - x == - (round53 (- x) - - x))%Q) by ring.
      rewrite En, Qabs_opp. exact H.
    + rewrite (Qabs_pos x) by lra. apply round53_err, E.
Qed.

(** * The recurrence computation *)

(** Enough fuel for any positive period of whole seconds: the anchor is
    less than a day old. *)
Lemma iterations_within_a_day last m s t :
  valid_time last -> 0 < m * 60 + s ->
  iterations (last_occurrence t last + Py.mk_timedelta m s) (Py.mk_timedelta m s) t <= 86399.
Proof.
  intros Hv Hp. pose proof (last_occurrence_range t last Hv) as Ha.
  pose proof (mk_timedelta_pos m s Hp) as Hs.
  set (p := Py.mk_timedelta m s) in *. set (a := last_occurrence t last) in *.
  unfold Py.us_per_second in Hs. rewrite us_per_day_val in Ha.
  destruct (Z.le_gt_cases t (a + p)) as [Hdone|Hrun].
  - rewrite iterations_done by lia. lia.
  - pose proof (iterations_bounds (a + p) p t ltac:(lia) Hrun) as [_ Hb]. simpl in Hb.
    nia.
Qed.

Lemma computeNextOccurrence_closed fuel last period t :
  0 < period -> last_occurrence t last <= t ->
  (periods_added (last_occurrence t last) period t - 1 <= Z.of_nat fuel ->
   computeNextOccurrence fuel last period t
   = Some (closed_form (last_occurrence t last) period t)) /\
  (Z.of_nat fuel < periods_added (last_occurrence t last) period t - 1 ->
   computeNextOccurrence fuel last period t = None).
Proof.
  intros Hp Ha. unfold computeNextOccurrence, closed_form.
  rewrite (periods_added_iterations _ _ _ Hp Ha).
  destruct (advance_iterations fuel (last_occurrence t last + period) period t Hp) as [H1 H2].
  split; intros Hf.
  - rewrite H1 by lia. f_equal. lia.
  - apply H2. lia.
Qed.

Lemma closed_form_bounds anchor period t :
  0 < period -> anchor <= t ->
  t <= closed_form anchor period t /\
  closed_form anchor period t - period <= t /\
  (closed_form anchor period t - period = t <-> anchor = t).
Proof.
  intros Hp Ha. unfold closed_form. rewrite (periods_added_iterations _ _ _ Hp Ha).
  destruct (Z.le_gt_cases t (anchor + period)) as [Hdone|Hrun].
  - rewrite iterations_done by lia. lia.
  - pose proof (iterations_bounds (anchor + period) period t Hp Hrun) as [H1 H2].
    simpl in H1, H2. lia.
Qed.


(** With fuel for a day the loop ends, not before [now] and less than a
    period after it. *)
Lemma computeNextOccurrence_in_range fuel last m s t :
  valid_time last -> 0 < m * 60 + s -> (day_fuel <= fuel)%nat ->
  exists next,
    computeNextOccurrence fuel last (Py.mk_timedelta m s) t = Some next /\
    t <= next /\ next - Py.mk_timedelta m s <= t /\
    (next - Py.mk_timedelta m s = t <-> last_occurrence t last = t).
Proof.
  intros Hv Hp Hf.
  pose proof (last_occurrence_range t last Hv) as [_ Ha].
  pose proof (mk_timedelta_pos m s Hp) as Hs. unfold Py.us_per_second in Hs.
  assert (Hpos : 0 < Py.mk_timedelta m s) by lia.
  exists (closed_form (last_occurrence t last) (Py.mk_timedelta m s) t). split.
  - apply computeNextOccurrence_closed; [exact Hpos|exact Ha|].
    rewrite periods_added_iterations by assumption.
    pose proof (iterations_within_a_day last m s t Hv Hp). unfold day_fuel in Hf. lia.
  - apply closed_form_bounds; assumption.
Qed.






(** With a period of zero the loop makes no progress. *)
Lemma advance_zero_period fuel : forall next t, next < t -> advance fuel next 0 t = None.
Proof.
  induction fuel as [|fuel IH]; intros next t Hlt; cbn [advance];
    destruct (Z.ltb_spec next t); try lia; [reflexivity|].
  rewrite Z.add_0_r. apply IH, Hlt.
Qed.

Lemma zero_period_loops fuel last t :
  last_occurrence t last < t -> computeNextOccurrence fuel last (Py.mk_timedelta 0 0) t = None.
Proof.
  intros Hlt. unfold computeNextOccurrence. change (Py.mk_timedelta 0 0) with 0.
  rewrite Z.add_0_r. apply advance_zero_period, Hlt.
Qed.

(** C3 (the code's behaviour at the failing input): a row with 0 minutes
    and 0 seconds whose last time is a second before [now]: whatever the
    fuel, the pass does not come to an end. *)
Theorem zero_period_never_returns (fl : Q -> Q) (fuel : nat) :
  refresh_all_timers fl fuel zero_period_window = None.
Proof.
  destruct fuel as [|fuel]; [reflexivity|].
  cbn [refresh_all_timers]. unfold zero_period_window, window, now. cbn [table reads clock].
  cbn [List.length seq for_rows]. unfold refresh_row. cbn [table lookup list_lookup].
  change (parse_row _) with (Some (0, 0, Py.mk_time 0 0 0)). cbv iota beta.
  rewrite zero_period_loops; [reflexivity|]. vm_compute. reflexivity.
Qed.

(** * Rows of the table *)

Lemma update_row_lookup i f st r :
  table st !! i = Some r -> table (update_row i f st) !! i = Some (f r).
Proof.
  intros Hi. unfold update_row. rewrite Hi. cbn [table set_table].
  apply list_lookup_insert_eq. apply lookup_lt_Some in Hi. exact Hi.
Qed.

Lemma update_row_lookup_ne i j f st :
  i <> j -> table (update_row i f st) !! j = table st !! j.
Proof.
  intros Hne. unfold update_row. destruct (table st !! i); [|reflexivity].
  cbn [table set_table]. apply list_lookup_insert_ne, Hne.
Qed.

Lemma update_row_length i f st :
  List.length (table (update_row i f st)) = List.length (table st).
Proof.
  unfold update_row. destruct (table st !! i); [|reflexivity].
  cbn [table set_table]. apply length_insert.
Qed.

Lemma update_row_other i f st :
  ringing (update_row i f st) = ringing st /\ auto_time (update_row i f st) = auto_time st /\
  log (update_row i f st) = log st /\ clock (update_row i f st) = clock st /\
  reads (update_row i f st) = reads st /\ config_file (update_row i f st) = config_file st.
Proof. unfold update_row. destruct (table st !! i); repeat split. Qed.

Lemma update_row_compose i f g st :
  update_row i f (update_row i g st) = update_row i (fun r => f (g r)) st.
Proof.
  unfold update_row. destruct (table st !! i) eqn:E.
  - cbn [table set_table]. rewrite list_lookup_insert_eq by (apply lookup_lt_Some in E; exact E).
    unfold set_table. cbn. rewrite list_insert_insert_eq. reflexivity.
  - rewrite E. reflexivity.
Qed.

Section Display.
Context (fl : Q -> Q).

Lemma update_row_display_eq i next_time period t st :
  update_row_display fl i next_time period t st
  = update_row i (displayed fl next_time period t) st.
Proof.
  unfold update_row_display, displayed, computeDisplayState. cbn [fst snd].
  destruct (Qltb 0 (total_seconds fl period)); rewrite !update_row_compose; reflexivity.
Qed.

End Display.

(** * Scenarios *)

Lemma date_combine d t us :
  valid_time t -> 0 <= us < Py.us_per_second -> Py.date (Py.combine d t + us) = d.
Proof.
  intros Hv Hus. pose proof (time_us_range t Hv) as Ht.
  assert (Py.time_us t + us < Py.us_per_day).
  { unfold valid_time in Hv. unfold Py.time_us, Py.us_per_day, Py.us_per_second in *. lia. }
  unfold Py.date, Py.combine. symmetry.
  apply (Z.div_unique _ _ d (Py.time_us t + us)); [rewrite us_per_day_val in *|]; lia.
Qed.

Lemma time_of_combine d t us :
  valid_time t -> 0 <= us < Py.us_per_second -> Py.time_of (Py.combine d t + us) = t.
Proof.
  intros Hv Hus. pose proof (time_us_range t Hv) as Ht.
  assert (Hlt : Py.time_us t + us < Py.us_per_day).
  { unfold valid_time in Hv. unfold Py.time_us, Py.us_per_day, Py.us_per_second in *. lia. }
  unfold Py.time_of.
  assert (E : (Py.combine d t + us) mod Py.us_per_day = Py.time_us t + us).
  { unfold Py.combine. symmetry.
    apply (Z.mod_unique _ _ d); [rewrite us_per_day_val in *|]; lia. }
  rewrite E.
  assert (E2 : (Py.time_us t + us) / Py.us_per_second
               = (Py.hour t * 60 + Py.minute t) * 60 + Py.second t).
  { symmetry. apply (Z.div_unique _ _ _ us); unfold Py.time_us, Py.us_per_second in *; lia. }
  rewrite E2. clear E E2 Hlt Ht. destruct t as [h m s]. unfold valid_time in Hv. simpl in *.
  f_equal.
  - symmetry. apply (Z.div_unique _ _ _ (m * 60 + s)); lia.
  - assert (E : ((h * 60 + m) * 60 + s) / 60 = h * 60 + m)
      by (symmetry; apply (Z.div_unique _ _ _ s); lia).
    rewrite E. symmetry. apply (Z.mod_unique _ _ h); lia.
  - symmetry. apply (Z.mod_unique _ _ (h * 60 + m)); lia.
Qed.

Lemma last_occurrence_combine d t us last :
  valid_time t -> 0 <= us < Py.us_per_second ->
  last_occurrence (Py.combine d t + us) last
  = if Py.time_us t + us <? Py.time_us last
    then Py.combine (d - 1) last else Py.combine d last.
Proof.
  intros Hv Hus. unfold last_occurrence. rewrite (date_combine d t us Hv Hus).
  unfold Py.combine, Py.days.
  destruct (Z.ltb_spec (d * Py.us_per_day + Py.time_us t + us)
              (d * Py.us_per_day + Py.time_us last));
    destruct (Z.ltb_spec (Py.time_us t + us) (Py.time_us last)); lia.
Qed.

Section Scenario.
Context {fl : Q -> Q} `{!Rounding fl}.

Lemma total_seconds_value d n :
  - 2 ^ 53 <= n <= 2 ^ 53 -> d = n * Py.us_per_second ->
  (total_seconds fl d == inject_Z n)%Q.
Proof. intros Hn ->. apply total_seconds_whole, Hn. Qed.

Lemma Qltb_0_total_seconds d : Qltb 0 (total_seconds fl d) = (0 <? d).
Proof.
  unfold Qltb. rewrite (total_seconds_le_const d 0) by lia.
  rewrite Z.ltb_antisym. reflexivity.
Qed.

End Scenario.

(** The values of the two scenarios of the spec, on any day [d]. *)
Lemma hourly_values (fl : Q -> Q) (d : Z) (fuel : nat) :
  Rounding fl -> (3 <= fuel)%nat ->
  parse_row (one_row "boss" "60" "0" "10:00:00" true) = Some (60, 0, Py.mk_time 10 0 0) /\
  (computeNextOccurrence fuel (Py.mk_time 10 0 0) (Py.mk_timedelta 60 0)
     (Py.combine d (Py.mk_time 10 0 0)) = Some (Py.combine d (Py.mk_time 11 0 0)) /\
   Py.strftime_HMS (Py.combine d (Py.mk_time 11 0 0)) = "11:00:00"%string /\
   (fst (computeDisplayState fl (Py.combine d (Py.mk_time 11 0 0)) (Py.mk_timedelta 60 0)
           (Py.combine d (Py.mk_time 10 0 0))) == 3600)%Q /\
   snd (computeDisplayState fl (Py.combine d (Py.mk_time 11 0 0)) (Py.mk_timedelta 60 0)
          (Py.combine d (Py.mk_time 10 0 0))) = Some 0) /\
  (computeNextOccurrence fuel (Py.mk_time 10 0 0) (Py.mk_timedelta 60 0)
     (Py.combine d (Py.mk_time 13 5 0)) = Some (Py.combine d (Py.mk_time 14 0 0)) /\
   Py.strftime_HMS (Py.combine d (Py.mk_time 14 0 0)) = "14:00:00"%string /\
   (fst (computeDisplayState fl (Py.combine d (Py.mk_time 14 0 0)) (Py.mk_timedelta 60 0)
           (Py.combine d (Py.mk_time 13 5 0))) == 3300)%Q).
Proof.
  intros HR Hf.
  assert (valid : forall h m s, 0 <= h <= 23 -> 0 <= m <= 59 -> 0 <= s <= 59 ->
                    valid_time (Py.mk_time h m s)) by (intros; unfold valid_time; simpl; lia).
  assert (Hstr : forall t, valid_time t -> Py.strftime_HMS (Py.combine d t) = Py.format_HMS t).
  { intros t Ht. unfold Py.strftime_HMS. rewrite <- (Z.add_0_r (Py.combine d t)).
    rewrite time_of_combine; [reflexivity|exact Ht|unfold Py.us_per_second; lia]. }
  assert (Hanchor : forall t, valid_time t -> Py.time_us (Py.mk_time 10 0 0) <= Py.time_us t ->
            last_occurrence (Py.combine d t) (Py.mk_time 10 0 0)
            = Py.combine d (Py.mk_time 10 0 0)).
  { intros t Ht Hle. rewrite <- (Z.add_0_r (Py.combine d t)).
    rewrite last_occurrence_combine; [|exact Ht|unfold Py.us_per_second; lia].
    destruct (Z.ltb_spec (Py.time_us t + 0) (Py.time_us (Py.mk_time 10 0 0))); [lia|reflexivity]. }
  split; [reflexivity|]. split; [split; [|split; [|split]]|split; [|split]].
  - pose proof (Hanchor (Py.mk_time 10 0 0) ltac:(apply valid; lia) ltac:(lia)) as Ha.
    destruct (computeNextOccurrence_closed fuel (Py.mk_time 10 0 0) (Py.mk_timedelta 60 0)
                (Py.combine d (Py.mk_time 10 0 0))) as [H1 _];
      [reflexivity|rewrite Ha; lia|].
    rewrite Ha in H1. rewrite H1.
    + f_equal. unfold closed_form, periods_added.
      rewrite Z.sub_diag. vm_compute (Z.max _ _). unfold Py.combine. vm_compute (Py.time_us _).
      vm_compute (Py.mk_timedelta _ _). lia.
    + unfold periods_added. rewrite Z.sub_diag. vm_compute (Z.max _ _). lia.
  - rewrite Hstr by (apply valid; lia). reflexivity.
  - unfold computeDisplayState, fst. apply (total_seconds_value _ 3600); [lia|].
    unfold Py.combine. vm_compute (Py.time_us _). vm_compute (3600 * _). lia.
  - unfold computeDisplayState, snd. rewrite Qltb_0_total_seconds.
    change (0 <? Py.mk_timedelta 60 0) with true. cbv iota. f_equal.
    apply progress_percent_reset.
    + rewrite (total_seconds_value (Py.mk_timedelta 60 0) 3600) by (try reflexivity; lia).
      apply (total_seconds_value _ 3600); [lia|].
      unfold Py.combine. vm_compute (Py.time_us _). vm_compute (3600 * _). lia.
    + rewrite (total_seconds_value (Py.mk_timedelta 60 0) 3600) by (try reflexivity; lia).
      reflexivity.
  - pose proof (Hanchor (Py.mk_time 13 5 0) ltac:(apply valid; lia)
                  ltac:(vm_compute; discriminate)) as Ha.
    assert (Hk : periods_added (Py.combine d (Py.mk_time 10 0 0)) (Py.mk_timedelta 60 0)
                   (Py.combine d (Py.mk_time 13 5 0)) = 4).
    { unfold periods_added.
      replace (Py.combine d (Py.mk_time 13 5 0) - Py.combine d (Py.mk_time 10 0 0))
        with 11100000000 by (unfold Py.combine; vm_compute (Py.time_us _); lia).
      reflexivity. }
    destruct (computeNextOccurrence_closed fuel (Py.mk_time 10 0 0) (Py.mk_timedelta 60 0)
                (Py.combine d (Py.mk_time 13 5 0))) as [H1 _];
      [reflexivity|rewrite Ha; unfold Py.combine; vm_compute (Py.time_us _); lia|].
    rewrite Ha in H1. rewrite H1.
    + f_equal. unfold closed_form. rewrite Hk. unfold Py.combine. vm_compute (Py.time_us _).
      vm_compute (Py.mk_timedelta _ _). lia.
    + rewrite Hk. lia.
  - rewrite Hstr by (apply valid; lia). reflexivity.
  - unfold computeDisplayState, fst. apply (total_seconds_value _ 3300); [lia|].
    unfold Py.combine. vm_compute (Py.time_us _). vm_compute (3300 * _). lia.
Qed.

(** * Alerts *)

Lemma Qle_bool_false x y : Qle_bool x y = false <-> (y < x)%Q.
Proof.
  rewrite <- not_true_iff_false, Qle_bool_iff. split; [apply Qnot_le_lt|apply Qlt_not_le].
Qed.

(** The two tests of [check_alert_conditions] exclude each other, so that
    its sequence of [if]s takes the decision of [classifyAlert]. *)
Lemma check_alert_conditions_classify fl refresh i next_time t st r :
  table st !! i = Some r ->
  check_alert_conditions fl refresh i next_time t st
  = alert_action refresh i (boss_name r) next_time
      (classifyAlert (total_seconds fl (next_time - t)) (enabled r) (ringing st)) st.
Proof.
  intros Hi. unfold check_alert_conditions, classifyAlert. rewrite Hi.
  destruct (enabled r); cbn [negb]; [|reflexivity].
  destruct (Qle_bool 178 _) eqn:E1; cbn [andb].
  - destruct (Qle_bool _ 180) eqn:E2; cbn [alert_action].
    + assert (E3 : Qle_bool (total_seconds fl (next_time - t)) 0 = false).
      { apply Qle_bool_false. apply Qle_bool_iff in E1. lra. }
      rewrite E3. reflexivity.
    + destruct (Qle_bool _ 0 && negb (ringing st)); reflexivity.
  - destruct (Qle_bool _ 0 && negb (ringing st)); reflexivity.
Qed.

Lemma classifyAlert_PreWarning rem e b :
  classifyAlert rem e b = PreWarning <-> e = true /\ (178 <= rem)%Q /\ (rem <= 180)%Q.
Proof.
  unfold classifyAlert. destruct e; cbn [negb].
  - destruct (Qle_bool 178 rem) eqn:E1; cbn [andb].
    + destruct (Qle_bool rem 180) eqn:E2.
      * apply Qle_bool_iff in E1, E2. tauto.
      * apply Qle_bool_false in E2.
        split; [destruct (Qle_bool rem 0 && negb b); discriminate|].
        intros (_ & _ & H). lra.
    + apply Qle_bool_false in E1.
      split; [destruct (Qle_bool rem 0 && negb b); discriminate|].
      intros (_ & H & _). lra.
  - split; [discriminate|]. intros [H _]. discriminate.
Qed.

Lemma classifyAlert_Due rem e b :
  classifyAlert rem e b = Due <-> e = true /\ (rem <= 0)%Q /\ b = false.
Proof.
  unfold classifyAlert. destruct e; cbn [negb].
  - destruct (Qle_bool 178 rem && Qle_bool rem 180) eqn:E.
    + apply andb_true_iff in E as [E1%Qle_bool_iff E2%Qle_bool_iff].
      split; [discriminate|]. intros (_ & H & _). lra.
    + destruct (Qle_bool rem 0) eqn:E0; cbn [andb].
      * apply Qle_bool_iff in E0. destruct b; cbn [negb]; split; try discriminate; try tauto.
        intros (_ & _ & H). discriminate.
      * apply Qle_bool_false in E0. split; [discriminate|]. intros (_ & H & _). lra.
  - split; [discriminate|]. intros [H _]. discriminate.
Qed.

(** C7: [check_alert_conditions] takes the decision of [classifyAlert];
    that decision is the pre-warning exactly for an enabled row with
    178 <= remaining <= 180, and a disabled row gets no alert whatever the
    remaining time: the call leaves the state as it is. *)
Theorem prewarning_exactly_in_window (fl : Q -> Q) (refresh : BossTimer -> option BossTimer)
    (i : nat) (next_time t : Z) (st : BossTimer) (r : row) :
  table st !! i = Some r ->
  check_alert_conditions fl refresh i next_time t st
  = alert_action refresh i (boss_name r) next_time
      (classifyAlert (total_seconds fl (next_time - t)) (enabled r) (ringing st)) st /\
  (forall rem e b,
     classifyAlert rem e b = PreWarning <-> e = true /\ (178 <= rem)%Q /\ (rem <= 180)%Q) /\
  (forall rem b, classifyAlert rem false b = NoAlert) /\
  (enabled r = false -> check_alert_conditions fl refresh i next_time t st = Some st).
Proof.
  intros Hi. split; [apply check_alert_conditions_classify, Hi|].
  split; [apply classifyAlert_PreWarning|]. split; [reflexivity|].
  intros He. rewrite (check_alert_conditions_classify _ _ _ _ _ _ _ Hi), He. reflexivity.
Qed.

Section Alerts.
Context {fl : Q -> Q} `{!Rounding fl}.

(** The decision in terms of the exact number of microseconds left. *)
Lemma classifyAlert_total_seconds d e b :
  classifyAlert (total_seconds fl d) e b
  = if negb e then NoAlert
    else if (178 * Py.us_per_second <=? d) && (d <=? 180 * Py.us_per_second) then PreWarning
    else if (d <=? 0) && negb b then Due
    else NoAlert.
Proof.
  unfold classifyAlert.
  change 178%Q with (inject_Z 178). change 180%Q with (inject_Z 180).
  change 0%Q with (inject_Z 0).
  rewrite total_seconds_ge_const by lia. rewrite !total_seconds_le_const by lia.
  reflexivity.
Qed.

Lemma refresh_row_eq fuel refresh t i st r m s last next_time :
  table st !! i = Some r -> parse_row r = Some (m, s, last) ->
  computeNextOccurrence fuel last (Py.mk_timedelta m s) t = Some next_time ->
  refresh_row fl fuel refresh t i st
  = check_alert_conditions fl refresh i next_time t
      (update_row_display fl i next_time (Py.mk_timedelta m s) t st).
Proof. intros Hi Hp Hn. unfold refresh_row. rewrite Hi, Hp, Hn. reflexivity. Qed.

End Alerts.

Lemma parse_row_valid r m s last : parse_row r = Some (m, s, last) -> valid_time last.
Proof.
  unfold parse_row. destruct (Py.int _); [|discriminate]. destruct (Py.int _); [|discriminate].
  destruct (Py.strptime_HMS _) eqn:E; [|discriminate]. intros [= _ _ <-].
  apply (strptime_valid _ _ E).
Qed.

(** Among consecutive numbers at most [m] lie in a range of [m]. *)
Lemma filter_seq_bound (P : nat -> bool) (a m s n : nat) :
  (forall k, P k = true -> (a <= k < a + m)%nat) ->
  (List.length (List.filter P (seq s n)) <= m)%nat.
Proof.
  intros HP. transitivity (List.length (seq a m)); [|rewrite List.length_seq; lia].
  apply List.NoDup_incl_length.
  - apply List.NoDup_filter, List.seq_NoDup.
  - intros k Hk. apply List.filter_In in Hk as [_ Hk]. apply List.in_seq. apply HP, Hk.
Qed.

Lemma filter_map_length {A B} (P : B -> bool) (g : A -> B) (l : list A) :
  List.length (List.filter P (List.map g l)) = List.length (List.filter (fun x => P (g x)) l).
Proof.
  induction l as [|x l IH]; [reflexivity|]. cbn [List.map List.filter].
  destruct (P (g x)); cbn [List.length]; rewrite IH; reflexivity.
Qed.

Section PreWarnings.
Context {fl : Q -> Q} `{!Rounding fl}.

Lemma prewarnings_1Hz_bound next_time ringing_at t0 n :
  (prewarnings fl next_time ringing_at (ticks_1Hz t0 n) <= 3)%nat.
Proof.
  unfold prewarnings, ticks_1Hz. rewrite filter_map_length.
  apply (filter_seq_bound _
           (Z.to_nat ((next_time - t0 - 180 * Py.us_per_second + 999999) / 1000000))).
  intros k Hk. rewrite classifyAlert_total_seconds in Hk. cbn [negb] in Hk.
  destruct (_ && _) eqn:E in Hk.
  - apply andb_true_iff in E as [E1%Z.leb_le E2%Z.leb_le].
    unfold Py.us_per_second in *. 
    Z.div_mod_to_equations. lia.
  - destruct (_ && _) in Hk; discriminate.
Qed.

Lemma prewarnings_1Hz_three ringing_at t0 :
  prewarnings fl (t0 + 180 * Py.us_per_second) ringing_at (ticks_1Hz t0 3) = 3%nat.
Proof.
  unfold prewarnings, ticks_1Hz. cbn [seq List.map List.filter].
  rewrite !classifyAlert_total_seconds. cbn [negb].
  replace (t0 + 180 * Py.us_per_second - (t0 + Z.of_nat 0 * Py.us_per_second))
    with 180000000 by (unfold Py.us_per_second; lia).
  replace (t0 + 180 * Py.us_per_second - (t0 + Z.of_nat 1 * Py.us_per_second))
    with 179000000 by (unfold Py.us_per_second; lia).
  replace (t0 + 180 * Py.us_per_second - (t0 + Z.of_nat 2 * Py.us_per_second))
    with 178000000 by (unfold Py.us_per_second; lia).
  reflexivity.
Qed.

(** A row in the window raises the pre-warning whatever the state. *)
Lemma refresh_row_prewarning fuel refresh t i st r m s last next_time :
  table st !! i = Some r -> enabled r = true -> parse_row r = Some (m, s, last) ->
  computeNextOccurrence fuel last (Py.mk_timedelta m s) t = Some next_time ->
  178 * Py.us_per_second <= next_time - t <= 180 * Py.us_per_second ->
  refresh_row fl fuel refresh t i st
  = Some (play_warning_sound
            (show_alert (boss_name r)
               (update_row_display fl i next_time (Py.mk_timedelta m s) t st))).
Proof.
  intros Hi He Hp Hn [Hlo Hhi].
  rewrite (refresh_row_eq fuel refresh t i st r m s last next_time Hi Hp Hn).
  rewrite update_row_display_eq.
  rewrite (check_alert_conditions_classify fl refresh i next_time t _ _
             (update_row_lookup i _ st r Hi)).
  rewrite classifyAlert_total_seconds.
  assert (E : enabled (displayed fl next_time (Py.mk_timedelta m s) t r) = true).
  { unfold displayed. destruct (snd _); exact He. }
  rewrite E. cbn [negb]. apply Z.leb_le in Hlo, Hhi. rewrite Hlo, Hhi. cbn [andb alert_action].
  f_equal. f_equal. f_equal. unfold displayed. destruct (snd _); reflexivity.
Qed.

End PreWarnings.

(** * The scenarios as passes over the table *)

Section Pass.
Context {fl : Q -> Q} `{!Rounding fl}.

(** A pass over a table of one enabled row that raises no alert leaves the
    displayed row and nothing else. *)
Lemma refresh_one_row_quiet fuel auto t r m s last next_time :
  enabled r = true -> parse_row r = Some (m, s, last) ->
  computeNextOccurrence (S fuel) last (Py.mk_timedelta m s) t = Some next_time ->
  180 * Py.us_per_second < next_time - t ->
  refresh_all_timers fl (S fuel) (window [r] auto [t])
  = Some (mk_BossTimer [displayed fl next_time (Py.mk_timedelta m s) t r] false auto
            (clock_of [t]) 1 [] None).
Proof.
  intros He Hp Hn Hfar. cbn [refresh_all_timers]. unfold window, now.
  cbn [table reads clock ringing auto_time log config_file List.length seq for_rows].
  change (clock_of [t] 0%nat) with t.
  set (st1 := mk_BossTimer [r] false auto (clock_of [t]) 1 [] None).
  assert (H0 : table st1 !! 0%nat = Some r) by reflexivity.
  rewrite (refresh_row_eq (S fuel) (refresh_all_timers fl fuel) t 0 st1 r m s last next_time
             H0 Hp Hn).
  rewrite update_row_display_eq.
  rewrite (check_alert_conditions_classify fl (refresh_all_timers fl fuel) 0 next_time t _ _
             (update_row_lookup 0 _ st1 r H0)).
  rewrite classifyAlert_total_seconds.
  assert (E : enabled (displayed fl next_time (Py.mk_timedelta m s) t r) = true).
  { unfold displayed. destruct (snd _); exact He. }
  rewrite E. cbn [negb].
  destruct (Z.leb_spec (next_time - t) (180 * Py.us_per_second)) as [Hc|_]; [lia|].
  rewrite andb_false_r.
  destruct (Z.leb_spec (next_time - t) 0) as [Hc|_];
    [unfold Py.us_per_second in Hfar; lia|].
  reflexivity.
Qed.

End Pass.

Lemma displayed_texts fl nt period t r :
  next_time (displayed fl nt period t r) = Py.strftime_HMS nt /\
  remaining_time (displayed fl nt period t r)
  = Py.str_timedelta (trunc (fst (computeDisplayState fl nt period t))).
Proof. unfold displayed. destruct (snd _); split; reflexivity. Qed.

(** C8: the two scenarios of the spec, on any day [d]: a period of
    60 min 0 s and a last trigger at 10:00:00.  At 10:00:00 sharp the
    next occurrence is 11:00:00, 3600 s remain and the progress is 0: the
    pass over the table shows 11:00:00, 1:00:00 and 0%.  At 13:05:00 the
    next occurrence is 14:00:00 and 3300 s remain: the pass shows 14:00:00
    and 0:55:00. *)
Theorem hourly_scenario (fl : Q -> Q) (d : Z) (fuel : nat) (auto : bool) :
  Rounding fl -> (3 <= fuel)%nat ->
  (computeNextOccurrence fuel (Py.mk_time 10 0 0) (Py.mk_timedelta 60 0)
     (Py.combine d (Py.mk_time 10 0 0)) = Some (Py.combine d (Py.mk_time 11 0 0)) /\
   (fst (computeDisplayState fl (Py.combine d (Py.mk_time 11 0 0)) (Py.mk_timedelta 60 0)
           (Py.combine d (Py.mk_time 10 0 0))) == 3600)%Q /\
   snd (computeDisplayState fl (Py.combine d (Py.mk_time 11 0 0)) (Py.mk_timedelta 60 0)
          (Py.combine d (Py.mk_time 10 0 0))) = Some 0 /\
   refresh_all_timers fl fuel
     (window [one_row "boss" "60" "0" "10:00:00" true] auto
        [Py.combine d (Py.mk_time 10 0 0)])
   = Some (mk_BossTimer
             [mk_row "boss" "60" "0" "10:00:00" "11:00:00" "1:00:00" true 0 "0%"]
             false auto (clock_of [Py.combine d (Py.mk_time 10 0 0)]) 1 [] None)) /\
  (computeNextOccurrence fuel (Py.mk_time 10 0 0) (Py.mk_timedelta 60 0)
     (Py.combine d (Py.mk_time 13 5 0)) = Some (Py.combine d (Py.mk_time 14 0 0)) /\
   (fst (computeDisplayState fl (Py.combine d (Py.mk_time 14 0 0)) (Py.mk_timedelta 60 0)
           (Py.combine d (Py.mk_time 13 5 0))) == 3300)%Q /\
   exists r',
     refresh_all_timers fl fuel
       (window [one_row "boss" "60" "0" "10:00:00" true] auto
          [Py.combine d (Py.mk_time 13 5 0)])
     = Some (mk_BossTimer [r'] false auto (clock_of [Py.combine d (Py.mk_time 13 5 0)]) 1 []
               None) /\
     next_time r' = "14:00:00"%string /\ remaining_time r' = "0:55:00"%string).
Proof.
  intros HR Hf. destruct fuel as [|fuel]; [lia|].
  destruct (hourly_values fl d (S fuel) HR Hf)
    as (Hp & (N1 & S1 & R1 & P1) & (N2 & S2 & R2)).
  set (r0 := one_row "boss" "60" "0" "10:00:00" true) in *.
  assert (He : enabled r0 = true) by reflexivity.
  split; [split; [exact N1|split; [exact R1|split; [exact P1|]]]
         |split; [exact N2|split; [exact R2|]]].
  - rewrite (refresh_one_row_quiet fuel auto (Py.combine d (Py.mk_time 10 0 0)) r0 60 0
               (Py.mk_time 10 0 0) (Py.combine d (Py.mk_time 11 0 0)) He Hp N1)
      by (unfold Py.combine; vm_compute (Py.time_us _); vm_compute (180 * _); lia).
    do 2 f_equal. unfold displayed. rewrite P1, S1.
    rewrite (trunc_const _ 3600 ltac:(lia) R1). reflexivity.
  - eexists. split.
    + apply (refresh_one_row_quiet fuel auto (Py.combine d (Py.mk_time 13 5 0)) r0 60 0
               (Py.mk_time 10 0 0) (Py.combine d (Py.mk_time 14 0 0)) He Hp N2).
      unfold Py.combine. vm_compute (Py.time_us _). vm_compute (180 * _). lia.
    + destruct (displayed_texts fl (Py.combine d (Py.mk_time 14 0 0)) (Py.mk_timedelta 60 0)
                  (Py.combine d (Py.mk_time 13 5 0)) r0) as [H1 H2].
      rewrite H1, H2, S2. rewrite (trunc_const _ 3300 ltac:(lia) R2). split; reflexivity.
Qed.

(** * One alarm until it is stopped *)

Lemma at_most_one_alarm_refl st : at_most_one_alarm st st.
Proof. split; intros H; [split|left; split]; congruence. Qed.

Lemma at_most_one_alarm_trans st1 st2 st3 :
  at_most_one_alarm st1 st2 -> at_most_one_alarm st2 st3 -> at_most_one_alarm st1 st3.
Proof.
  intros [A1 A2] [B1 B2]. split.
  - intros H. destruct (A1 H) as [H2 E2]. destruct (B1 H2) as [H3 E3].
    split; congruence.
  - intros H. destruct (A2 H) as [[H2 E2]|[H2 E2]].
    + destruct (B2 H2) as [[H3 E3]|[H3 E3]]; [left|right]; split; congruence.
    + destruct (B1 H2) as [H3 E3]. right. split; congruence.
Qed.

(** Steps that touch neither the flag nor the log. *)
Lemma at_most_one_alarm_same st st' :
  ringing st' = ringing st -> log st' = log st -> at_most_one_alarm st st'.
Proof.
  intros Hr Hl. unfold at_most_one_alarm, alarms. rewrite Hr, Hl.
  split; intros H; [split|left; split]; congruence.
Qed.

Lemma alarms_emit e st :
  alarms (emit e st) = (alarms st + if is_alarm e then 1 else 0)%nat.
Proof.
  unfold alarms, emit. cbn [log]. rewrite List.filter_app, List.length_app.
  cbn [List.filter]. destruct (is_alarm e); reflexivity.
Qed.

Lemma at_most_one_alarm_emit e st :
  is_alarm e = false -> at_most_one_alarm st (emit e st).
Proof.
  intros He. unfold at_most_one_alarm. rewrite alarms_emit, He, Nat.add_0_r.
  cbn [emit ringing]. split; intros H; [split|left; split]; congruence.
Qed.

Lemma at_most_one_alarm_update_row i f st : at_most_one_alarm st (update_row i f st).
Proof.
  destruct (update_row_other i f st) as (Hr & _ & Hl & _).
  apply at_most_one_alarm_same; assumption.
Qed.


Section Once.
Context (fl : Q -> Q).

Lemma update_row_display_one_alarm i next_time period t st :
  at_most_one_alarm st (update_row_display fl i next_time period t st).
Proof. rewrite update_row_display_eq. apply at_most_one_alarm_update_row. Qed.

(** [trigger_alarm] is entered with a clear flag; it sets it and starts
    one alarm, and the pass it may start changes neither. *)
Lemma trigger_alarm_one_alarm refresh i next_time st st' :
  keeps_one_alarm refresh -> ringing st = false -> is_Some (table st !! i) ->
  trigger_alarm refresh i next_time st = Some st' ->
  ringing st' = true /\ alarms st' = S (alarms st).
Proof.
  intros Hrefresh Hclear [r Hi]. unfold trigger_alarm.
  cbn [set_ringing table]. rewrite Hi.
  set (st1 := emit (MessageBox (boss_name r) (Py.strftime_HMS next_time))
                (play_sound AlarmWav (set_ringing true st))).
  assert (H1 : ringing st1 = true /\ alarms st1 = S (alarms st)).
  { split; [reflexivity|]. unfold st1, play_sound. rewrite !alarms_emit. cbn [is_alarm].
    unfold alarms, set_ringing. cbn [log]. lia. }
  fold (set_ringing true st). fold st1.
  destruct (auto_time st1).
  - unfold update_boss_time, now. intros Hnested. apply Hrefresh in Hnested.
    destruct Hnested as [Hset _].
    destruct (update_row_other i (set_last_time (Py.strftime_HMS (clock st1 (reads st1))))
                (mk_BossTimer (table st1) (ringing st1) (auto_time st1) (clock st1)
                   (S (reads st1)) (log st1) (config_file st1))) as (Hr & _ & Hl & _).
    cbn [ringing log] in Hr, Hl.
    destruct Hset as [Hring Hal]; [rewrite Hr; apply H1|].
    split; [exact Hring|]. rewrite Hal. unfold alarms at 1. rewrite Hl. apply H1.
  - intros [= <-]. exact H1.
Qed.

Lemma check_alert_conditions_one_alarm refresh i next_time t st st' :
  keeps_one_alarm refresh ->
  check_alert_conditions fl refresh i next_time t st = Some st' ->
  at_most_one_alarm st st'.
Proof.
  intros Hrefresh. destruct (table st !! i) as [r|] eqn:Hi.
  - rewrite (check_alert_conditions_classify fl refresh i next_time t st r Hi).
    destruct (classifyAlert _ _ _) eqn:Hc; cbn [alert_action].
    + intros [= <-]. apply at_most_one_alarm_refl.
    + intros [= <-]. unfold play_warning_sound, play_sound, show_alert.
      eapply at_most_one_alarm_trans; apply at_most_one_alarm_emit; reflexivity.
    + apply classifyAlert_Due in Hc as (_ & _ & Hclear). intros Htrig.
      destruct (trigger_alarm_one_alarm refresh i next_time st st' Hrefresh Hclear
                  ltac:(eauto) Htrig) as [Hr Ha].
      split; [congruence|]. intros _. right. split; assumption.
  - unfold check_alert_conditions. rewrite Hi. intros [= <-]. apply at_most_one_alarm_refl.
Qed.

Lemma refresh_row_one_alarm fuel refresh t i st st' :
  keeps_one_alarm refresh ->
  refresh_row fl fuel refresh t i st = Some st' -> at_most_one_alarm st st'.
Proof.
  intros Hrefresh. unfold refresh_row. destruct (table st !! i) as [r|].
  - destruct (parse_row r) as [[[m s] last]|].
    + destruct (computeNextOccurrence _ _ _ _) as [next_time|]; [|discriminate].
      intros Hc. eapply at_most_one_alarm_trans;
        [apply update_row_display_one_alarm
        |apply (check_alert_conditions_one_alarm _ _ _ _ _ _ Hrefresh Hc)].
    + intros [= <-]. apply at_most_one_alarm_emit. reflexivity.
  - intros [= <-]. apply at_most_one_alarm_refl.
Qed.

Lemma for_rows_one_alarm body rows : 
  (forall i st st', body i st = Some st' -> at_most_one_alarm st st') ->
  forall st st', for_rows body rows st = Some st' -> at_most_one_alarm st st'.
Proof.
  intros Hbody. induction rows as [|i rows IH]; intros st st'; cbn [for_rows].
  - intros [= <-]. apply at_most_one_alarm_refl.
  - destruct (body i st) as [st1|] eqn:E; [|discriminate].
    intros Hrest. eapply at_most_one_alarm_trans; [apply (Hbody _ _ _ E)|apply IH, Hrest].
Qed.

Lemma refresh_all_timers_one_alarm fuel : keeps_one_alarm (refresh_all_timers fl fuel).
Proof.
  induction fuel as [|fuel IH]; intros st st'; cbn [refresh_all_timers]; [discriminate|].
  unfold now. intros Hpass.
  eapply at_most_one_alarm_trans; [|eapply for_rows_one_alarm; [|exact Hpass]].
  - apply at_most_one_alarm_same; reflexivity.
  - intros i st1 st2. apply refresh_row_one_alarm, IH.
Qed.

Lemma step_one_alarm fuel inp st st' :
  is_stop inp = false -> step fl fuel inp st = Some st' -> at_most_one_alarm st st'.
Proof.
  destruct inp; cbn [is_stop step]; try discriminate; intros _.
  - apply refresh_all_timers_one_alarm.
  - apply refresh_all_timers_one_alarm.
  - intros [= <-]. apply at_most_one_alarm_same; reflexivity.
  - intros [= <-]. apply at_most_one_alarm_same; reflexivity.
  - unfold handle_cell_edit. destruct (negb (auto_time st)).
    + destruct (Py.strptime_HMS s).
      * intros H. eapply at_most_one_alarm_trans;
          [apply at_most_one_alarm_update_row|apply (refresh_all_timers_one_alarm _ _ _ H)].
      * intros [= <-]. apply at_most_one_alarm_refl.
    + intros [= <-]. apply at_most_one_alarm_refl.
  - intros [= <-]. apply at_most_one_alarm_update_row.
  - intros [= <-]. apply at_most_one_alarm_update_row.
  - intros [= <-]. apply at_most_one_alarm_update_row.
  - intros [= <-]. apply at_most_one_alarm_same; reflexivity.
Qed.

Lemma run_one_alarm fuel inps : forall st st',
  forallb (fun inp => negb (is_stop inp)) inps = true ->
  run fl fuel inps st = Some st' -> at_most_one_alarm st st'.
Proof.
  induction inps as [|inp inps IH]; intros st st'; cbn [forallb run].
  - intros _ [= <-]. apply at_most_one_alarm_refl.
  - intros [Hinp Hrest]%andb_true_iff. apply negb_true_iff in Hinp.
    destruct (step fl fuel inp st) as [st1|] eqn:E; [|discriminate].
    intros Hrun. eapply at_most_one_alarm_trans;
      [apply (step_one_alarm _ _ _ _ Hinp E)|apply (IH _ _ Hrest Hrun)].
Qed.

End Once.

(** C1 (as stated) fails: two enabled rows reach zero in the same pass, in
    manual mode and with no alarm ringing before.  Row A gets its alarm
    box; row B, due as well and never acknowledged or rung before, gets
    none: the flag that row A set suppresses it. *)
Lemma due_suppression_is_not_per_entry :
  option_map alarm_boxes (refresh_all_timers binary64 day_fuel two_due_rows) = Some ["A"%string] /\
  option_map ringing (refresh_all_timers binary64 day_fuel two_due_rows) = Some true /\
  parse_row (one_row "B" "60" "0" "10:00:00" true) = Some (60, 0, Py.mk_time 10 0 0) /\
  computeNextOccurrence day_fuel (Py.mk_time 10 0 0) (Py.mk_timedelta 60 0) (at_time 11 0 0 0)
  = Some (at_time 11 0 0 0) /\
  classifyAlert (total_seconds binary64 (at_time 11 0 0 0 - at_time 11 0 0 0)) true false = Due.
Proof. repeat split; vm_compute; reflexivity. Qed.

(** C1 (amended): the suppression is one flag for the whole table.
    [check_alert_conditions] decides for the alarm exactly when the row is
    enabled, its remaining seconds are at most 0 and [self.ringing] is
    clear, and then calls [trigger_alarm], which sets the flag.  Over any
    inputs without a stop of the alarm at most one alarm is started, for
    all rows together and however many ticks see a remaining time of at
    most 0, and none when the flag was set at the start; the count can only
    have grown when the flag is set at the end.  [stop_alarm_sound] clears
    the flag. *)
Theorem alarm_once_until_stopped (fl : Q -> Q) (fuel : nat) (inps : list input)
    (st st' : BossTimer) :
  forallb (fun inp => negb (is_stop inp)) inps = true ->
  run fl fuel inps st = Some st' ->
  (alarms st' <= alarms st + 1)%nat /\
  (ringing st = true -> ringing st' = true /\ alarms st' = alarms st) /\
  (alarms st' <> alarms st -> ringing st' = true) /\
  (forall rem e b, classifyAlert rem e b = Due <-> e = true /\ (rem <= 0)%Q /\ b = false) /\
  (forall refresh i next_time t r,
     table st !! i = Some r ->
     classifyAlert (total_seconds fl (next_time - t)) (enabled r) (ringing st) = Due ->
     check_alert_conditions fl refresh i next_time t st = trigger_alarm refresh i next_time st) /\
  ringing (stop_alarm_sound st') = false.
Proof.
  intros Hin Hrun. destruct (run_one_alarm fl fuel inps st st' Hin Hrun) as [Hset Hclear].
  split; [|split; [|split; [|split; [|split]]]].
  - destruct (ringing st) eqn:E.
    + destruct (Hset eq_refl) as [_ ->]. lia.
    + destruct (Hclear eq_refl) as [[_ ->]|[_ ->]]; lia.
  - exact Hset.
  - intros Hne. destruct (ringing st) eqn:E.
    + destruct (Hset eq_refl) as [? ?]. congruence.
    + destruct (Hclear eq_refl) as [[? ?]|[? ?]]; congruence.
  - apply classifyAlert_Due.
  - intros refresh i next_time t r Hi Hd.
    rewrite (check_alert_conditions_classify fl refresh i next_time t st r Hi), Hd. reflexivity.
  - reflexivity.
Qed.

(** * [int(str(n))] *)

Lemma rstrip_no_space s : no_space s = true -> Py.rstrip s = s.
Proof.
  induction s as [|c r IH]; [reflexivity|]. cbn [no_space Py.rstrip].
  intros [Hc Hr]%andb_true_iff. rewrite (IH Hr). apply negb_true_iff in Hc. rewrite Hc.
  destruct r; reflexivity.
Qed.

Lemma strip_no_space s : no_space s = true -> Py.strip s = s.
Proof.
  intros H. unfold Py.strip.
  assert (E : Py.lstrip s = s).
  { destruct s as [|c r]; [reflexivity|]. cbn [no_space] in H. cbn [Py.lstrip].
    apply andb_true_iff in H as [Hc%negb_true_iff _]. rewrite Hc. reflexivity. }
  rewrite E. apply rstrip_no_space, H.
Qed.

Lemma string_of_uint_no_space d : no_space (NilEmpty.string_of_uint d) = true.
Proof. induction d; cbn; try rewrite IHd; reflexivity. Qed.

Lemma string_of_int_no_space d : no_space (NilZero.string_of_int d) = true.
Proof.
  destruct d as [d|d]; cbn [NilZero.string_of_int NilZero.string_of_uint no_space].
  - destruct d; try apply string_of_uint_no_space; reflexivity.
  - replace (Py.is_space "-") with false by reflexivity. cbn [negb andb].
    destruct d; try apply string_of_uint_no_space; reflexivity.
Qed.

Lemma string_of_int_not_plus d r : NilZero.string_of_int d <> String "+" r.
Proof.
  destruct d as [d|d]; cbn [NilZero.string_of_int NilZero.string_of_uint];
    destruct d; cbn; discriminate.
Qed.

Lemma to_int_proper n :
  Z.to_int n <> Decimal.Pos Decimal.Nil /\ Z.to_int n <> Decimal.Neg Decimal.Nil.
Proof.
  destruct n as [|p|p]; cbn; split; try discriminate;
    intros [= H]; apply (Unsigned.to_uint_nonnil p H).
Qed.

Lemma string_of_uint_all_digits d : all_digits (NilEmpty.string_of_uint d) = true.
Proof. induction d; cbn [NilEmpty.string_of_uint all_digits]; try rewrite IHd; reflexivity. Qed.

(** A character below U+007F is left as it is. *)
Lemma transform_cons c r :
  Py.byte c < 127 -> Py.transform (String c r) = String c (Py.transform r).
Proof.
  intros Hc. unfold Py.transform. cbn [Py.code_points].
  destruct (Z.ltb_spec (Py.byte c) 128); [|lia].
  cbn [List.map string_of_list_ascii]. f_equal.
  unfold Py.to_ascii. destruct (Z.ltb_spec (Py.byte c) 127); [|lia].
  unfold Py.byte. rewrite Nat2Z.id. apply ascii_nat_embedding.
Qed.

Lemma transform_all_digits s : all_digits s = true -> Py.transform s = s.
Proof.
  induction s as [|c r IH]; [reflexivity|]. cbn [all_digits].
  intros [[H1%Z.leb_le H2%Z.leb_le]%andb_true_iff Hr]%andb_true_iff.
  rewrite transform_cons by lia. rewrite (IH Hr). reflexivity.
Qed.

Lemma all_digits_no_space s : all_digits s = true -> no_space s = true.
Proof.
  induction s as [|c r IH]; [reflexivity|]. cbn [all_digits no_space].
  intros [[H1%Z.leb_le H2%Z.leb_le]%andb_true_iff Hr]%andb_true_iff.
  rewrite (IH Hr), andb_true_r. unfold Py.is_space, Py.byte in *.
  destruct (Nat.eqb_spec (nat_of_ascii c) 32); [lia|].
  destruct (Nat.leb_spec (nat_of_ascii c) 13); [lia|]. rewrite andb_false_r. reflexivity.
Qed.

Lemma ungroup_all_digits s : forall b,
  all_digits s = true -> s <> EmptyString \/ b = true -> Py.ungroup b s = Some s.
Proof.
  induction s as [|c r IH]; intros b; cbn [all_digits Py.ungroup].
  - intros _ [H| ->]; [congruence|reflexivity].
  - intros [[H1%Z.leb_le H2%Z.leb_le]%andb_true_iff Hr]%andb_true_iff _.
    destruct (Ascii.eqb_spec c "_") as [->|_]; [exfalso; apply H2; reflexivity|].
    rewrite (IH true Hr) by (right; reflexivity). reflexivity.
Qed.

(** The numeral of a positive number is read back. *)
Lemma digits_to_uint p : Py.digits (NilEmpty.string_of_uint (Pos.to_uint p)) = Some (Z.pos p).
Proof.
  pose proof (Unsigned.to_uint_nonnil p) as Hnil.
  assert (Hne : NilEmpty.string_of_uint (Pos.to_uint p) <> EmptyString)
    by (destruct (Pos.to_uint p); cbn; congruence).
  unfold Py.digits.
  rewrite (ungroup_all_digits _ false (string_of_uint_all_digits _)) by (left; exact Hne).
  assert (E : NilZero.uint_of_string (NilEmpty.string_of_uint (Pos.to_uint p))
              = Some (Pos.to_uint p)).
  { rewrite <- (NilZero.usu _ Hnil). unfold NilZero.string_of_uint.
    destruct (Pos.to_uint p); congruence. }
  rewrite E. cbn. unfold Z.of_uint. rewrite DecimalPos.Unsigned.of_to. reflexivity.
Qed.

Lemma first_digit_not_sign c r :
  all_digits (String c r) = true -> Ascii.eqb c "+" = false /\ Ascii.eqb c "-" = false.
Proof.
  cbn [all_digits]. intros [[H1%Z.leb_le H2%Z.leb_le]%andb_true_iff _]%andb_true_iff.
  apply Z.le_ge in H1.
  split; [destruct (Ascii.eqb_spec c "+") as [->|]|destruct (Ascii.eqb_spec c "-") as [->|]];
    try reflexivity; exfalso; apply H1; reflexivity.
Qed.

(** [str] and [int] round-trip. *)
Lemma int_str n : Py.int (Py.str n) = Some n.
Proof.
  destruct n as [|p|p]; [reflexivity| |]; unfold Py.int, Py.str, Z.to_int;
    cbn [NilZero.string_of_int]; unfold NilZero.string_of_uint;
    pose proof (Unsigned.to_uint_nonnil p) as Hnil;
    pose proof (string_of_uint_all_digits (Pos.to_uint p)) as Hd;
    pose proof (digits_to_uint p) as Hp.
  - assert (E : match Pos.to_uint p with
                | Decimal.Nil => "0"%string
                | _ => NilEmpty.string_of_uint (Pos.to_uint p)
                end = NilEmpty.string_of_uint (Pos.to_uint p))
      by (destruct (Pos.to_uint p); congruence).
    rewrite E, (transform_all_digits _ Hd), (strip_no_space _ (all_digits_no_space _ Hd)).
    destruct (NilEmpty.string_of_uint (Pos.to_uint p)) as [|c r] eqn:Es.
    + discriminate Hp.
    + destruct (first_digit_not_sign c r Hd) as [-> ->]. exact Hp.
  - assert (E : match Pos.to_uint p with
                | Decimal.Nil => "0"%string
                | _ => NilEmpty.string_of_uint (Pos.to_uint p)
                end = NilEmpty.string_of_uint (Pos.to_uint p))
      by (destruct (Pos.to_uint p); congruence).
    rewrite E, transform_cons by reflexivity.
    rewrite (transform_all_digits _ Hd).
    assert (Hs : Py.strip (String "-" (NilEmpty.string_of_uint (Pos.to_uint p)))
                 = String "-" (NilEmpty.string_of_uint (Pos.to_uint p))).
    { apply strip_no_space. cbn [no_space]. rewrite (all_digits_no_space _ Hd). reflexivity. }
    rewrite Hs. change (Ascii.eqb "-" "+") with false. change (Ascii.eqb "-" "-") with true.
    cbn iota. rewrite Hp. reflexivity.
Qed.

(** * The configuration file *)

Lemma config_item_some r item :
  config_item r = Some item ->
  exists m s,
    Py.int (period_min r) = Some m /\ Py.int (period_sec r) = Some s /\
    item !! "name" = Some (JStr (boss_name r)) /\
    item !! "minutes" = Some (JInt m) /\
    item !! "seconds" = Some (JInt s) /\
    item !! "last_time" = Some (JStr (last_time r)) /\
    item !! "enabled" = Some (JBool (enabled r)).
Proof.
  unfold config_item. destruct (Py.int (period_min r)) as [m|]; [|discriminate].
  destruct (Py.int (period_sec r)) as [s|]; [|discriminate].
  intros [= <-]. exists m, s. repeat split; reflexivity.
Qed.

Lemma update_row_last l r f st :
  table st = l ++ [r] -> update_row (List.length l) f st = set_table (l ++ [f r]) st.
Proof.
  intros E. unfold update_row. rewrite E.
  rewrite list_lookup_middle by reflexivity.
  rewrite insert_app_r_alt by lia. rewrite Nat.sub_diag. reflexivity.
Qed.

Lemma update_row_last_set l r f st :
  update_row (List.length l) f (set_table (l ++ [r]) st) = set_table (l ++ [f r]) st.
Proof.
  assert (E : table (set_table (l ++ [r]) st) = l ++ [r]) by reflexivity.
  rewrite (update_row_last l r f _ E). reflexivity.
Qed.

Lemma load_item_saved r item st :
  config_item r = Some item ->
  exists m s,
    Py.int (period_min r) = Some m /\ Py.int (period_sec r) = Some s /\
    load_item item st = (set_table (table st ++ [reloaded r m s]) (snd (now st)), true).
Proof.
  intros (m & s & Hm & Hs & E1 & E2 & E3 & E4 & E5)%config_item_some.
  exists m, s. split; [exact Hm|]. split; [exact Hs|].
  unfold load_item. rewrite E1, E2, E3, E4, E5.
  cbn [default from_option id as_text as_bool json_str].
  set (st1 := add_boss_row st).
  assert (Ht : exists r0, table st1 = table st ++ [r0]) by (eexists; reflexivity).
  destruct Ht as [r0 Ht].
  assert (Hlen : (List.length (table st1) - 1)%nat = List.length (table st)).
  { rewrite Ht, List.length_app. cbn [List.length]. lia. }
  rewrite Hlen.
  rewrite (update_row_last (table st) r0 _ st1 Ht).
  rewrite !update_row_last_set.
  unfold st1, add_boss_row, now in Ht |- *. cbn [table set_table] in Ht.
  apply app_inv_head in Ht. injection Ht as <-.
  reflexivity.
Qed.

Lemma load_items_saved rows : forall items st,
  mapM config_item rows = Some items ->
  exists st',
    load_items items st = (st', true) /\
    List.map entry_of_row (table st')
    = List.map entry_of_row (table st) ++ List.map entry_of_row rows /\
    log st' = log st /\ config_file st' = config_file st.
Proof.
  induction rows as [|r rows IH]; intros items st Hsave.
  - injection Hsave as <-. exists st. cbn. rewrite app_nil_r. repeat split.
  - cbn [mapM] in Hsave. unfold mbind, option_bind in Hsave.
    destruct (config_item r) as [item|] eqn:Er; [|discriminate].
    destruct (mapM config_item rows) as [items'|] eqn:Erows; [|discriminate].
    cbn in Hsave. injection Hsave as <-.
    destruct (load_item_saved r item st Er) as (m & s & Hm & Hs & Hload).
    cbn [load_items]. rewrite Hload.
    destruct (IH items' (set_table (table st ++ [reloaded r m s]) (snd (now st))) eq_refl)
      as (st' & Hitems & Hentries & Hlog & Hfile).
    exists st'. split; [exact Hitems|]. split; [|split; assumption].
    rewrite Hentries. cbn [table set_table]. rewrite List.map_app, <- app_assoc.
    f_equal. cbn [List.map List.app]. f_equal.
    unfold entry_of_row, reloaded. cbn [boss_name period_min period_sec last_time enabled].
    rewrite !int_str, Hm, Hs. reflexivity.
Qed.

(** C9 (amended): not for every table, but for every table whose period
    texts [int()] reads: then [save_config] writes the file, and a window
    that starts with an empty table and this file gets from [load_config]
    rows with the same name, minutes, seconds, last time and enabled flag,
    in the same order, and loading logs no error. *)
Theorem save_load_round_trip (st st0 : BossTimer) :
  Forall (fun r => is_Some (Py.int (period_min r)) /\ is_Some (Py.int (period_sec r)))
    (table st) ->
  table st0 = [] -> config_file st0 = config_file (save_config st) ->
  is_Some (config_file (save_config st)) /\
  List.map entry_of_row (table (load_config st0)) = List.map entry_of_row (table st) /\
  log (load_config st0) = log st0.
Proof.
  intros Hrows Hempty Hfile.
  assert (Hsave : exists items, mapM config_item (table st) = Some items).
  { clear Hfile. induction Hrows as [|r rows [[m Hm] [s Hs]] _ IH].
    - exists []. reflexivity.
    - destruct IH as [items IH].
      assert (Hitem : exists item, config_item r = Some item)
        by (unfold config_item; rewrite Hm, Hs; eauto).
      destruct Hitem as [item Hitem]. exists (item :: items).
      cbn [mapM]. rewrite Hitem. cbn. rewrite IH. reflexivity. }
  destruct Hsave as [items Hsave].
  unfold save_config in Hfile |- *. rewrite Hsave in Hfile |- *.
  cbn [config_file set_config_file] in *.
  split; [eauto|].
  unfold load_config. rewrite Hfile.
  destruct (load_items_saved (table st) items st0 Hsave) as (st' & Hload & Hentries & Hlog & _).
  rewrite Hload. rewrite Hentries, Hempty. split; [reflexivity|exact Hlog].
Qed.

(** * The theorems at concrete inputs *)

(** Two ticks over the two due rows: one alarm. *)
Lemma alarm_once_until_stopped_witness :
  exists st',
    run binary64 day_fuel [Tick; Tick] two_due_rows = Some st' /\
    (alarms st' <= alarms two_due_rows + 1)%nat /\
    (alarms st' <> alarms two_due_rows -> ringing st' = true) /\
    ringing (stop_alarm_sound st') = false.
Proof.
  destruct (run binary64 day_fuel [Tick; Tick] two_due_rows) as [st'|] eqn:E.
  - exists st'. split; [reflexivity|].
    destruct (alarm_once_until_stopped binary64 day_fuel [Tick; Tick] two_due_rows st'
                eq_refl E) as (H1 & _ & H3 & _ & _ & H6).
    split; [exact H1|]. split; [exact H3|exact H6].
  - vm_compute in E. discriminate E.
Defined.

(** The scenarios on day 739000, in binary64. *)
Lemma hourly_scenario_witness :
  Rounding binary64 /\
  computeNextOccurrence 3 (Py.mk_time 10 0 0) (Py.mk_timedelta 60 0)
    (Py.combine 739000 (Py.mk_time 13 5 0)) = Some (Py.combine 739000 (Py.mk_time 14 0 0)) /\
  snd (computeDisplayState binary64 (Py.combine 739000 (Py.mk_time 11 0 0))
         (Py.mk_timedelta 60 0) (Py.combine 739000 (Py.mk_time 10 0 0))) = Some 0.
Proof.
  split; [exact binary64_rounding|].
  destruct (hourly_scenario binary64 739000 3 true binary64_rounding (Nat.le_refl 3))
    as ((_ & _ & H1 & _) & (H2 & _)).
  split; [exact H2|exact H1].
Defined.

(** Row B of the two-row table, 179 s before its next occurrence. *)
Lemma prewarning_exactly_in_window_witness :
  table two_due_rows !! 1%nat = Some (one_row "B" "60" "0" "10:00:00" true) /\
  check_alert_conditions binary64 Some 1 (at_time 11 0 0 0) (at_time 10 57 1 0) two_due_rows
  = alert_action Some 1 "B" (at_time 11 0 0 0)
      (classifyAlert (total_seconds binary64 (at_time 11 0 0 0 - at_time 10 57 1 0)) true false)
      two_due_rows.
Proof.
  split; [reflexivity|].
  exact (proj1 (prewarning_exactly_in_window binary64 Some 1 (at_time 11 0 0 0)
                  (at_time 10 57 1 0) two_due_rows (one_row "B" "60" "0" "10:00:00" true)
                  eq_refl)).
Defined.

(** The two-row table saved and loaded into an empty window. *)
Lemma save_load_round_trip_witness :
  List.map entry_of_row
    (table (load_config
              (set_config_file (config_file (save_config two_due_rows))
                 (window [] true [at_time 9 0 0 0]))))
  = List.map entry_of_row (table two_due_rows).
Proof.
  refine (proj1 (proj2 (save_load_round_trip two_due_rows
                          (set_config_file (config_file (save_config two_due_rows))
                             (window [] true [at_time 9 0 0 0])) _ eq_refl eq_refl))).
  repeat constructor; vm_compute; eauto.
Defined.

(** * Evaluations *)

Example int_examples :
  Py.int "60" = Some 60 /\ Py.int " 007 " = Some 7 /\ Py.int "+5" = Some 5 /\
  Py.int "-3" = Some (-3) /\ Py.int "" = None /\ Py.int "6x" = None /\
  Py.int "+-5" = None /\ Py.str 1440 = "1440"%string.
Proof. repeat split; reflexivity. Qed.

Example strptime_examples :
  Py.strptime_HMS "10:00:00" = Some (Py.mk_time 10 0 0) /\
  Py.strptime_HMS "9:5:3" = Some (Py.mk_time 9 5 3) /\
  Py.strptime_HMS "24:00:00" = None /\ Py.strptime_HMS "10:00" = None /\
  Py.strptime_HMS "10:00:60" = None /\ Py.strptime_HMS "10:00:00 " = None.
Proof. repeat split; reflexivity. Qed.

Example strftime_examples :
  Py.strftime_HMS (at_time 11 0 0 999999) = "11:00:00"%string /\
  Py.str_timedelta 3600 = "1:00:00"%string /\
  Py.str_timedelta 90061 = "1 day, 1:01:01"%string.
Proof. repeat split; reflexivity. Qed.

(** The first scenario of the spec as a pass over a one-row table. *)
Example tick_at_reset :
  option_map table
    (refresh_all_timers binary64 day_fuel
       (window [one_row "boss" "60" "0" "10:00:00" true] true [at_time 10 0 0 0]))
  = Some [mk_row "boss" "60" "0" "10:00:00" "11:00:00" "1:00:00" true 0 "0%"].
Proof. vm_compute. reflexivity. Qed.

(** The second scenario, half a second later than 13:05:00. *)
Example tick_after_three_hours :
  option_map table
    (refresh_all_timers binary64 day_fuel
       (window [one_row "boss" "60" "0" "10:00:00" true] true [at_time 13 5 0 500000]))
  = Some [mk_row "boss" "60" "0" "10:00:00" "14:00:00" "0:54:59" true 8 "8%"].
Proof. vm_compute. reflexivity. Qed.

(** Three ticks a second apart around the three-minute mark: three
    banners, each with the warning sound, and no alarm. *)
Example three_prewarnings :
  option_map log
    (run binary64 day_fuel [Tick; Tick; Tick]
       (window [one_row "boss" "60" "0" "10:00:00" true] true
          [at_time 10 57 0 0; at_time 10 57 1 0; at_time 10 57 2 0]))
  = Some [Banner "boss"; PlaySound WarningWav; Banner "boss"; PlaySound WarningWav;
          Banner "boss"; PlaySound WarningWav].
Proof. vm_compute. reflexivity. Qed.

(** In auto mode the alarm resets the row: its last time becomes the time
    of the alarm and the pass started by [update_boss_time] shows the next
    occurrence an hour later. *)
Example alarm_in_auto_mode :
  option_map (fun st => (table st, ringing st, log st))
    (refresh_all_timers binary64 day_fuel
       (window [one_row "boss" "60" "0" "10:00:00" true] true [at_time 11 0 0 0]))
  = Some ([mk_row "boss" "60" "0" "11:00:00" "12:00:00" "1:00:00" true 0 "0%"], true,
          [PlaySound AlarmWav; MessageBox "boss" "11:00:00"]).
Proof. vm_compute. reflexivity. Qed.

(** A tick half a second after the due time sees the next period already:
    no alarm. *)
Example no_alarm_off_the_microsecond :
  option_map (fun st => (ringing st, log st))
    (refresh_all_timers binary64 day_fuel
       (window [one_row "boss" "60" "0" "10:00:00" true] true [at_time 11 0 0 500000]))
  = Some (false, []).
Proof. vm_compute. reflexivity. Qed.

(** Line 708 in binary64 and in exact arithmetic: 33 s left of a minute
    show as 44 percent, as in Python, where the exact value is 45. *)
Example progress_binary64_vs_exact :
  progress_percent binary64 (total_seconds binary64 33000000)
    (total_seconds binary64 60000000) = 44 /\
  progress_percent no_rounding (total_seconds no_rounding 33000000)
    (total_seconds no_rounding 60000000) = 45 /\
  progress_percent binary64 (total_seconds binary64 48000000)
    (total_seconds binary64 60000000) = 19 /\
  progress_percent binary64 (total_seconds binary64 52000000)
    (total_seconds binary64 65000000) = 19 /\
  progress_percent binary64 (total_seconds binary64 30000000)
    (total_seconds binary64 60000000) = 50.
Proof. repeat split; vm_compute; reflexivity. Qed.

(** * Further properties of the program *)

Lemma digit_cases d : 0 <= d <= 9 ->
  d = 0 \/ d = 1 \/ d = 2 \/ d = 3 \/ d = 4 \/ d = 5 \/ d = 6 \/ d = 7 \/ d = 8 \/ d = 9.
Proof. lia. Qed.

Lemma digit_char_not_colon d : 0 <= d <= 9 -> Ascii.eqb (Py.digit_char d) ":" = false.
Proof. intros H. destruct (digit_cases d H) as [->|[->|[->|[->|[->|[->|[->|[->|[->| ->]]]]]]]]]; reflexivity. Qed.

(** The two digits of an hour match the pattern of the hour, by
    evaluation of the 24 cases. *)
Lemma hour_val_two_digits n :
  0 <= n <= 23 -> Py.hour_val (Py.code_points (Py.two_digits n)) = Some n.
Proof.
  intros H.
  assert (Hall : forallb (fun k => match Py.hour_val (Py.code_points (Py.two_digits (Z.of_nat k)))
                                   with
                                   | Some v => v =? Z.of_nat k
                                   | None => false
                                   end) (seq 0 24) = true) by (vm_compute; reflexivity).
  rewrite List.forallb_forall in Hall. specialize (Hall (Z.to_nat n)).
  rewrite Z2Nat.id in Hall by lia.
  destruct (Py.hour_val _) as [v|].
  - f_equal. apply Z.eqb_eq, Hall. apply List.in_seq. lia.
  - discriminate Hall. apply List.in_seq. lia.
Qed.

(** Likewise for the 60 minutes or seconds. *)
Lemma field_val_two_digits n :
  0 <= n <= 59 -> Py.field_val 5 (Py.code_points (Py.two_digits n)) = Some n.
Proof.
  intros H.
  assert (Hall : forallb (fun k => match Py.field_val 5
                                           (Py.code_points (Py.two_digits (Z.of_nat k))) with
                                   | Some v => v =? Z.of_nat k
                                   | None => false
                                   end) (seq 0 60) = true) by (vm_compute; reflexivity).
  rewrite List.forallb_forall in Hall. specialize (Hall (Z.to_nat n)).
  rewrite Z2Nat.id in Hall by lia.
  destruct (Py.field_val 5 _) as [v|].
  - f_equal. apply Z.eqb_eq, Hall. apply List.in_seq. lia.
  - discriminate Hall. apply List.in_seq. lia.
Qed.

Lemma append_cons c s r : String.append (String c s) r = String c (String.append s r).
Proof. reflexivity. Qed.

Lemma append_nil r : String.append EmptyString r = r.
Proof. reflexivity. Qed.

Lemma split_colon_format a b c :
  0 <= a <= 99 -> 0 <= b <= 99 -> 0 <= c <= 99 ->
  Py.split_colon (Py.two_digits a ++ ":" ++ Py.two_digits b ++ ":" ++ Py.two_digits c)
  = [Py.two_digits a; Py.two_digits b; Py.two_digits c].
Proof.
  intros Ha Hb Hc. unfold Py.two_digits. rewrite ?append_cons, ?append_nil.
  cbn [Py.split_colon].
  rewrite !digit_char_not_colon by (Z.div_mod_to_equations; lia).
  change (Ascii.eqb ":" ":") with true. reflexivity.
Qed.

Lemma strptime_format t : valid_time t -> Py.strptime_HMS (Py.format_HMS t) = Some t.
Proof.
  intros (Hh & Hm & Hs). unfold Py.strptime_HMS, Py.format_HMS.
  rewrite split_colon_format by lia.
  rewrite hour_val_two_digits, !field_val_two_digits by lia.
  destruct t; reflexivity.
Qed.

Lemma time_of_valid dt : valid_time (Py.time_of dt).
Proof.
  unfold valid_time, Py.time_of. cbn [Py.hour Py.minute Py.second].
  rewrite us_per_day_val. unfold Py.us_per_second.
  Z.div_mod_to_equations. lia.
Qed.

Lemma strptime_strftime dt : Py.strptime_HMS (Py.strftime_HMS dt) = Some (Py.time_of dt).
Proof. apply strptime_format, time_of_valid. Qed.

(** * What a pass preserves *)

Section Preserved.
Context (fl : Q -> Q) (P : BossTimer -> Prop).
Hypothesis P_now : forall st, P st -> P (snd (now st)).
Hypothesis P_emit : forall e st, P st -> P (emit e st).
Hypothesis P_ringing : forall st, P st -> P (set_ringing true st).
Hypothesis P_display : forall i nt p t st, P st -> P (update_row i (displayed fl nt p t) st).
Hypothesis P_reset : forall i t st,
  P st -> auto_time st = true -> P (update_row i (set_last_time (Py.strftime_HMS t)) st).

Lemma trigger_alarm_preserves refresh i nt :
  preserves P refresh -> preserves P (trigger_alarm refresh i nt).
Proof.
  intros Hrefresh st st'. unfold trigger_alarm. cbn [set_ringing table].
  fold (set_ringing true st).
  destruct (table st !! i) as [r|].
  - set (st1 := emit _ (play_sound AlarmWav (set_ringing true st))).
    intros H HP.
    assert (HP1 : P st1) by (apply P_emit, P_emit, P_ringing, HP).
    destruct (auto_time st1) eqn:Ha.
    + unfold update_boss_time in H.
      apply (Hrefresh _ _ H). apply P_reset; [exact (P_now st1 HP1)|exact Ha].
    + injection H as <-. exact HP1.
  - intros [= <-] HP. apply P_ringing, HP.
Qed.

Lemma check_alert_conditions_preserves refresh i nt t :
  preserves P refresh -> preserves P (check_alert_conditions fl refresh i nt t).
Proof.
  intros Hrefresh st st'. destruct (table st !! i) as [r|] eqn:Hi.
  - rewrite (check_alert_conditions_classify fl refresh i nt t st r Hi).
    destruct (classifyAlert _ _ _); cbn [alert_action].
    + intros [= <-] HP. exact HP.
    + intros [= <-] HP. apply P_emit, P_emit, HP.
    + apply (trigger_alarm_preserves refresh i nt Hrefresh).
  - unfold check_alert_conditions. rewrite Hi. intros [= <-] HP. exact HP.
Qed.

Lemma refresh_row_preserves fuel refresh t i :
  preserves P refresh -> preserves P (refresh_row fl fuel refresh t i).
Proof.
  intros Hrefresh st st'. unfold refresh_row.
  destruct (table st !! i) as [r|]; [|intros [= <-] HP; exact HP].
  destruct (parse_row r) as [[[m s] last]|]; [|intros [= <-] HP; apply P_emit, HP].
  destruct (computeNextOccurrence _ _ _ _) as [nt|]; [|discriminate].
  intros H HP. apply (check_alert_conditions_preserves refresh i nt t Hrefresh _ _ H).
  rewrite update_row_display_eq. apply P_display, HP.
Qed.

Lemma for_rows_preserves body rows :
  (forall i, preserves P (body i)) -> preserves P (for_rows body rows).
Proof.
  intros Hbody. induction rows as [|i rows IH]; intros st st'; cbn [for_rows].
  - intros [= <-] HP. exact HP.
  - destruct (body i st) as [st1|] eqn:E; [|discriminate].
    intros H HP. apply (IH _ _ H). apply (Hbody i _ _ E HP).
Qed.

Lemma refresh_all_timers_preserves fuel : preserves P (refresh_all_timers fl fuel).
Proof.
  induction fuel as [|fuel IH]; intros st st'; cbn [refresh_all_timers]; [discriminate|].
  intros H HP. apply (for_rows_preserves _ _ (fun i => refresh_row_preserves _ _ _ i IH) _ _ H).
  exact (P_now st HP).
Qed.

End Preserved.

Lemma settings_update_row i f st :
  (forall r, settings (f r) = settings r) ->
  List.map settings (table (update_row i f st)) = List.map settings (table st).
Proof.
  intros Hf. unfold update_row. destruct (table st !! i) as [r|] eqn:E; [|reflexivity].
  cbn [table set_table]. change (settings <$> <[i:=f r]> (table st) = settings <$> table st).
  rewrite list_fmap_insert, Hf. apply list_insert_id.
  rewrite list_lookup_fmap, E. reflexivity.
Qed.

Lemma last_times_update_row i f st :
  (forall r, last_time (f r) = last_time r) ->
  List.map last_time (table (update_row i f st)) = List.map last_time (table st).
Proof.
  intros Hf. unfold update_row. destruct (table st !! i) as [r|] eqn:E; [|reflexivity].
  cbn [table set_table]. change (last_time <$> <[i:=f r]> (table st) = last_time <$> table st).
  rewrite list_fmap_insert, Hf. apply list_insert_id.
  rewrite list_lookup_fmap, E. reflexivity.
Qed.

Lemma settings_displayed fl nt p t r : settings (displayed fl nt p t r) = settings r.
Proof. unfold displayed. destruct (snd _); reflexivity. Qed.

Lemma last_time_displayed fl nt p t r : last_time (displayed fl nt p t r) = last_time r.
Proof. unfold displayed. destruct (snd _); reflexivity. Qed.

Lemma Forall_update_row (Q : row -> Prop) i f st :
  (forall r, Q r -> Q (f r)) -> Forall Q (table st) -> Forall Q (table (update_row i f st)).
Proof.
  intros Hf HQ. unfold update_row. destruct (table st !! i) as [r|] eqn:E; [|exact HQ].
  cbn [table set_table]. apply Forall_insert; [exact HQ|].
  apply Hf. apply (proj1 (Forall_lookup _ _) HQ i r E).
Qed.

(** X3: a pass, the passes nested in it included, changes no name, no
    period text and no check box, adds and removes no row, and leaves the
    mode, the clock and the configuration file as they were. *)
Theorem pass_keeps_settings (fl : Q -> Q) (fuel : nat) (st st' : BossTimer) :
  refresh_all_timers fl fuel st = Some st' ->
  List.map settings (table st') = List.map settings (table st) /\
  auto_time st' = auto_time st /\ config_file st' = config_file st /\ clock st' = clock st.
Proof.
  intros H.
  apply (refresh_all_timers_preserves fl
           (fun s => List.map settings (table s) = List.map settings (table st) /\
                     auto_time s = auto_time st /\ config_file s = config_file st /\
                     clock s = clock st)) with (fuel := fuel) (st := st); try exact H.
  - intros s Hs. exact Hs.
  - intros e s Hs. exact Hs.
  - intros s Hs. exact Hs.
  - intros i nt p t s (H1 & H2 & H3 & H4).
    destruct (update_row_other i (displayed fl nt p t) s) as (_ & E2 & _ & E4 & _ & E6).
    rewrite E2, E4, E6, (settings_update_row _ _ _ (settings_displayed fl nt p t)). auto.
  - intros i t s (H1 & H2 & H3 & H4) _.
    destruct (update_row_other i (set_last_time (Py.strftime_HMS t)) s)
      as (_ & E2 & _ & E4 & _ & E6).
    rewrite E2, E4, E6, (settings_update_row i (set_last_time (Py.strftime_HMS t)) s (fun r => eq_refl)). auto.
  - auto.
Qed.

(** X4: in manual mode a pass changes no last time, whatever alarms it
    starts. *)
Theorem manual_mode_keeps_last_times (fl : Q -> Q) (fuel : nat) (st st' : BossTimer) :
  auto_time st = false ->
  refresh_all_timers fl fuel st = Some st' ->
  List.map last_time (table st') = List.map last_time (table st).
Proof.
  intros Hm H.
  apply (refresh_all_timers_preserves fl
           (fun s => auto_time s = false /\
                     List.map last_time (table s) = List.map last_time (table st)))
    with (fuel := fuel) (st := st); try exact H.
  - intros s Hs. exact Hs.
  - intros e s Hs. exact Hs.
  - intros s Hs. exact Hs.
  - intros i nt p t s (H1 & H2).
    destruct (update_row_other i (displayed fl nt p t) s) as (_ & E2 & _).
    rewrite E2, (last_times_update_row _ _ _ (last_time_displayed fl nt p t)). auto.
  - intros i t s (H1 & _) Ha. congruence.
  - auto.
Qed.

Lemma is_valid_time_strftime t : is_valid_time (Py.strftime_HMS t) = true.
Proof. unfold is_valid_time. rewrite strptime_strftime. reflexivity. Qed.

Lemma refresh_all_timers_last_times_valid fl fuel :
  preserves last_times_valid (refresh_all_timers fl fuel).
Proof.
  apply refresh_all_timers_preserves.
  - intros s Hs. exact Hs.
  - intros e s Hs. exact Hs.
  - intros s Hs. exact Hs.
  - intros i nt p t s Hs. apply Forall_update_row; [|exact Hs].
    intros r Hr. rewrite last_time_displayed. exact Hr.
  - intros i t s Hs _. apply Forall_update_row; [|exact Hs].
    intros r _. apply is_valid_time_strftime.
Qed.

(** X2: the last times stay readable.  If [is_valid_time] accepts the last
    time of every row, it still does after any sequence of ticks and user
    actions: [handle_cell_edit] stores only accepted texts, [add_boss_row]
    and [update_boss_time] write the output of [strftime], and nothing else
    writes column 4. *)
Theorem last_times_stay_valid (fl : Q -> Q) (fuel : nat) (inps : list input)
    (st st' : BossTimer) :
  last_times_valid st -> run fl fuel inps st = Some st' -> last_times_valid st'.
Proof.
  revert st. induction inps as [|inp inps IH]; intros st Hst; cbn [run].
  - intros [= <-]. exact Hst.
  - destruct (step fl fuel inp st) as [st1|] eqn:E; [|discriminate].
    apply IH. destruct inp; cbn [step] in E.
    + apply (refresh_all_timers_last_times_valid fl fuel _ _ E Hst).
    + injection E as <-. exact Hst.
    + apply (refresh_all_timers_last_times_valid fl fuel _ _ E Hst).
    + injection E as <-. unfold last_times_valid, add_boss_row. cbn [now table set_table].
      apply Forall_app. split; [exact Hst|].
      constructor; [|constructor]. apply is_valid_time_strftime.
    + injection E as <-. unfold last_times_valid, delete_selected_row. cbn [table set_table].
      apply Forall_delete, Hst.
    + unfold handle_cell_edit in E. destruct (negb (auto_time st)).
      * destruct (Py.strptime_HMS s) as [t|] eqn:Es.
        -- apply (refresh_all_timers_last_times_valid fl fuel _ _ E).
           apply Forall_update_row; [|exact Hst].
           intros r _. unfold is_valid_time. cbn [last_time set_last_time]. rewrite Es.
           reflexivity.
        -- injection E as <-. exact Hst.
      * injection E as <-. exact Hst.
    + injection E as <-. apply Forall_update_row; [|exact Hst]. intros r Hr. exact Hr.
    + injection E as <-. apply Forall_update_row; [|exact Hst]. intros r Hr. exact Hr.
    + injection E as <-. apply Forall_update_row; [|exact Hst]. intros r Hr. exact Hr.
    + injection E as <-. exact Hst.
Qed.

Lemma time_us_time_of t :
  Py.time_us (Py.time_of t) = (t mod Py.us_per_day) / Py.us_per_second * Py.us_per_second.
Proof.
  unfold Py.time_us, Py.time_of. cbn [Py.hour Py.minute Py.second].
  f_equal. set (s := t mod Py.us_per_day / Py.us_per_second).
  Z.div_mod_to_equations. lia.
Qed.

(** The anchor of a last time that was written this very second. *)
Lemma last_occurrence_time_of t :
  last_occurrence t (Py.time_of t) = t - t mod Py.us_per_second.
Proof.
  unfold last_occurrence, Py.combine, Py.date. rewrite time_us_time_of.
  rewrite us_per_day_val. unfold Py.us_per_second.
  destruct (Z.ltb_spec t (t / 86400000000 * 86400000000
                         + t mod 86400000000 / 1000000 * 1000000));
    Z.div_mod_to_equations; lia.
Qed.

(** X1: the row that [add_boss_row] appends has the default name, the
    period texts 60 and 0 and a checked box; the pass reads it as 60
    minutes, 0 seconds and the time of day of the clock reading ([strptime]
    undoes [strftime]), and evaluated at that same reading its next
    occurrence is one hour after the start of the current second. *)
Theorem new_row_is_due_after_an_hour (fuel : nat) (st : BossTimer) :
  exists r,
    table (add_boss_row st) = table st ++ [r] /\
    settings r = (default_name, "60"%string, "0"%string, true) /\
    parse_row r = Some (60, 0, Py.time_of (fst (now st))) /\
    computeNextOccurrence fuel (Py.time_of (fst (now st))) (Py.mk_timedelta 60 0)
      (fst (now st))
    = Some (fst (now st) - fst (now st) mod Py.us_per_second + 3600 * Py.us_per_second).
Proof.
  eexists. split; [reflexivity|]. split; [reflexivity|]. split.
  - unfold parse_row. cbn [period_min period_sec last_time now fst].
    rewrite strptime_strftime. reflexivity.
  - unfold computeNextOccurrence. rewrite last_occurrence_time_of.
    set (t := fst (now st)).
    assert (Hlt : (t - t mod Py.us_per_second + Py.mk_timedelta 60 0 <? t) = false).
    { apply Z.ltb_ge. unfold Py.mk_timedelta, Py.us_per_second.
      Z.div_mod_to_equations. lia. }
    destruct fuel; cbn [advance]; rewrite Hlt; reflexivity.
Qed.

Lemma period_ok_displayed fl nt p t r : period_ok (displayed fl nt p t r) = period_ok r.
Proof. unfold displayed. destruct (snd _); reflexivity. Qed.

Lemma periods_positive_update_row i f st :
  (forall r, period_ok (f r) = period_ok r) ->
  periods_positive st -> periods_positive (update_row i f st).
Proof.
  intros Hf. apply Forall_update_row. intros r Hr. rewrite Hf. exact Hr.
Qed.

Lemma parse_row_period_ok r m s last :
  period_ok r = true -> parse_row r = Some (m, s, last) -> 0 < m * 60 + s.
Proof.
  unfold period_ok, parse_row.
  destruct (Py.int (period_min r)) as [m'|]; [|discriminate].
  destruct (Py.int (period_sec r)) as [s'|]; [|discriminate].
  destruct (Py.strptime_HMS _); [|discriminate].
  intros H [= <- <- _]. apply Z.ltb_lt, H.
Qed.

Section Total.
Context (fl : Q -> Q).

Lemma for_rows_returns P Q body rows :
  (forall i, returns P Q (body i)) -> returns P Q (for_rows body rows).
Proof.
  intros Hbody. induction rows as [|i rows IH]; intros st HP HQ; cbn [for_rows].
  - exists st. auto.
  - destruct (Hbody i st HP HQ) as (st1 & -> & HP1 & HQ1). apply IH; assumption.
Qed.

(** While the alarm rings no alarm is started. *)
Lemma check_alert_conditions_ringing refresh i nt t :
  returns periods_positive is_ringing (check_alert_conditions fl refresh i nt t).
Proof.
  intros st HP HQ. destruct (table st !! i) as [r|] eqn:Hi.
  - rewrite (check_alert_conditions_classify fl refresh i nt t st r Hi).
    destruct (classifyAlert _ _ _) eqn:Hc; cbn [alert_action].
    + exists st. auto.
    + eexists. split; [reflexivity|]. split; [exact HP|exact HQ].
    + apply classifyAlert_Due in Hc as (_ & _ & Hclear). unfold is_ringing in HQ. congruence.
  - unfold check_alert_conditions. rewrite Hi. exists st. auto.
Qed.

Lemma refresh_row_returns Q fuel refresh t i :
  (day_fuel <= fuel)%nat ->
  (forall i f st, Q st -> Q (update_row i f st)) ->
  (forall e st, Q st -> Q (emit e st)) ->
  (forall nt, returns periods_positive Q (check_alert_conditions fl refresh i nt t)) ->
  returns periods_positive Q (refresh_row fl fuel refresh t i).
Proof.
  intros Hf Q_row Q_emit Hcheck st HP HQ. unfold refresh_row.
  destruct (table st !! i) as [r|] eqn:Hi; [|exists st; auto].
  destruct (parse_row r) as [[[m s] last]|] eqn:Hr.
  - assert (Hpos : 0 < m * 60 + s).
    { apply (parse_row_period_ok r m s last); [|exact Hr].
      apply (proj1 (Forall_lookup _ _) HP i r Hi). }
    destruct (computeNextOccurrence_in_range fuel last m s t (parse_row_valid _ _ _ _ Hr)
                Hpos Hf) as (nt & -> & _).
    apply Hcheck.
    + rewrite update_row_display_eq.
      apply periods_positive_update_row; [apply period_ok_displayed|exact HP].
    + rewrite update_row_display_eq. apply Q_row, HQ.
  - eexists. split; [reflexivity|]. split; [exact HP|apply Q_emit, HQ].
Qed.

Lemma is_ringing_update_row i f st : is_ringing st -> is_ringing (update_row i f st).
Proof.
  unfold is_ringing. destruct (update_row_other i f st) as (-> & _). auto.
Qed.

(** A pass that starts while the alarm rings. *)
Lemma refresh_all_timers_ringing fuel :
  (day_fuel <= fuel)%nat -> (0 < fuel)%nat ->
  returns periods_positive is_ringing (refresh_all_timers fl fuel).
Proof.
  intros Hf Hpos. destruct fuel as [|fuel]; [lia|].
  intros st HP HQ. cbn [refresh_all_timers]. unfold now.
  apply for_rows_returns; [|exact HP|exact HQ].
  intros i. apply refresh_row_returns.
  - exact Hf.
  - apply is_ringing_update_row.
  - intros e s Hs. exact Hs.
  - intros nt. apply check_alert_conditions_ringing.
Qed.

Lemma trigger_alarm_returns refresh i nt :
  returns periods_positive is_ringing refresh ->
  returns periods_positive any_window (trigger_alarm refresh i nt).
Proof.
  intros Hrefresh st HP _. unfold trigger_alarm. cbn [set_ringing table].
  fold (set_ringing true st).
  destruct (table st !! i) as [r|].
  - set (st1 := emit _ (play_sound AlarmWav (set_ringing true st))).
    destruct (auto_time st1).
    + unfold update_boss_time, now.
      destruct (Hrefresh (update_row i (set_last_time (Py.strftime_HMS (clock st1 (reads st1))))
                            (mk_BossTimer (table st1) (ringing st1) (auto_time st1) (clock st1)
                               (S (reads st1)) (log st1) (config_file st1))))
        as (st' & -> & HP' & _).
      * apply periods_positive_update_row; [reflexivity|exact HP].
      * apply is_ringing_update_row. reflexivity.
      * exists st'. split; [reflexivity|]. split; [exact HP'|exact I].
    + exists st1. split; [reflexivity|]. split; [exact HP|exact I].
  - eexists. split; [reflexivity|]. split; [exact HP|exact I].
Qed.

Lemma check_alert_conditions_returns refresh i nt t :
  returns periods_positive is_ringing refresh ->
  returns periods_positive any_window (check_alert_conditions fl refresh i nt t).
Proof.
  intros Hrefresh st HP _. destruct (table st !! i) as [r|] eqn:Hi.
  - rewrite (check_alert_conditions_classify fl refresh i nt t st r Hi).
    destruct (classifyAlert _ _ _); cbn [alert_action].
    + exists st. split; [reflexivity|]. split; [exact HP|exact I].
    + eexists. split; [reflexivity|]. split; [exact HP|exact I].
    + apply (trigger_alarm_returns refresh i nt Hrefresh st HP I).
  - unfold check_alert_conditions. rewrite Hi. exists st. split; [reflexivity|].
    split; [exact HP|exact I].
Qed.

Lemma refresh_all_timers_returns fuel :
  (day_fuel < fuel)%nat -> returns periods_positive any_window (refresh_all_timers fl fuel).
Proof.
  intros Hf. destruct fuel as [|fuel]; [lia|].
  intros st HP _. cbn [refresh_all_timers]. unfold now.
  apply for_rows_returns; [|exact HP|exact I].
  intros i. apply refresh_row_returns.
  - lia.
  - intros; exact I.
  - intros; exact I.
  - intros nt. apply check_alert_conditions_returns.
    apply refresh_all_timers_ringing; [lia|].
    unfold day_fuel in Hf. lia.
Qed.

End Total.

(** X5: the pass returns.  When every row whose two period texts are
    integers has a positive period, a pass with fuel for a day of one-second
    periods and for one nested pass returns a window, and that window has
    the same property. *)
Theorem pass_terminates (fl : Q -> Q) (fuel : nat) (st : BossTimer) :
  periods_positive st -> (day_fuel < fuel)%nat ->
  exists st', refresh_all_timers fl fuel st = Some st' /\ periods_positive st'.
Proof.
  intros HP Hf. destruct (refresh_all_timers_returns fl fuel Hf st HP I) as (st' & H & HP' & _).
  exists st'. split; assumption.
Qed.

(** * Rows that do not parse, and periods of zero *)

Lemma for_rows_malformed fl fuel refresh t rows : forall st,
  Forall (fun r => parse_row r = None) (table st) ->
  Forall (fun i => (i < List.length (table st))%nat) rows ->
  exists st',
    for_rows (refresh_row fl fuel refresh t) rows st = Some st' /\
    table st' = table st /\ log st' = log st ++ List.map LogRowError rows /\
    ringing st' = ringing st /\ reads st' = reads st.
Proof.
  induction rows as [|i rows IH]; intros st Hbad Hin; cbn [for_rows List.map].
  - exists st. rewrite app_nil_r. auto.
  - apply Forall_cons in Hin as [Hi Hin].
    destruct (lookup_lt_is_Some_2 _ _ Hi) as [r Hr].
    unfold refresh_row at 1. rewrite Hr.
    rewrite (proj1 (Forall_lookup _ _) Hbad i r Hr).
    destruct (IH (emit (LogRowError i) st) Hbad Hin) as (st' & -> & E1 & E2 & E3 & E4).
    exists st'. split; [reflexivity|]. rewrite E1, E2, E3, E4. cbn [emit table log ringing reads].
    rewrite <- app_assoc. auto.
Qed.

(** X6: rows that cannot be read are logged on every pass.  Over a table
    whose rows all fail in [int()] or [strptime], a pass reads the clock
    once, leaves the table and the alarm flag alone and logs one error per
    row, in row order. *)
Theorem malformed_rows_are_logged_each_pass (fl : Q -> Q) (fuel : nat) (st : BossTimer) :
  Forall (fun r => parse_row r = None) (table st) ->
  exists st',
    refresh_all_timers fl (S fuel) st = Some st' /\
    table st' = table st /\
    log st' = log st ++ List.map LogRowError (seq 0 (List.length (table st))) /\
    ringing st' = ringing st /\ reads st' = S (reads st).
Proof.
  intros Hbad. cbn [refresh_all_timers]. unfold now.
  apply (for_rows_malformed fl (S fuel) (refresh_all_timers fl fuel) (clock st (reads st))
           (seq 0 (List.length (table st)))
           (mk_BossTimer (table st) (ringing st) (auto_time st) (clock st) (S (reads st))
              (log st) (config_file st))).
  - exact Hbad.
  - apply Forall_forall. intros i Hi%elem_of_seq. cbn [table]. lia.
Qed.

(** X7: a first row whose minutes and seconds add up to a period of zero
    (0 and 0, or 1 and -60) and whose anchor lies before now keeps the pass
    from returning, for every amount of fuel, whether the row is enabled or
    not and whatever rows follow. *)
Theorem zero_period_first_row_hangs (fl : Q -> Q) (fuel : nat) (st : BossTimer)
    (r : row) (rest : list row) (m s : Z) (last : Py.time) :
  table st = r :: rest ->
  parse_row r = Some (m, s, last) -> m * 60 + s = 0 ->
  last_occurrence (clock st (reads st)) last < clock st (reads st) ->
  refresh_all_timers fl fuel st = None.
Proof.
  intros Ht Hr Hz Hlt. destruct fuel as [|fuel]; [reflexivity|].
  cbn [refresh_all_timers]. unfold now. cbn [table]. rewrite Ht.
  cbn [List.length seq for_rows]. unfold refresh_row. cbn [table].
  cbn [lookup list_lookup]. rewrite Hr.
  assert (E : Py.mk_timedelta m s = Py.mk_timedelta 0 0)
    by (unfold Py.mk_timedelta; rewrite Hz; reflexivity).
  rewrite E, (zero_period_loops _ _ _ Hlt). reflexivity.
Qed.

(** * Saving and loading *)

Lemma mapM_config_item_None rows :
  Exists (fun r => Py.int (period_min r) = None \/ Py.int (period_sec r) = None) rows ->
  mapM config_item rows = None.
Proof.
  induction 1 as [r rows Hr|r rows _ IH]; cbn [mapM].
  - assert (E : config_item r = None).
    { unfold config_item. destruct Hr as [-> | ->]; [reflexivity|].
      destruct (Py.int (period_min r)); reflexivity. }
    rewrite E. reflexivity.
  - destruct (config_item r); [|reflexivity]. cbn. rewrite IH. reflexivity.
Qed.

(** X14: when [int()] refuses a period text of some row, [save_config] only
    logs the error: the file keeps its former content, the table is
    untouched and the log gets the one entry of the error. *)
Theorem save_config_failure_keeps_file (st : BossTimer) :
  Exists (fun r => Py.int (period_min r) = None \/ Py.int (period_sec r) = None) (table st) ->
  save_config st = emit LogSaveError st /\
  config_file (save_config st) = config_file st /\
  table (save_config st) = table st /\
  log (save_config st) = log st ++ [LogSaveError] /\
  ringing (save_config st) = ringing st /\ reads (save_config st) = reads st.
Proof.
  intros Hbad. unfold save_config. rewrite (mapM_config_item_None _ Hbad).
  repeat split.
Qed.

Lemma load_item_row item r st :
  row_of_item item = Some r ->
  load_item item st = (set_table (table st ++ [r]) (snd (now st)), true).
Proof.
  unfold row_of_item, load_item.
  destruct (as_text (default (JStr default_name) (item !! "name"))) as [name|]; [|discriminate].
  destruct (as_text (default (JStr "00:00:00") (item !! "last_time"))) as [last|];
    [|discriminate].
  destruct (as_bool (default (JBool true) (item !! "enabled"))) as [b|]; [|discriminate].
  intros [= <-]. unfold add_boss_row, now. cbn [table set_table].
  rewrite List.length_app. cbn [List.length]. rewrite Nat.add_sub.
  rewrite !update_row_last_set. reflexivity.
Qed.

Lemma load_items_rows config : forall rows st,
  mapM row_of_item config = Some rows ->
  exists st',
    load_items config st = (st', true) /\ table st' = table st ++ rows /\
    log st' = log st /\ reads st' = (reads st + List.length config)%nat /\
    config_file st' = config_file st.
Proof.
  induction config as [|item config IH]; intros rows st; cbn [mapM load_items].
  - intros [= <-]. exists st. rewrite app_nil_r, Nat.add_0_r. auto.
  - destruct (row_of_item item) as [r|] eqn:Hr; [|discriminate]. cbn.
    destruct (mapM row_of_item config) as [rows'|] eqn:Hrows; [|discriminate].
    cbn. intros [= <-]. rewrite (load_item_row item r st Hr).
    destruct (IH rows' (set_table (table st ++ [r]) (snd (now st))) eq_refl)
      as (st' & -> & E1 & E2 & E3 & E4).
    exists st'. split; [reflexivity|]. rewrite E1, E2, E3, E4.
    cbn [table set_table now snd log reads config_file List.length].
    rewrite <- app_assoc. repeat split. lia.
Qed.

Lemma load_config_table st config rows :
  config_file st = Some config -> mapM row_of_item config = Some rows ->
  table (load_config st) = table st ++ rows /\
  log (load_config st) = log st /\
  reads (load_config st) = (reads st + List.length config)%nat.
Proof.
  intros Hfile Hrows. unfold load_config. rewrite Hfile.
  destruct (load_items_rows config rows st Hrows) as (st' & -> & E1 & E2 & E3 & _).
  repeat split; assumption.
Qed.

(** X15: [load_config] over a file whose values have the types that
    [setText] and [setChecked] accept appends one row per object, in order,
    the [row_of_item] of the object: the index [rowCount() - 1] designates
    the row just added each time.  No error is logged, the clock is read
    once per object, and an object without keys gives the default name, 60,
    0, 00:00:00 and a checked box.  The period values are not checked. *)
Theorem load_config_rows (st : BossTimer) (config : list (gmap string json))
    (rows : list row) :
  config_file st = Some config -> mapM row_of_item config = Some rows ->
  table (load_config st) = table st ++ rows /\
  log (load_config st) = log st /\
  reads (load_config st) = (reads st + List.length config)%nat /\
  row_of_item ∅ = Some (mk_row default_name "60" "0" "00:00:00" "" "" true (-1) "%p%").
Proof.
  intros Hfile Hrows.
  destruct (load_config_table st config rows Hfile Hrows) as (H1 & H2 & H3).
  repeat split; assumption.
Qed.

Lemma load_item_bad item st :
  row_of_item item = None ->
  exists r, load_item item st = (set_table (table st ++ [r]) (snd (now st)), false).
Proof.
  unfold row_of_item, load_item, add_boss_row, now. cbn [table set_table].
  rewrite List.length_app. cbn [List.length]. rewrite Nat.add_sub.
  destruct (as_text (default (JStr default_name) (item !! "name"))) as [name|];
    [|intros _; eexists; reflexivity].
  destruct (as_text (default (JStr "00:00:00") (item !! "last_time"))) as [last|].
  - destruct (as_bool (default (JBool true) (item !! "enabled"))) as [b|]; [discriminate|].
    intros _. rewrite !update_row_last_set. eexists. reflexivity.
  - intros _. rewrite !update_row_last_set. eexists. reflexivity.
Qed.

Lemma load_items_app good : forall rows st config,
  mapM row_of_item good = Some rows ->
  exists st1,
    load_items (good ++ config) st = load_items config st1 /\
    table st1 = table st ++ rows /\ log st1 = log st.
Proof.
  induction good as [|item good IH]; intros rows st config; cbn [mapM].
  - intros [= <-]. exists st. rewrite app_nil_r. auto.
  - destruct (row_of_item item) as [r|] eqn:Hr; [|discriminate]. cbn.
    destruct (mapM row_of_item good) as [rows'|] eqn:Hrows; [|discriminate].
    cbn. intros [= <-]. cbn [List.app load_items]. rewrite (load_item_row item r st Hr).
    destruct (IH rows' (set_table (table st ++ [r]) (snd (now st))) config eq_refl)
      as (st1 & -> & E1 & E2).
    exists st1. split; [reflexivity|]. rewrite E1, E2. cbn [table set_table now snd log].
    rewrite <- app_assoc. auto.
Qed.

(** X16: [load_config] stops at the first object that raises [TypeError]:
    the rows of the objects before it are loaded, the row that
    [add_boss_row] had appended for it stays in the table, the objects
    after it are not read and one error is logged. *)
Theorem load_config_stops_at_bad_object (st : BossTimer)
    (good rest : list (gmap string json)) (bad : gmap string json) (rows : list row) :
  config_file st = Some (good ++ bad :: rest) ->
  mapM row_of_item good = Some rows -> row_of_item bad = None ->
  exists r,
    table (load_config st) = table st ++ rows ++ [r] /\
    log (load_config st) = log st ++ [LogLoadError].
Proof.
  intros Hfile Hgood Hbad. unfold load_config. rewrite Hfile.
  destruct (load_items_app good rows st (bad :: rest) Hgood) as (st1 & -> & E1 & E2).
  cbn [load_items]. destruct (load_item_bad bad st1 Hbad) as (r & ->).
  exists r. cbn [emit table log set_table now snd]. rewrite E1, E2, <- app_assoc. auto.
Qed.

Lemma row_of_item_saved r item :
  config_item r = Some item ->
  exists m s, row_of_item item = Some (reloaded r m s) /\
              config_item (reloaded r m s) = Some item.
Proof.
  intros H. destruct (config_item_some r item H) as (m & s & Hm & Hs & E1 & E2 & E3 & E4 & E5).
  exists m, s. split.
  - unfold row_of_item. rewrite E1, E2, E3, E4, E5. reflexivity.
  - unfold config_item in H |- *. rewrite Hm, Hs in H.
    cbn [reloaded period_min period_sec boss_name last_time enabled].
    rewrite !int_str. exact H.
Qed.

Lemma written_items_reload config :
  Forall (fun item => exists r, config_item r = Some item) config ->
  exists rows, mapM row_of_item config = Some rows /\ mapM config_item rows = Some config.
Proof.
  induction 1 as [|item config [r Hr] _ (rows & IH1 & IH2)].
  - exists []. split; reflexivity.
  - destruct (row_of_item_saved r item Hr) as (m & s & E1 & E2).
    exists (reloaded r m s :: rows). cbn [mapM]. rewrite E1, E2. cbn.
    rewrite IH1, IH2. split; reflexivity.
Qed.

(** X17: loading a file that [save_config] can have written into an empty
    table and saving again writes the same file, and logs nothing. *)
Theorem save_after_load_rewrites_the_file (st : BossTimer) (config : list (gmap string json)) :
  table st = [] -> config_file st = Some config ->
  Forall (fun item => exists r, config_item r = Some item) config ->
  config_file (save_config (load_config st)) = Some config /\
  log (save_config (load_config st)) = log st.
Proof.
  intros Hempty Hfile Hitems.
  destruct (written_items_reload config Hitems) as (rows & Hload & Hsave).
  destruct (load_config_table st config rows Hfile Hload) as (Ht & Hl & _).
  unfold save_config. rewrite Ht, Hempty. cbn [List.app]. rewrite Hsave.
  cbn [config_file set_config_file log]. auto.
Qed.

(** * More on the recurrence loop *)

(** What the loop returns: a value not before [now], reached from the
    start by whole periods, and the first such one. *)
Lemma advance_result fuel : forall next period t x,
  advance fuel next period t = Some x ->
  t <= x /\ (exists j, 0 <= j /\ x = next + j * period) /\ (x = next \/ x - period < t).
Proof.
  induction fuel as [|fuel IH]; intros next period t x; cbn [advance];
    destruct (Z.ltb_spec next t) as [Hlt|Hge]; try discriminate.
  - intros [= <-]. split; [lia|]. split; [exists 0; lia|left; reflexivity].
  - intros H. destruct (IH _ _ _ _ H) as (H1 & (j & Hj & H2) & H3).
    split; [exact H1|]. split; [exists (j + 1); lia|]. right. lia.
  - intros [= <-]. split; [lia|]. split; [exists 0; lia|left; reflexivity].
Qed.

Lemma last_occurrence_form t last :
  exists d, last_occurrence t last = d * Py.us_per_day + Py.time_us last.
Proof.
  unfold last_occurrence, Py.combine, Py.days.
  destruct (_ <? _); [exists (Py.date t - 1)|exists (Py.date t)]; lia.
Qed.

Lemma computeNextOccurrence_whole_second fuel last m s t next :
  computeNextOccurrence fuel last (Py.mk_timedelta m s) t = Some next ->
  t <= next /\ next mod Py.us_per_second = 0.
Proof.
  unfold computeNextOccurrence. intros H.
  destruct (advance_result _ _ _ _ _ H) as (H1 & (j & _ & ->) & _). split; [exact H1|].
  destruct (last_occurrence_form t last) as [d ->].
  unfold Py.time_us, Py.mk_timedelta. rewrite us_per_day_val.
  set (u := Py.us_per_second).
  replace (d * 86400000000 + ((Py.hour last * 60 + Py.minute last) * 60 + Py.second last) * u
           + (m * 60 + s) * u + j * ((m * 60 + s) * u))
    with ((d * 86400 + ((Py.hour last * 60 + Py.minute last) * 60 + Py.second last)
           + (m * 60 + s) + j * (m * 60 + s)) * u) by (unfold u, Py.us_per_second; lia).
  apply Z.mod_mul. unfold u, Py.us_per_second. lia.
Qed.

Section Exact.
Context {fl : Q -> Q} `{!Rounding fl}.

Lemma classifyAlert_Due_exact d e b :
  0 <= d -> (classifyAlert (total_seconds fl d) e b = Due <-> e = true /\ b = false /\ d = 0).
Proof.
  intros Hd. rewrite classifyAlert_total_seconds. unfold Py.us_per_second.
  destruct e; cbn [negb]; [|split; [discriminate|intros (? & _); discriminate]].
  destruct (Z.leb_spec (178 * 1000000) d); cbn [andb].
  - destruct (Z.leb_spec d (180 * 1000000)); [split; [discriminate|lia]|].
    destruct (Z.leb_spec d 0); [lia|]. cbn [andb]. split; [discriminate|lia].
  - destruct (Z.leb_spec d 0); cbn [andb].
    + destruct b; cbn [negb].
      * split; [discriminate|intros (_ & ? & _); discriminate].
      * split; [intros _; repeat split; lia|reflexivity].
    + split; [discriminate|lia].
Qed.

Lemma never_due_off_second t b : t mod Py.us_per_second <> 0 -> never_due fl t b.
Proof.
  intros Ht nt e Hle Hw Hc. apply classifyAlert_Due_exact in Hc as (_ & _ & Hz); [|lia].
  assert (nt = t) by lia. subst nt. contradiction.
Qed.

End Exact.

Lemma never_due_ringing fl t : never_due fl t true.
Proof. intros nt e _ _ Hc. apply classifyAlert_Due in Hc as (_ & _ & Hb). discriminate. Qed.

(** A row that is not due: display and pre-warning only. *)
Lemma refresh_row_no_alarm fl fuel refresh t i st st' :
  never_due fl t (ringing st) ->
  refresh_row fl fuel refresh t i st = Some st' ->
  alarms st' = alarms st /\ ringing st' = ringing st /\ reads st' = reads st /\
  List.map last_time (table st') = List.map last_time (table st).
Proof.
  intros Hnd. unfold refresh_row.
  destruct (table st !! i) as [r|] eqn:Hi; [|intros [= <-]; auto].
  destruct (parse_row r) as [[[m s] last]|].
  - destruct (computeNextOccurrence _ _ _ _) as [nt|] eqn:Hn; [|discriminate].
    destruct (computeNextOccurrence_whole_second _ _ _ _ _ _ Hn) as [Hle Hw].
    rewrite update_row_display_eq.
    destruct (update_row_other i (displayed fl nt (Py.mk_timedelta m s) t) st)
      as (Hr & _ & Hl & _ & Hd & _).
    pose proof (last_times_update_row i _ st (last_time_displayed fl nt (Py.mk_timedelta m s) t))
      as Hlast.
    rewrite (check_alert_conditions_classify fl refresh i nt t _ _
               (update_row_lookup i _ st r Hi)).
    rewrite Hr. destruct (classifyAlert _ _ _) eqn:Hc; cbn [alert_action].
    + intros [= <-]. unfold alarms. rewrite Hr, Hl, Hd, Hlast. auto.
    + intros [= <-]. unfold play_warning_sound, play_sound, show_alert.
      rewrite !alarms_emit. cbn [is_alarm emit ringing reads table]. unfold alarms.
      rewrite Hr, Hl, Hd, Hlast. split; [lia|auto].
    + exfalso. apply (Hnd nt _ Hle Hw Hc).
  - intros [= <-]. rewrite alarms_emit. cbn [is_alarm emit ringing reads table].
    split; [lia|auto].
Qed.

Lemma for_rows_no_alarm fl fuel refresh t rows : forall st st',
  never_due fl t (ringing st) ->
  for_rows (refresh_row fl fuel refresh t) rows st = Some st' ->
  alarms st' = alarms st /\ ringing st' = ringing st /\ reads st' = reads st /\
  List.map last_time (table st') = List.map last_time (table st).
Proof.
  induction rows as [|i rows IH]; intros st st' Hnd; cbn [for_rows].
  - intros [= <-]. auto.
  - destruct (refresh_row fl fuel refresh t i st) as [st1|] eqn:E; [|discriminate].
    intros H. destruct (refresh_row_no_alarm _ _ _ _ _ _ _ Hnd E) as (E1 & E2 & E3 & E4).
    rewrite <- E2 in Hnd. destruct (IH _ _ Hnd H) as (E5 & E6 & E7 & E8).
    repeat split; congruence.
Qed.

Lemma refresh_all_timers_no_alarm fl fuel st st' :
  never_due fl (clock st (reads st)) (ringing st) ->
  refresh_all_timers fl fuel st = Some st' ->
  alarms st' = alarms st /\ ringing st' = ringing st /\ reads st' = S (reads st) /\
  List.map last_time (table st') = List.map last_time (table st).
Proof.
  intros Hnd. destruct fuel as [|fuel]; cbn [refresh_all_timers]; [discriminate|].
  unfold now. intros H. apply for_rows_no_alarm in H; [exact H|exact Hnd].
Qed.

(** X8: the alarm needs the exact microsecond.  The next occurrence that
    the recurrence loop returns is a whole second, so the row is classified
    as due exactly when it is enabled, no alarm rings and the next
    occurrence equals now. *)
Theorem alarm_only_on_the_exact_microsecond (fl : Q -> Q) (fuel : nat) (last : Py.time)
    (m s : Z) (t next : Py.datetime) (e b : bool) :
  Rounding fl ->
  computeNextOccurrence fuel last (Py.mk_timedelta m s) t = Some next ->
  (classifyAlert (total_seconds fl (next - t)) e b = Due <-> e = true /\ b = false /\ next = t) /\
  next mod Py.us_per_second = 0.
Proof.
  intros Hfl Hn. destruct (computeNextOccurrence_whole_second _ _ _ _ _ _ Hn) as [Hle Hw].
  split; [|exact Hw].
  rewrite (classifyAlert_Due_exact (next - t) e b ltac:(lia)).
  split; intros (? & ? & ?); repeat split; try assumption; lia.
Qed.

(** X9: a pass whose clock reading is not a whole second starts no alarm:
    the number of alarms and the flag are unchanged, and the clock is read
    once, so no pass was nested in it. *)
Theorem no_alarm_off_the_whole_second (fl : Q -> Q) (fuel : nat) (st st' : BossTimer) :
  Rounding fl ->
  clock st (reads st) mod Py.us_per_second <> 0 ->
  refresh_all_timers fl fuel st = Some st' ->
  alarms st' = alarms st /\ ringing st' = ringing st /\ reads st' = S (reads st).
Proof.
  intros Hfl Ht H.
  destruct (refresh_all_timers_no_alarm fl fuel st st' (never_due_off_second _ _ Ht) H)
    as (H1 & H2 & H3 & _).
  auto.
Qed.

(** X10: an alarm in auto mode.  [trigger_alarm] with the pass that
    [update_boss_time] starts sets the last time of its row to the time of
    the clock reading taken after the alarm box and leaves the other last
    times alone; it sets the flag, starts exactly one alarm and reads the
    clock twice, once for the reset and once in the nested pass. *)
Theorem auto_mode_alarm_resets_the_row (fl : Q -> Q) (fuel : nat) (i : nat) (next_time : Z)
    (st st' : BossTimer) (r : row) :
  auto_time st = true -> table st !! i = Some r ->
  trigger_alarm (refresh_all_timers fl fuel) i next_time st = Some st' ->
  List.map last_time (table st')
  = List.map last_time
      (<[i := set_last_time (Py.strftime_HMS (clock st (reads st))) r]> (table st)) /\
  ringing st' = true /\ alarms st' = S (alarms st) /\ reads st' = S (S (reads st)).
Proof.
  intros Ha Hi. unfold trigger_alarm.
  assert (Hi' : table (set_ringing true st) !! i = Some r) by exact Hi.
  rewrite Hi'.
  set (st0 := emit _ (play_sound AlarmWav (set_ringing true st))).
  assert (Ha0 : auto_time st0 = true) by exact Ha.
  rewrite Ha0. unfold update_boss_time, now.
  set (st1 := update_row i _ _). intros H.
  assert (Ht1 : table st1 = <[i := set_last_time (Py.strftime_HMS (clock st (reads st))) r]>
                              (table st)).
  { unfold st1, update_row. cbn [table]. change (table st0) with (table st). rewrite Hi.
    reflexivity. }
  assert (Hr1 : ringing st1 = true /\ reads st1 = S (reads st) /\ log st1 = log st0).
  { unfold st1, update_row. cbn [table]. change (table st0) with (table st). rewrite Hi.
    repeat split. }
  destruct Hr1 as (Hr1 & Hd1 & Hl1).
  destruct (refresh_all_timers_no_alarm fl fuel st1 st') as (E1 & E2 & E3 & E4);
    [rewrite Hr1; apply never_due_ringing|exact H|].
  rewrite E4, Ht1, E2, Hr1, E1, E3, Hd1. repeat split.
  unfold alarms. rewrite Hl1. unfold st0, play_sound, emit. cbn [log].
  rewrite !List.filter_app, !List.length_app. cbn. lia.
Qed.

(** X11: the next occurrence never moves back.  For a valid last time and a
    positive period, a later now gives a next occurrence that is not
    earlier. *)
Theorem next_occurrence_never_moves_back (fuel fuel' : nat) (last : Py.time) (m s : Z)
    (t t' next next' : Py.datetime) :
  valid_time last -> 0 < m * 60 + s -> t <= t' ->
  computeNextOccurrence fuel last (Py.mk_timedelta m s) t = Some next ->
  computeNextOccurrence fuel' last (Py.mk_timedelta m s) t' = Some next' ->
  next <= next'.
Proof.
  intros Hv Hp Hle H H'. unfold computeNextOccurrence in H, H'.
  pose proof (mk_timedelta_pos m s Hp) as HP. unfold Py.us_per_second in HP.
  set (P := Py.mk_timedelta m s) in *.
  destruct (advance_result _ _ _ _ _ H) as (H1 & (j & Hj & H2) & H3).
  destruct (advance_result _ _ _ _ _ H') as (H1' & (j' & Hj' & H2') & _).
  pose proof (last_occurrence_range t last Hv) as Ha.
  pose proof (last_occurrence_range t' last Hv) as Ha'.
  destruct (last_occurrence_form t last) as [d Hd].
  destruct (last_occurrence_form t' last) as [d' Hd'].
  rewrite Hd in *. rewrite Hd' in *. rewrite us_per_day_val in *.
  set (u := Py.time_us last) in *.
  destruct (Z.eq_dec d d') as [<-|Hne].
  - destruct (Z.le_gt_cases j j') as [Hjj|Hjj]; [nia|].
    assert (next' <= next - P) by nia.
    destruct H3 as [H3|H3]; [nia|lia].
  - assert (d < d') by lia. nia.
Qed.

(** * Button colours *)

(** Two hexadecimal digits are read back as the number they print, for
    each of the 256 values. *)
Lemma int16_format_02x n : 0 <= n <= 255 -> int16 (format_02x n) = Some n.
Proof.
  intros H.
  assert (Hall : forallb (fun k => match int16 (format_02x (Z.of_nat k)) with
                                   | Some m => m =? Z.of_nat k
                                   | None => false
                                   end) (seq 0 256) = true) by (vm_compute; reflexivity).
  rewrite List.forallb_forall in Hall. specialize (Hall (Z.to_nat n)).
  rewrite Z2Nat.id in Hall by lia.
  destruct (int16 (format_02x n)) as [m|].
  - f_equal. apply Z.eqb_eq, Hall. apply List.in_seq. lia.
  - discriminate Hall. apply List.in_seq. lia.
Qed.

Lemma lstrip_hash_format_02x n rest :
  0 <= n <= 255 ->
  lstrip_hash (String "#" (format_02x n ++ rest)) = (format_02x n ++ rest)%string.
Proof.
  intros H.
  assert (Hall : forallb (fun k => negb (Ascii.eqb (hex_char (Z.of_nat k / 16)) "#"))
                   (seq 0 256) = true) by (vm_compute; reflexivity).
  rewrite List.forallb_forall in Hall. specialize (Hall (Z.to_nat n)).
  rewrite Z2Nat.id in Hall by lia.
  unfold format_02x. rewrite append_cons. cbn [lstrip_hash]. change (Ascii.eqb "#" "#") with true.
  cbn iota. rewrite (proj1 (negb_true_iff _) (Hall ltac:(apply List.in_seq; lia))).
  reflexivity.
Qed.

Lemma channels_format_02x x y z :
  channels (format_02x x ++ format_02x y ++ format_02x z)
  = match int16 (format_02x x), int16 (format_02x y), int16 (format_02x z) with
    | Some r, Some g, Some b => Some (r, g, b)
    | _, _, _ => None
    end.
Proof. reflexivity. Qed.

Lemma new_channel_range c a : 0 <= new_channel c a <= 255.
Proof. unfold new_channel. lia. Qed.

Lemma adjust_color_value c a r g b :
  channels (lstrip_hash c) = Some (r, g, b) ->
  adjust_color c a
  = Some (String "#" (format_02x (new_channel r a) ++ format_02x (new_channel g a)
                        ++ format_02x (new_channel b a))).
Proof. intros H. unfold adjust_color. rewrite H. reflexivity. Qed.

Lemma channels_adjusted x y z :
  0 <= x <= 255 -> 0 <= y <= 255 -> 0 <= z <= 255 ->
  channels (lstrip_hash (String "#" (format_02x x ++ format_02x y ++ format_02x z)))
  = Some (x, y, z).
Proof.
  intros Hx Hy Hz. rewrite lstrip_hash_format_02x by exact Hx.
  rewrite channels_format_02x, !int16_format_02x by assumption. reflexivity.
Qed.

(** X18: on a colour whose three slices are hexadecimal numbers
    [adjust_color] returns # and six lowercase hexadecimal digits; their
    channels are those of the argument plus the amount, clamped to
    0..255. *)
Theorem adjust_color_clamps_each_channel (hex_color : string) (amount r g b : Z) :
  channels (lstrip_hash hex_color) = Some (r, g, b) ->
  exists out,
    adjust_color hex_color amount = Some out /\
    String.length out = 7%nat /\
    channels (lstrip_hash out)
    = Some (new_channel r amount, new_channel g amount, new_channel b amount) /\
    (0 <= new_channel r amount <= 255 /\ 0 <= new_channel g amount <= 255 /\
     0 <= new_channel b amount <= 255).
Proof.
  intros H. eexists. split; [apply (adjust_color_value _ _ _ _ _ H)|].
  split; [reflexivity|]. split.
  - apply channels_adjusted; apply new_channel_range.
  - repeat split; apply new_channel_range.
Qed.

Lemma new_channel_twice c a k :
  0 <= c <= 255 -> 0 <= a * k -> new_channel (new_channel c a) k = new_channel c (a + k).
Proof.
  intros Hc Hs. unfold new_channel.
  assert (0 <= a /\ 0 <= k \/ a <= 0 /\ k <= 0) as [[? ?]|[? ?]] by nia; lia.
Qed.

(** X19: two adjustments in the same direction add up.  For channels in
    0..255 and amounts of the same sign, adjusting by [a] and then by [k]
    gives the colour adjusted by [a + k]. *)
Theorem adjust_color_twice (hex_color : string) (a k r g b : Z) :
  channels (lstrip_hash hex_color) = Some (r, g, b) ->
  0 <= r <= 255 -> 0 <= g <= 255 -> 0 <= b <= 255 -> 0 <= a * k ->
  adjust_color hex_color a ≫= (fun c => adjust_color c k) = adjust_color hex_color (a + k).
Proof.
  intros H Hr Hg Hb Hs. rewrite (adjust_color_value _ a _ _ _ H). cbn [mbind option_bind].
  rewrite (adjust_color_value _ k _ _ _
             (channels_adjusted _ _ _ (new_channel_range r a) (new_channel_range g a)
                (new_channel_range b a))).
  rewrite (adjust_color_value _ (a + k) _ _ _ H).
  rewrite !new_channel_twice by assumption. reflexivity.
Qed.



(** X20: a colour of fewer than five characters after the leading # signs
    (the short form #fff) makes [adjust_color] raise [ValueError]. *)
Theorem adjust_color_refuses_short_colors (hex_color : string) (amount : Z) :
  (String.length (lstrip_hash hex_color) < 5)%nat -> adjust_color hex_color amount = None.
Proof.
  intros H. unfold adjust_color, channels.
  destruct (lstrip_hash hex_color) as [|c1 [|c2 [|c3 [|c4 [|c5 s]]]]];
    cbn [String.length] in H; try lia; cbn [substring];
    change (int16 EmptyString) with (@None Z);
    repeat (match goal with |- context [match int16 ?s with _ => _ end] =>
              destruct (int16 s) end); reflexivity.
Qed.


(** * The update check *)

(** The numeral of a positive number does not start with 0. *)
Lemma to_uint_head p d : Pos.to_uint p <> Decimal.D0 d.
Proof.
  intros E.
  assert (Hn : Decimal.unorm (Pos.to_uint p) = Pos.to_uint p).
  { rewrite <- DecimalPos.Unsigned.to_of, DecimalPos.Unsigned.of_to. reflexivity. }
  rewrite E in Hn. unfold Decimal.unorm in Hn.
  destruct (Decimal.nzhead (Decimal.D0 d)) eqn:Ez;
    try (apply (DecimalFacts.nzhead_nonzero (Decimal.D0 d) d); congruence).
  injection Hn as <-. apply (DecimalPos.Unsigned.to_uint_nonzero p E).
Qed.

Lemma ltb_zero_str n s rest :
  0 < n -> String.ltb (String "0" s) (Py.str n ++ rest) = true.
Proof.
  intros Hn. destruct n as [|p|p]; try lia. unfold Py.str, Z.to_int.
  cbn [NilZero.string_of_int]. unfold NilZero.string_of_uint.
  pose proof (DecimalPos.Unsigned.to_uint_nonnil p) as Hnil.
  pose proof (to_uint_head p) as Hhead.
  destruct (Pos.to_uint p) as [|d|d|d|d|d|d|d|d|d|d];
    [congruence|exfalso; apply (Hhead d); reflexivity|..]; reflexivity.
Qed.

Lemma ltb_one_dot_str n s rest :
  2 <= n -> String.ltb (String "1" (String "." s)) (Py.str n ++ rest) = true.
Proof.
  intros Hn. destruct n as [|p|p]; try lia. unfold Py.str, Z.to_int.
  cbn [NilZero.string_of_int]. unfold NilZero.string_of_uint.
  pose proof (DecimalPos.Unsigned.to_uint_nonnil p) as Hnil.
  pose proof (to_uint_head p) as Hhead.
  destruct (Pos.to_uint p) as [|d|d|d|d|d|d|d|d|d|d] eqn:E;
    [congruence|exfalso; apply (Hhead d); reflexivity|..]; try reflexivity.
  destruct d; try reflexivity.
  exfalso. assert (p = 1%positive) by (apply DecimalPos.Unsigned.to_uint_inj; rewrite E; reflexivity).
  lia.
Qed.

Lemma append_empty_r s : String.append s EmptyString = s.
Proof. induction s as [|c s IH]; [reflexivity|]. rewrite append_cons, IH. reflexivity. Qed.

Lemma ltb_version a b c :
  0 <= a -> 0 <= b -> 0 <= c ->
  String.ltb VERSION (version_tag a b c)
  = (1 <? a) || ((a =? 1) && ((0 <? b) || (0 <? c))).
Proof.
  intros Ha Hb Hc. unfold VERSION, version_tag.
  destruct (Z.ltb_spec 1 a) as [H1|H1]; cbn [orb].
  - apply ltb_one_dot_str. lia.
  - destruct (Z.eqb_spec a 1) as [->|H2]; cbn [andb].
    + change (String.ltb "1.0.0" (Py.str 1 ++ "." ++ Py.str b ++ "." ++ Py.str c))
        with (String.ltb "0.0" (Py.str b ++ "." ++ Py.str c)).
      destruct (Z.ltb_spec 0 b) as [H3|H3]; cbn [orb].
      * apply ltb_zero_str, H3.
      * assert (b = 0) as -> by lia.
        change (String.ltb "0.0" (Py.str 0 ++ "." ++ Py.str c))
          with (String.ltb "0" (Py.str c)).
        destruct (Z.ltb_spec 0 c) as [H4|H4].
        -- rewrite <- (append_empty_r (Py.str c)). apply ltb_zero_str, H4.
        -- assert (c = 0) as -> by lia. reflexivity.
    + assert (a = 0) as -> by lia. reflexivity.
Qed.

(** X22: [check_for_updates] compares texts, not version numbers.  For a
    tag a.b.c of decimal numbers the comparison with 1.0.0 agrees with the
    numeric order; a tag that starts with v is always reported as a new
    version; a tag that is no text, or no answer, gives the failure box. *)
Theorem check_for_updates_compares_text (a b c : nat) (tag : string) (n : Z) (flag : bool) :
  check_for_updates (Some (JStr (version_tag (Z.of_nat a) (Z.of_nat b) (Z.of_nat c))))
  = (if later_than_1_0_0 a b c
     then NewVersion (version_tag (Z.of_nat a) (Z.of_nat b) (Z.of_nat c)) else UpToDate) /\
  check_for_updates (Some (JStr (String "v" tag))) = NewVersion (String "v" tag) /\
  check_for_updates (Some (JInt n)) = CheckFailed /\
  check_for_updates (Some (JBool flag)) = CheckFailed /\
  check_for_updates None = CheckFailed.
Proof.
  split; [|repeat split].
  unfold check_for_updates.
  rewrite (ltb_version (Z.of_nat a) (Z.of_nat b) (Z.of_nat c)) by lia.
  replace ((1 <? Z.of_nat a) || ((Z.of_nat a =? 1) && ((0 <? Z.of_nat b) || (0 <? Z.of_nat c))))
    with (later_than_1_0_0 a b c); [reflexivity|].
  unfold later_than_1_0_0.
  destruct a as [|[|a]]; destruct b as [|b]; destruct c as [|c];
    cbn [Nat.ltb Nat.leb Nat.eqb orb andb];
    repeat match goal with
           | |- context [Z.ltb ?x ?y] => destruct (Z.ltb_spec x y); try lia
           | |- context [Z.eqb ?x ?y] => destruct (Z.eqb_spec x y); try lia
           end; reflexivity.
Qed.

(** * Sequence numbers *)

Lemma renumber_rows_length numbers :
  List.length (renumber_rows numbers) = List.length numbers.
Proof. unfold renumber_rows. rewrite List.length_map, List.length_seq. reflexivity. Qed.

Lemma renumber_rows_idem numbers : renumber_rows (renumber_rows numbers) = renumber_rows numbers.
Proof. unfold renumber_rows at 1. rewrite renumber_rows_length. reflexivity. Qed.

Lemma add_number_renumbered numbers :
  renumber_rows numbers = numbers -> renumber_rows (add_number numbers) = add_number numbers.
Proof.
  intros H. unfold add_number. unfold renumber_rows at 1.
  rewrite List.length_app. cbn [List.length]. rewrite List.seq_app, List.map_app.
  cbn [seq List.map]. fold (renumber_rows numbers). rewrite H. reflexivity.
Qed.

Lemma numbers_after_snoc actions a :
  numbers_after (actions ++ [a])
  = match a with
    | NewRow => add_number (numbers_after actions)
    | DeleteSelected row => delete_number row (numbers_after actions)
    end.
Proof. unfold numbers_after. rewrite foldl_app. reflexivity. Qed.

Lemma mapM_int_str (f : nat -> Z) (l : list nat) :
  mapM Py.int (List.map (fun k => Py.str (f k)) l) = Some (List.map f l).
Proof.
  induction l as [|k l IH]; [reflexivity|].
  cbn [List.map mapM]. rewrite int_str. cbn. rewrite IH. reflexivity.
Qed.

(** X23: after any sequence of new rows and deletions column 0 holds 1,
    2, ..., n from top to bottom: renumbering changes nothing, and the texts
    read back as the row index plus one. *)
Theorem rows_stay_numbered (actions : list row_action) :
  renumber_rows (numbers_after actions) = numbers_after actions /\
  mapM Py.int (numbers_after actions)
  = Some (List.map (fun row => Z.of_nat row + 1)
            (seq 0 (List.length (numbers_after actions)))).
Proof.
  assert (H : renumber_rows (numbers_after actions) = numbers_after actions).
  { induction actions as [|a actions IH] using rev_ind; [reflexivity|].
    rewrite numbers_after_snoc. destruct a as [|row].
    - apply add_number_renumbered, IH.
    - unfold delete_number. destruct (0 <=? row); [apply renumber_rows_idem|exact IH]. }
  split; [exact H|].
  rewrite <- H at 1. unfold renumber_rows. apply mapM_int_str.
Qed.

(** * The progress bar within a cycle *)

Lemma trunc_opp q : trunc (- q) = - trunc q.
Proof. unfold trunc. destruct q as [n d]; cbn [Qopp Qnum Qden]. apply Z.quot_opp_l. lia. Qed.

Lemma trunc_nonneg q : (0 <= q)%Q -> 0 <= trunc q.
Proof. intros H. rewrite trunc_floor by exact H. change 0 with (Qfloor 0). apply Qfloor_resp_le, H. Qed.

Lemma trunc_mono x y : (x <= y)%Q -> trunc x <= trunc y.
Proof.
  intros H. destruct (Qlt_le_dec x 0) as [Hx|Hx]; destruct (Qlt_le_dec y 0) as [Hy|Hy].
  - assert (E : forall q, trunc q = - trunc (- q)) by (intros q; rewrite trunc_opp; lia).
    rewrite (E x), (E y). rewrite !trunc_floor by lra.
    assert (Qfloor (- y) <= Qfloor (- x)) by (apply Qfloor_resp_le; lra). lia.
  - assert (E : trunc x = - trunc (- x)) by (rewrite trunc_opp; lia).
    pose proof (trunc_nonneg (- x) ltac:(lra)). pose proof (trunc_nonneg y Hy). lia.
  - lra.
  - rewrite !trunc_floor by lra. apply Qfloor_resp_le, H.
Qed.

(** X13: for a positive period the percentage of line 708 does not
    decrease as now advances towards the next occurrence, in floating
    point. *)
Theorem progress_never_decreases_within_a_cycle (fl : Q -> Q) (next_time period t t' : Z) :
  Rounding fl -> 0 < period -> t <= t' ->
  progress_percent fl (total_seconds fl (next_time - t)) (total_seconds fl period)
  <= progress_percent fl (total_seconds fl (next_time - t')) (total_seconds fl period).
Proof.
  intros Hfl Hp Hle. unfold progress_percent.
  pose proof (total_seconds_pos period Hp) as HT.
  pose proof (total_seconds_le (next_time - t') (next_time - t) ltac:(lia)) as Hr.
  apply trunc_mono, fl_mono. apply Qmult_le_compat_r; [|lra].
  apply fl_mono. apply Qplus_le_r, Qopp_le_compat. apply fl_mono.
  unfold Qdiv. apply Qmult_le_compat_r; [exact Hr|].
  apply Qlt_le_weak, Qinv_lt_0_compat, HT.
Qed.

(** * The recurrence from one day to the next *)

Lemma advance_shift fuel d : forall next period t,
  advance fuel (next + d) period (t + d) = (fun x => x + d) <$> advance fuel next period t.
Proof.
  induction fuel as [|fuel IH]; intros next period t; cbn [advance];
    destruct (Z.ltb_spec next t), (Z.ltb_spec (next + d) (t + d)); try lia; try reflexivity.
  replace (next + d + period) with (next + period + d) by lia. apply IH.
Qed.

Lemma last_occurrence_next_day t last :
  last_occurrence (t + Py.us_per_day) last = last_occurrence t last + Py.us_per_day.
Proof.
  unfold last_occurrence, Py.combine, Py.days, Py.date.
  replace (t + Py.us_per_day) with (t + 1 * Py.us_per_day) by lia.
  rewrite Z.div_add by (rewrite us_per_day_val; lia).
  destruct (Z.ltb_spec t (t / Py.us_per_day * Py.us_per_day + Py.time_us last)),
           (Z.ltb_spec (t + 1 * Py.us_per_day)
              ((t / Py.us_per_day + 1) * Py.us_per_day + Py.time_us last)); lia.
Qed.

(** X12: the recurrence knows only the time of day.  A day later the loop
    returns the occurrence of the day before moved by one day, and it runs
    out of fuel where it did the day before. *)
Theorem next_occurrence_repeats_daily (fuel : nat) (last : Py.time) (period : Py.timedelta)
    (t : Py.datetime) :
  computeNextOccurrence fuel last period (t + Py.us_per_day)
  = (fun next_time => next_time + Py.us_per_day) <$> computeNextOccurrence fuel last period t.
Proof.
  unfold computeNextOccurrence. rewrite last_occurrence_next_day.
  replace (last_occurrence t last + Py.us_per_day + period)
    with (last_occurrence t last + period + Py.us_per_day) by lia.
  apply advance_shift.
Qed.

(** * The further theorems at concrete inputs *)

(** A tick, an accepted edit and a new row over the two-row table. *)
Lemma last_times_stay_valid_witness :
  exists st',
    run binary64 day_fuel [Tick; EditLastTime 0 "9:5:7"; AddBoss] two_due_rows = Some st' /\
    last_times_valid st'.
Proof.
  destruct (run binary64 day_fuel [Tick; EditLastTime 0 "9:5:7"; AddBoss] two_due_rows)
    as [st'|] eqn:E.
  - exists st'. split; [reflexivity|].
    apply (last_times_stay_valid binary64 day_fuel [Tick; EditLastTime 0 "9:5:7"; AddBoss]
             two_due_rows st'); [|exact E].
    repeat constructor.
  - vm_compute in E. discriminate E.
Defined.

(** The pass with an alarm in auto mode and the pass nested in it. *)
Lemma pass_keeps_settings_witness :
  exists st',
    refresh_all_timers binary64 day_fuel due_in_auto_mode = Some st' /\
    List.map settings (table st') = List.map settings (table due_in_auto_mode).
Proof.
  destruct (refresh_all_timers binary64 day_fuel due_in_auto_mode) as [st'|] eqn:E.
  - exists st'. split; [reflexivity|].
    exact (proj1 (pass_keeps_settings binary64 day_fuel due_in_auto_mode st' E)).
  - vm_compute in E. discriminate E.
Defined.

(** The two due rows in manual mode. *)
Lemma manual_mode_keeps_last_times_witness :
  exists st',
    refresh_all_timers binary64 day_fuel two_due_rows = Some st' /\
    List.map last_time (table st') = List.map last_time (table two_due_rows).
Proof.
  destruct (refresh_all_timers binary64 day_fuel two_due_rows) as [st'|] eqn:E.
  - exists st'. split; [reflexivity|].
    exact (manual_mode_keeps_last_times binary64 day_fuel two_due_rows st' eq_refl E).
  - vm_compute in E. discriminate E.
Defined.

(** The two due rows, with fuel for a day and one nested pass. *)
Lemma pass_terminates_witness :
  exists st', refresh_all_timers binary64 (S day_fuel) two_due_rows = Some st' /\
              periods_positive st'.
Proof.
  apply (pass_terminates binary64 (S day_fuel) two_due_rows).
  - repeat constructor.
  - apply Nat.lt_succ_diag_r.
Defined.

(** A period that is no number and an hour of 25. *)
Lemma malformed_rows_are_logged_each_pass_witness :
  exists st',
    refresh_all_timers binary64 1 malformed_rows = Some st' /\
    log st' = [LogRowError 0; LogRowError 1].
Proof.
  destruct (malformed_rows_are_logged_each_pass binary64 0 malformed_rows)
    as (st' & H1 & _ & H2 & _).
  - repeat constructor.
  - exists st'. split; [exact H1|exact H2].
Defined.

(** One minute and -60 seconds in a disabled first row. *)
Lemma zero_period_first_row_hangs_witness :
  refresh_all_timers binary64 day_fuel cancelling_period = None.
Proof.
  apply (zero_period_first_row_hangs binary64 day_fuel cancelling_period
           (one_row "A" "1" "-60" "08:00:00" false)
           [one_row "B" "60" "0" "10:00:00" true] 1 (-60) (Py.mk_time 8 0 0));
    reflexivity.
Defined.

(** An hourly row at 11:00:00 sharp, in binary64. *)
Lemma alarm_only_on_the_exact_microsecond_witness :
  Rounding binary64 /\
  (classifyAlert (total_seconds binary64 (at_time 11 0 0 0 - at_time 11 0 0 0)) true false = Due
   <-> true = true /\ false = false /\ at_time 11 0 0 0 = at_time 11 0 0 0).
Proof.
  split; [exact binary64_rounding|].
  exact (proj1 (alarm_only_on_the_exact_microsecond binary64 3 (Py.mk_time 10 0 0) 60 0
                  (at_time 11 0 0 0) (at_time 11 0 0 0) true false binary64_rounding eq_refl)).
Defined.

(** The same row one microsecond later: no alarm. *)
Lemma no_alarm_off_the_whole_second_witness :
  Rounding binary64 /\
  exists st',
    refresh_all_timers binary64 day_fuel a_microsecond_late = Some st' /\
    alarms st' = alarms a_microsecond_late /\ ringing st' = false.
Proof.
  split; [exact binary64_rounding|].
  destruct (refresh_all_timers binary64 day_fuel a_microsecond_late) as [st'|] eqn:E.
  - exists st'. split; [reflexivity|].
    destruct (no_alarm_off_the_whole_second binary64 day_fuel a_microsecond_late st'
                binary64_rounding) as (H1 & H2 & _).
    + vm_compute. discriminate.
    + exact E.
    + split; [exact H1|exact H2].
  - vm_compute in E. discriminate E.
Defined.

(** The alarm of 11:00:00 in auto mode; the reset reads 11:00:00.000005. *)
Lemma auto_mode_alarm_resets_the_row_witness :
  exists st',
    trigger_alarm (refresh_all_timers binary64 day_fuel) 0 (at_time 11 0 0 0) due_in_auto_mode
    = Some st' /\
    List.map last_time (table st') = ["11:00:00"%string] /\ reads st' = 2%nat.
Proof.
  destruct (trigger_alarm (refresh_all_timers binary64 day_fuel) 0 (at_time 11 0 0 0)
              due_in_auto_mode) as [st'|] eqn:E.
  - exists st'. split; [reflexivity|].
    destruct (auto_mode_alarm_resets_the_row binary64 day_fuel 0 (at_time 11 0 0 0)
                due_in_auto_mode st' (one_row "A" "60" "0" "10:00:00" true)
                eq_refl eq_refl E) as (H1 & _ & _ & H4).
    split; [exact H1|exact H4].
  - vm_compute in E. discriminate E.
Defined.

(** An hourly row at 13:05:00 and at 14:30:00. *)
Lemma next_occurrence_never_moves_back_witness :
  valid_time (Py.mk_time 10 0 0) /\ at_time 14 0 0 0 <= at_time 15 0 0 0.
Proof.
  assert (Hv : valid_time (Py.mk_time 10 0 0)) by (unfold valid_time; cbn; lia).
  split; [exact Hv|].
  apply (next_occurrence_never_moves_back 3 5 (Py.mk_time 10 0 0) 60 0
           (at_time 13 5 0 0) (at_time 14 30 0 0) (at_time 14 0 0 0) (at_time 15 0 0 0) Hv).
  - reflexivity.
  - vm_compute. discriminate.
  - reflexivity.
  - reflexivity.
Defined.

(** A table with a period text that is no number, and no file yet. *)
Lemma save_config_failure_keeps_file_witness :
  save_config malformed_rows = emit LogSaveError malformed_rows /\
  config_file (save_config malformed_rows) = None /\
  log (save_config malformed_rows) = [LogSaveError].
Proof.
  destruct (save_config_failure_keeps_file malformed_rows) as (H1 & H2 & _ & H3 & _).
  - apply Exists_cons_hd. left. reflexivity.
  - split; [exact H1|]. split; [exact H2|exact H3].
Defined.

(** A file of one object without keys. *)
Lemma load_config_rows_witness :
  table (load_config (set_config_file (Some [∅]) (window [] true [at_time 9 0 0 0])))
  = [mk_row default_name "60" "0" "00:00:00" "" "" true (-1) "%p%"].
Proof.
  exact (proj1 (load_config_rows
                  (set_config_file (Some [∅]) (window [] true [at_time 9 0 0 0])) [∅]
                  [mk_row default_name "60" "0" "00:00:00" "" "" true (-1) "%p%"]
                  eq_refl eq_refl)).
Defined.

(** Three objects, the second with a number for a name: two rows, one error. *)
Lemma load_config_stops_at_bad_object_witness :
  exists r,
    table (load_config (set_config_file (Some file_with_bad_name)
                          (window [] true [at_time 9 0 0 0])))
    = [mk_row default_name "60" "0" "00:00:00" "" "" true (-1) "%p%"; r] /\
    log (load_config (set_config_file (Some file_with_bad_name)
                        (window [] true [at_time 9 0 0 0])))
    = [LogLoadError].
Proof.
  exact (load_config_stops_at_bad_object
           (set_config_file (Some file_with_bad_name) (window [] true [at_time 9 0 0 0]))
           [∅] [∅] (<["name" := JInt 5]> ∅)
           [mk_row default_name "60" "0" "00:00:00" "" "" true (-1) "%p%"]
           eq_refl eq_refl eq_refl).
Defined.

(** The object of row A loaded and saved again. *)
Lemma save_after_load_rewrites_the_file_witness :
  config_file (save_config (load_config (set_config_file (Some [item_A])
                                           (window [] true [at_time 9 0 0 0]))))
  = Some [item_A].
Proof.
  refine (proj1 (save_after_load_rewrites_the_file
                   (set_config_file (Some [item_A]) (window [] true [at_time 9 0 0 0]))
                   [item_A] eq_refl eq_refl _)).
  constructor; [|constructor].
  exists (one_row "A" "60" "0" "10:00:00" true). reflexivity.
Defined.

(** The colour of the first button, 20 brighter: the blue channel saturates. *)
Lemma adjust_color_clamps_each_channel_witness :
  exists out,
    adjust_color "#4FC3F7" 20 = Some out /\ String.length out = 7%nat /\
    channels (lstrip_hash out) = Some (new_channel 79 20, new_channel 195 20, new_channel 247 20).
Proof.
  destruct (adjust_color_clamps_each_channel "#4FC3F7" 20 79 195 247 eq_refl)
    as (out & H1 & H2 & H3 & _).
  exists out. split; [exact H1|]. split; [exact H2|exact H3].
Defined.

(** Twice 20 brighter is 40 brighter. *)
Lemma adjust_color_twice_witness :
  adjust_color "#4FC3F7" 20 ≫= (fun c => adjust_color c 20) = adjust_color "#4FC3F7" (20 + 20).
Proof.
  apply (adjust_color_twice "#4FC3F7" 20 20 79 195 247 eq_refl); lia.
Defined.

(** The short form of white. *)
Lemma adjust_color_refuses_short_colors_witness : adjust_color "#fff" 20 = None.
Proof. apply adjust_color_refuses_short_colors. cbn. lia. Defined.


(** An hourly row at 10:10:00 and at 10:20:00, in binary64. *)
Lemma progress_never_decreases_within_a_cycle_witness :
  Rounding binary64 /\
  progress_percent binary64 (total_seconds binary64 (at_time 11 0 0 0 - at_time 10 10 0 0))
    (total_seconds binary64 (Py.mk_timedelta 60 0))
  <= progress_percent binary64 (total_seconds binary64 (at_time 11 0 0 0 - at_time 10 20 0 0))
       (total_seconds binary64 (Py.mk_timedelta 60 0)).
Proof.
  split; [exact binary64_rounding|].
  apply (progress_never_decreases_within_a_cycle binary64 (at_time 11 0 0 0)
           (Py.mk_timedelta 60 0) (at_time 10 10 0 0) (at_time 10 20 0 0) binary64_rounding).
  - reflexivity.
  - vm_compute. discriminate.
Defined.

(** * The evaluation of one row *)



Section Evaluation.
Context {fl : Q -> Q} `{!Rounding fl}.



End Evaluation.



(** * Saving a table that cannot be saved *)

(** C9 (as stated) fails: an entry whose minutes field was cleared.
    [int("")] raises in [save_config], which logs the error and writes no
    file; loading into an empty table then gives no row at all, not the
    entry that was to be saved. *)
Lemma cleared_period_is_not_reloaded :
  Py.int "" = None /\
  config_file (save_config cleared_period) = None /\
  log (save_config cleared_period) = [LogSaveError] /\
  table (load_config (set_config_file (config_file (save_config cleared_period))
                        (window [] true [at_time 9 0 0 0]))) = [] /\
  List.map entry_of_row
    (table (load_config (set_config_file (config_file (save_config cleared_period))
                           (window [] true [at_time 9 0 0 0]))))
  <> List.map entry_of_row (table cleared_period).
Proof. repeat split; try reflexivity. discriminate. Qed.

(** * The pre-warning on every tick *)

Lemma parse_row_displayed fl nt p t r : parse_row (displayed fl nt p t r) = parse_row r.
Proof. unfold displayed. destruct (snd _); reflexivity. Qed.

Lemma enabled_displayed fl nt p t r : enabled (displayed fl nt p t r) = enabled r.
Proof. unfold displayed. destruct (snd _); reflexivity. Qed.

Lemma boss_name_displayed fl nt p t r : boss_name (displayed fl nt p t r) = boss_name r.
Proof. unfold displayed. destruct (snd _); reflexivity. Qed.

(** The anchor of an instant within the day that starts at the last time
    of day [d]. *)
Lemma last_occurrence_on_day d t last :
  valid_time last -> Py.combine d last <= t < Py.combine d last + Py.us_per_day ->
  last_occurrence t last = Py.combine d last.
Proof.
  intros Hv%time_us_range Ht. pose proof (date_bounds t) as Hd.
  unfold last_occurrence, Py.combine, Py.days in *. rewrite us_per_day_val in *.
  destruct (Z.ltb_spec t (Py.date t * 86400000000 + Py.time_us last)); lia.
Qed.

(** The number of periods added is the one that reaches [now] first. *)
Lemma periods_added_unique anchor period t j :
  0 < period -> anchor <= t -> 1 <= j -> t <= anchor + j * period ->
  (j = 1 \/ anchor + j * period - period < t) ->
  periods_added anchor period t = j.
Proof.
  intros Hp Ha Hj Hle Hlt. unfold periods_added.
  destruct (Z.eq_dec j 1) as [->|Hne].
  - assert ((t - anchor + period - 1) / period <= 1); [|lia].
    apply Z.lt_succ_r. apply Z.div_lt_upper_bound; lia.
  - destruct Hlt as [?|Hlt]; [lia|].
    assert (E : (t - anchor + period - 1) / period = j); [|lia].
    symmetry. apply (Z.div_unique _ _ _ (t - anchor + period - 1 - period * j)); lia.
Qed.

(** The recurrence computation anywhere in a cycle gives the end of the
    cycle. *)
Lemma computeNextOccurrence_in_cycle fuel last m s d j t :
  valid_time last -> 0 < m * 60 + s -> (day_fuel <= fuel)%nat ->
  Py.combine d last <= t < Py.combine d last + Py.us_per_day ->
  1 <= j -> t <= Py.combine d last + j * Py.mk_timedelta m s ->
  (j = 1 \/ Py.combine d last + j * Py.mk_timedelta m s - Py.mk_timedelta m s < t) ->
  computeNextOccurrence fuel last (Py.mk_timedelta m s) t
  = Some (Py.combine d last + j * Py.mk_timedelta m s).
Proof.
  intros Hv Hpos Hf Hd Hj Hle Hlt.
  pose proof (mk_timedelta_pos m s Hpos) as HP. unfold Py.us_per_second in HP.
  assert (Hppos : 0 < Py.mk_timedelta m s) by lia.
  pose proof (last_occurrence_on_day d t last Hv Hd) as Ea.
  destruct (computeNextOccurrence_closed fuel last (Py.mk_timedelta m s) t) as [Hn _];
    [exact Hppos|rewrite Ea; lia|].
  rewrite Hn.
  - unfold closed_form. rewrite Ea.
    rewrite (periods_added_unique _ _ t j); try assumption; try lia. reflexivity.
  - rewrite periods_added_iterations by (try assumption; rewrite Ea; lia).
    pose proof (iterations_within_a_day last m s t Hv Hpos). unfold day_fuel in Hf. lia.
Qed.

(** The events of the pre-warnings, counted. *)
Lemma prewarning_events_banners fl name next_time rings ticks :
  List.length (List.filter is_banner (prewarning_events fl name next_time rings ticks))
  = List.length (List.filter (prewarns fl next_time rings) ticks).
Proof.
  unfold prewarning_events. induction ticks as [|t ticks IH]; [reflexivity|].
  cbn [List.flat_map List.filter]. rewrite List.filter_app, List.length_app, IH.
  destruct (prewarns fl next_time rings t); reflexivity.
Qed.

Lemma prewarning_events_warning_sounds fl name next_time rings ticks :
  List.length (List.filter is_warning (prewarning_events fl name next_time rings ticks))
  = List.length (List.filter (prewarns fl next_time rings) ticks).
Proof.
  unfold prewarning_events. induction ticks as [|t ticks IH]; [reflexivity|].
  cbn [List.flat_map List.filter]. rewrite List.filter_app, List.length_app, IH.
  destruct (prewarns fl next_time rings t); reflexivity.
Qed.

Lemma prewarning_events_alarms fl name next_time rings ticks :
  List.filter is_alarm (prewarning_events fl name next_time rings ticks) = [].
Proof.
  unfold prewarning_events. induction ticks as [|t ticks IH]; [reflexivity|].
  cbn [List.flat_map]. rewrite List.filter_app, IH.
  destruct (prewarns fl next_time rings t); reflexivity.
Qed.

Section Ticks.
Context {fl : Q -> Q} `{!Rounding fl}.

(** One tick over a table of one enabled row before its next
    occurrence: the row is displayed, and banner and warning sound come
    exactly when the remaining time is in the window. *)
Lemma tick_one_row fuel st r m s last next_time :
  table st = [r] -> enabled r = true -> parse_row r = Some (m, s, last) ->
  computeNextOccurrence (S fuel) last (Py.mk_timedelta m s) (clock st (reads st))
  = Some next_time ->
  clock st (reads st) < next_time ->
  exists st',
    refresh_all_timers fl (S fuel) st = Some st' /\
    table st' = [displayed fl next_time (Py.mk_timedelta m s) (clock st (reads st)) r] /\
    clock st' = clock st /\ reads st' = S (reads st) /\ ringing st' = ringing st /\
    log st'
    = log st ++ (if prewarns fl next_time (ringing st) (clock st (reads st))
                 then [Banner (boss_name r); PlaySound WarningWav] else []).
Proof.
  intros Ht He Hp Hn Hlt. cbn [refresh_all_timers]. unfold now.
  set (t := clock st (reads st)) in *.
  set (st1 := mk_BossTimer (table st) (ringing st) (auto_time st) (clock st) (S (reads st))
                (log st) (config_file st)).
  assert (E1 : table st1 = [r]) by exact Ht. rewrite E1.
  cbn [List.length seq for_rows].
  assert (H0 : table st1 !! 0%nat = Some r) by (rewrite E1; reflexivity).
  rewrite (refresh_row_eq (S fuel) (refresh_all_timers fl fuel) t 0 st1 r m s last next_time
             H0 Hp Hn).
  rewrite update_row_display_eq.
  set (st2 := update_row 0 (displayed fl next_time (Py.mk_timedelta m s) t) st1).
  assert (E2 : table st2 = [displayed fl next_time (Py.mk_timedelta m s) t r]).
  { unfold st2, update_row. rewrite H0, E1. reflexivity. }
  destruct (update_row_other 0 (displayed fl next_time (Py.mk_timedelta m s) t) st1)
    as (Hr & _ & Hl & Hc & Hd & _). fold st2 in Hr, Hl, Hc, Hd.
  assert (H2 : table st2 !! 0%nat
               = Some (displayed fl next_time (Py.mk_timedelta m s) t r))
    by (rewrite E2; reflexivity).
  rewrite (check_alert_conditions_classify fl (refresh_all_timers fl fuel) 0 next_time t st2 _
             H2).
  rewrite enabled_displayed, boss_name_displayed, He, Hr. unfold prewarns. cbn [ringing st1].
  destruct (classifyAlert _ _ _) eqn:Hc'; cbn [alert_action].
  - exists st2. split; [reflexivity|]. rewrite E2, Hc, Hd, Hr, Hl.
    cbn [st1 clock reads ringing log]. rewrite app_nil_r. auto 10.
  - eexists. split; [reflexivity|]. unfold play_warning_sound, play_sound, show_alert.
    cbn [emit table clock reads ringing log].
    rewrite E2, Hc, Hd, Hr, Hl. cbn [st1 clock reads ringing log].
    rewrite <- app_assoc. auto 10.
  - apply classifyAlert_Due_exact in Hc' as (_ & _ & Hz); lia.
Qed.

(** Ticks one second apart before the occurrence that all see it. *)
Lemma ticks_one_row fuel m s last next_time t0 n : forall st r,
  table st = [r] -> enabled r = true -> parse_row r = Some (m, s, last) ->
  (forall k, clock st k = t0 + Z.of_nat k * Py.us_per_second) ->
  (forall k, (reads st <= k < reads st + n)%nat ->
     computeNextOccurrence (S fuel) last (Py.mk_timedelta m s)
       (t0 + Z.of_nat k * Py.us_per_second) = Some next_time /\
     t0 + Z.of_nat k * Py.us_per_second < next_time) ->
  exists st',
    run fl (S fuel) (List.repeat Tick n) st = Some st' /\
    ringing st' = ringing st /\
    log st'
    = log st ++ prewarning_events fl (boss_name r) next_time (ringing st)
                  (List.map (fun k => t0 + Z.of_nat k * Py.us_per_second) (seq (reads st) n)).
Proof.
  induction n as [|n IH]; intros st r Ht He Hp Hclock Hticks.
  - exists st. cbn. rewrite app_nil_r. auto.
  - cbn [List.repeat run step].
    destruct (Hticks (reads st) ltac:(lia)) as [Hn Hlt]. rewrite <- Hclock in Hn, Hlt.
    destruct (tick_one_row fuel st r m s last next_time Ht He Hp Hn Hlt)
      as (st1 & -> & Ht1 & Hc1 & Hd1 & Hr1 & Hl1).
    destruct (IH st1 _ Ht1) as (st' & Hrun & Hr' & Hl').
    + rewrite enabled_displayed. exact He.
    + rewrite parse_row_displayed. exact Hp.
    + intros k. rewrite Hc1. apply Hclock.
    + intros k Hk. apply Hticks. lia.
    + exists st'. split; [exact Hrun|]. rewrite Hr', Hr1, Hl', Hl1, Hr1, Hd1.
      rewrite boss_name_displayed. split; [reflexivity|].
      cbn [seq List.map]. unfold prewarning_events at 2. cbn [List.flat_map].
      rewrite <- Hclock, <- app_assoc. reflexivity.
Qed.

End Ticks.

(** * A row through the evaluation of the other rows *)

Lemma for_rows_app body l1 l2 st :
  for_rows body (l1 ++ l2) st
  = match for_rows body l1 st with
    | Some st1 => for_rows body l2 st1
    | None => None
    end.
Proof.
  revert st. induction l1 as [|j l1 IH]; intros st; [reflexivity|].
  cbn [List.app for_rows]. destruct (body j st); [apply IH|reflexivity].
Qed.

Lemma for_rows_returns_each P Q body rows :
  Forall (fun j => returns P Q (body j)) rows -> returns P Q (for_rows body rows).
Proof.
  induction 1 as [|j rows Hj _ IH]; intros st HP HQ; cbn [for_rows].
  - exists st. auto.
  - destruct (Hj st HP HQ) as (st1 & -> & HP1 & HQ1). apply IH; assumption.
Qed.

Section Kept.
Context (fl : Q -> Q) (i : nat) (K : BossTimer -> Prop).
Hypothesis K_now : forall st, K st -> K (snd (now st)).
Hypothesis K_emit : forall e st, K st -> K (emit e st).
Hypothesis K_ringing : forall st, K st -> K (set_ringing true st).
Hypothesis K_display : forall k nt p t st, K st -> K (update_row k (displayed fl nt p t) st).
Hypothesis K_reset : forall j t st,
  j <> i -> K st -> K (update_row j (set_last_time (Py.strftime_HMS t)) st).

(** While the alarm rings: no alarm is started, whichever row is
    evaluated. *)
Lemma check_alert_conditions_ringing_kept refresh k nt t :
  returns periods_positive (fun s => is_ringing s /\ K s)
    (check_alert_conditions fl refresh k nt t).
Proof.
  intros st HP [HR HK]. destruct (table st !! k) as [r|] eqn:Hk.
  - rewrite (check_alert_conditions_classify fl refresh k nt t st r Hk).
    destruct (classifyAlert _ _ _) eqn:Hc; cbn [alert_action].
    + exists st. auto.
    + eexists. split; [reflexivity|]. split; [exact HP|]. split; [exact HR|].
      apply K_emit, K_emit, HK.
    + apply classifyAlert_Due in Hc as (_ & _ & Hclear). unfold is_ringing in HR. congruence.
  - unfold check_alert_conditions. rewrite Hk. exists st. auto.
Qed.

Lemma refresh_row_ringing_kept fuel refresh t k :
  (day_fuel <= fuel)%nat ->
  returns periods_positive (fun s => is_ringing s /\ K s) (refresh_row fl fuel refresh t k).
Proof.
  intros Hf st HP [HR HK]. unfold refresh_row.
  destruct (table st !! k) as [r|] eqn:Hk; [|exists st; auto].
  destruct (parse_row r) as [[[m s] last]|] eqn:Hr.
  - assert (Hpos : 0 < m * 60 + s).
    { apply (parse_row_period_ok r m s last); [|exact Hr].
      apply (proj1 (Forall_lookup _ _) HP k r Hk). }
    destruct (computeNextOccurrence_in_range fuel last m s t (parse_row_valid _ _ _ _ Hr)
                Hpos Hf) as (nt & -> & _).
    apply check_alert_conditions_ringing_kept.
    + rewrite update_row_display_eq.
      apply periods_positive_update_row; [apply period_ok_displayed|exact HP].
    + rewrite update_row_display_eq. split; [apply is_ringing_update_row, HR|].
      apply K_display, HK.
  - eexists. split; [reflexivity|]. split; [exact HP|]. split; [exact HR|apply K_emit, HK].
Qed.

(** A pass that starts while the alarm rings. *)
Lemma refresh_all_timers_ringing_kept fuel :
  (day_fuel <= fuel)%nat -> (0 < fuel)%nat ->
  returns periods_positive (fun s => is_ringing s /\ K s) (refresh_all_timers fl fuel).
Proof.
  intros Hf Hpos. destruct fuel as [|fuel]; [lia|].
  intros st HP [HR HK]. cbn [refresh_all_timers]. unfold now.
  apply for_rows_returns; [|exact HP|].
  - intros k. apply refresh_row_ringing_kept. exact Hf.
  - split; [exact HR|]. exact (K_now st HK).
Qed.

(** The alarm of another row, with the pass that it starts in auto
    mode. *)
Lemma trigger_alarm_kept refresh j nt :
  j <> i ->
  returns periods_positive (fun s => is_ringing s /\ K s) refresh ->
  returns periods_positive K (trigger_alarm refresh j nt).
Proof.
  intros Hne Hrefresh st HP HK. unfold trigger_alarm. cbn [set_ringing table].
  fold (set_ringing true st).
  destruct (table st !! j) as [r|].
  - set (st1 := emit _ (play_sound AlarmWav (set_ringing true st))).
    assert (HK1 : K st1) by (apply K_emit, K_emit, K_ringing, HK).
    destruct (auto_time st1).
    + unfold update_boss_time, now.
      destruct (Hrefresh (update_row j (set_last_time (Py.strftime_HMS (clock st1 (reads st1))))
                            (mk_BossTimer (table st1) (ringing st1) (auto_time st1) (clock st1)
                               (S (reads st1)) (log st1) (config_file st1))))
        as (st' & -> & HP' & _ & HK').
      * apply periods_positive_update_row; [reflexivity|exact HP].
      * split; [apply is_ringing_update_row; reflexivity|].
        apply K_reset; [exact Hne|]. exact (K_now st1 HK1).
      * exists st'. auto.
    + exists st1. auto.
  - eexists. split; [reflexivity|]. split; [exact HP|apply K_ringing, HK].
Qed.

Lemma check_alert_conditions_kept refresh j nt t :
  j <> i ->
  returns periods_positive (fun s => is_ringing s /\ K s) refresh ->
  returns periods_positive K (check_alert_conditions fl refresh j nt t).
Proof.
  intros Hne Hrefresh st HP HK. destruct (table st !! j) as [r|] eqn:Hj.
  - rewrite (check_alert_conditions_classify fl refresh j nt t st r Hj).
    destruct (classifyAlert _ _ _); cbn [alert_action].
    + exists st. auto.
    + eexists. split; [reflexivity|]. split; [exact HP|apply K_emit, K_emit, HK].
    + apply (trigger_alarm_kept refresh j nt Hne Hrefresh st HP HK).
  - unfold check_alert_conditions. rewrite Hj. exists st. auto.
Qed.

(** The evaluation of another row. *)
Lemma refresh_row_kept fuel refresh t j :
  j <> i -> (day_fuel <= fuel)%nat ->
  returns periods_positive (fun s => is_ringing s /\ K s) refresh ->
  returns periods_positive K (refresh_row fl fuel refresh t j).
Proof.
  intros Hne Hf Hrefresh st HP HK. unfold refresh_row.
  destruct (table st !! j) as [r|] eqn:Hj; [|exists st; auto].
  destruct (parse_row r) as [[[m s] last]|] eqn:Hr.
  - assert (Hpos : 0 < m * 60 + s).
    { apply (parse_row_period_ok r m s last); [|exact Hr].
      apply (proj1 (Forall_lookup _ _) HP j r Hj). }
    destruct (computeNextOccurrence_in_range fuel last m s t (parse_row_valid _ _ _ _ Hr)
                Hpos Hf) as (nt & -> & _).
    apply (check_alert_conditions_kept refresh j nt t Hne Hrefresh).
    + rewrite update_row_display_eq.
      apply periods_positive_update_row; [apply period_ok_displayed|exact HP].
    + rewrite update_row_display_eq. apply K_display, HK.
  - eexists. split; [reflexivity|]. split; [exact HP|apply K_emit, HK].
Qed.

End Kept.

Lemma row_kept_refl st i r : table st !! i = Some r -> row_kept st i r st.
Proof. intros Hi. split; [exists []; rewrite app_nil_r; reflexivity|]. exists r. auto. Qed.

Lemma row_kept_emit st i r e s : row_kept st i r s -> row_kept st i r (emit e s).
Proof.
  intros [[l Hl] Hr]. split; [|exact Hr]. exists (l ++ [e]). cbn [emit log].
  rewrite Hl, <- app_assoc. reflexivity.
Qed.

Lemma row_kept_update st i r k f s :
  (k = i -> forall r', settings (f r') = settings r' /\ last_time (f r') = last_time r') ->
  row_kept st i r s -> row_kept st i r (update_row k f s).
Proof.
  intros Hf [[l Hl] (r' & Hi & Hs & Ht)].
  destruct (update_row_other k f s) as (_ & _ & E & _). split; [exists l; rewrite E; exact Hl|].
  destruct (Nat.eq_dec k i) as [->|Hne].
  - exists (f r'). split; [apply update_row_lookup, Hi|].
    destruct (Hf eq_refl r') as [-> ->]. auto.
  - exists r'. rewrite (update_row_lookup_ne k i f s Hne). auto.
Qed.

Lemma settings_parse_row r r' :
  settings r' = settings r -> last_time r' = last_time r ->
  boss_name r' = boss_name r /\ enabled r' = enabled r /\ parse_row r' = parse_row r /\
  period_ok r' = period_ok r.
Proof.
  unfold settings, parse_row, period_ok. intros [= -> -> -> ->] ->. auto.
Qed.

Lemma prewarning_events_none fl name next_time rings ticks :
  Forall (fun t => prewarns fl next_time rings t = false) ticks ->
  prewarning_events fl name next_time rings ticks = [].
Proof.
  unfold prewarning_events. induction 1 as [|t ticks Ht _ IH]; [reflexivity|].
  cbn [List.flat_map]. rewrite Ht, IH. reflexivity.
Qed.

Lemma prewarning_events_app fl name next_time rings l1 l2 :
  prewarning_events fl name next_time rings (l1 ++ l2)
  = prewarning_events fl name next_time rings l1
    ++ prewarning_events fl name next_time rings l2.
Proof. unfold prewarning_events. apply List.flat_map_app. Qed.

Section Window.
Context {fl : Q -> Q} `{!Rounding fl}.

(** The pre-warning in terms of the microseconds left. *)
Lemma prewarns_window next_time rings t :
  prewarns fl next_time rings t
  = (178 * Py.us_per_second <=? next_time - t) && (next_time - t <=? 180 * Py.us_per_second).
Proof.
  unfold prewarns. rewrite classifyAlert_total_seconds. cbn [negb].
  destruct (_ && _); [reflexivity|]. destruct (_ && _); reflexivity.
Qed.

(** From 180 seconds before the occurrence the first three ticks raise
    the pre-warning and no later one does. *)
Lemma prewarning_events_three name rings t0 n :
  (3 <= n)%nat ->
  prewarning_events fl name (t0 + 180 * Py.us_per_second) rings (ticks_1Hz t0 n)
  = [Banner name; PlaySound WarningWav; Banner name; PlaySound WarningWav;
     Banner name; PlaySound WarningWav].
Proof.
  intros Hn. replace n with (3 + (n - 3))%nat by lia. unfold ticks_1Hz.
  rewrite List.seq_app, List.map_app, prewarning_events_app.
  rewrite (prewarning_events_none fl name _ rings (List.map _ (seq (0 + 3) (n - 3)))).
  - unfold prewarning_events. cbn [seq List.map List.flat_map]. rewrite !prewarns_window.
    replace (t0 + 180 * Py.us_per_second - (t0 + Z.of_nat 0 * Py.us_per_second))
      with 180000000 by (unfold Py.us_per_second; lia).
    replace (t0 + 180 * Py.us_per_second - (t0 + Z.of_nat 1 * Py.us_per_second))
      with 179000000 by (unfold Py.us_per_second; lia).
    replace (t0 + 180 * Py.us_per_second - (t0 + Z.of_nat 2 * Py.us_per_second))
      with 178000000 by (unfold Py.us_per_second; lia).
    reflexivity.
  - apply List.Forall_map, List.Forall_forall. intros k Hk%List.in_seq.
    rewrite prewarns_window. apply andb_false_iff. left. apply Z.leb_gt.
    unfold Py.us_per_second. lia.
Qed.

(** A row in the window: what the evaluation leaves. *)
Lemma refresh_row_prewarning_events fuel refresh t i st r m s last next_time :
  table st !! i = Some r -> enabled r = true -> parse_row r = Some (m, s, last) ->
  computeNextOccurrence fuel last (Py.mk_timedelta m s) t = Some next_time ->
  178 * Py.us_per_second <= next_time - t <= 180 * Py.us_per_second ->
  exists st',
    refresh_row fl fuel refresh t i st = Some st' /\
    log st' = log st ++ [Banner (boss_name r); PlaySound WarningWav] /\
    ringing st' = ringing st /\
    table st' = <[i := displayed fl next_time (Py.mk_timedelta m s) t r]> (table st).
Proof.
  intros Hi He Hp Hn Hw.
  rewrite (refresh_row_prewarning fuel refresh t i st r m s last next_time Hi He Hp Hn Hw).
  eexists. split; [reflexivity|]. rewrite update_row_display_eq.
  destruct (update_row_other i (displayed fl next_time (Py.mk_timedelta m s) t) st)
    as (Hr & _ & Hl & _).
  unfold play_warning_sound, play_sound, show_alert. cbn [emit log ringing table].
  rewrite Hl, Hr, <- app_assoc. split; [reflexivity|]. split; [reflexivity|].
  unfold update_row. rewrite Hi. reflexivity.
Qed.

(** The ticks of a second each within one cycle of a row, seen by the
    event loop. *)
Lemma run_ticks_in_cycle fuel r m s last d j next_time rings auto t0 n :
  enabled r = true -> parse_row r = Some (m, s, last) -> 0 < m * 60 + s ->
  (day_fuel <= S fuel)%nat ->
  Py.combine d last <= t0 ->
  t0 + Z.of_nat n * Py.us_per_second <= Py.combine d last + Py.us_per_day ->
  1 <= j -> next_time = Py.combine d last + j * Py.mk_timedelta m s ->
  (j = 1 \/ next_time - Py.mk_timedelta m s < t0) ->
  t0 + Z.of_nat n * Py.us_per_second <= next_time ->
  exists st',
    run fl (S fuel) (List.repeat Tick n) (ticking r rings auto t0) = Some st' /\
    log st' = prewarning_events fl (boss_name r) next_time rings (ticks_1Hz t0 n) /\
    ringing st' = rings.
Proof.
  intros He Hp Hpos Hf Hd1 Hd2 Hj -> Hc Hn.
  pose proof (parse_row_valid _ _ _ _ Hp) as Hv.
  destruct (ticks_one_row (fl := fl) fuel m s last
              (Py.combine d last + j * Py.mk_timedelta m s) t0 n
              (ticking r rings auto t0) r eq_refl He Hp (fun k => eq_refl))
    as (st' & Hrun & Hr & Hl).
  - cbn [ticking reads]. intros k Hk. unfold Py.us_per_second in *. split; [|lia].
    apply (computeNextOccurrence_in_cycle (S fuel) last m s d j); try assumption; lia.
  - exists st'. split; [exact Hrun|]. split; [exact Hl|exact Hr].
Qed.

End Window.

Section EveryTick.
Context {fl : Q -> Q} `{!Rounding fl}.

Lemma refresh_row_row_kept fuel fuel' st i r t j :
  j <> i -> (day_fuel <= fuel)%nat -> (day_fuel <= fuel')%nat ->
  returns periods_positive (row_kept st i r)
    (refresh_row fl fuel (refresh_all_timers fl fuel') t j).
Proof.
  intros Hne Hf Hf'.
  apply (refresh_row_kept fl i (row_kept st i r)); try assumption.
  - intros s Hs. exact Hs.
  - intros e s. apply row_kept_emit.
  - intros s Hs. exact Hs.
  - intros k nt p t' s. apply row_kept_update. intros _ r'.
    split; [apply settings_displayed|apply last_time_displayed].
  - intros k t' s Hk. apply row_kept_update. intros ->. contradiction.
  - apply refresh_all_timers_ringing_kept; try assumption.
    + intros s Hs. exact Hs.
    + intros e s. apply row_kept_emit.
    + intros k nt p t' s. apply row_kept_update. intros _ r'.
      split; [apply settings_displayed|apply last_time_displayed].
    + unfold day_fuel in Hf'. lia.
Qed.

(** A pass over any table whose periods are positive: a row that is
    enabled and has between 178 and 180 seconds left when the pass reads
    the clock gets its banner and the warning sound, whatever the other
    rows do. *)
Lemma refresh_all_timers_prewarning fuel st i r m s last next_time :
  periods_positive st -> (day_fuel <= fuel)%nat ->
  table st !! i = Some r -> enabled r = true -> parse_row r = Some (m, s, last) ->
  computeNextOccurrence (S fuel) last (Py.mk_timedelta m s) (clock st (reads st))
  = Some next_time ->
  178 * Py.us_per_second <= next_time - clock st (reads st) <= 180 * Py.us_per_second ->
  exists st' before after,
    refresh_all_timers fl (S fuel) st = Some st' /\
    log st' = log st ++ before ++ [Banner (boss_name r); PlaySound WarningWav] ++ after.
Proof.
  intros HP Hf Hi He Hp Hn Hw. cbn [refresh_all_timers]. unfold now.
  set (t := clock st (reads st)) in *.
  set (st0 := mk_BossTimer (table st) (ringing st) (auto_time st) (clock st) (S (reads st))
                (log st) (config_file st)).
  pose proof (lookup_lt_Some _ _ _ Hi) as Hlt.
  set (n := List.length (table st0)).
  assert (Hn' : (i < n)%nat) by exact Hlt.
  assert (E : seq 0 n = seq 0 i ++ i :: seq (S i) (n - S i)).
  { replace n with (i + S (n - S i))%nat at 1 by lia. rewrite List.seq_app. reflexivity. }
  rewrite E, for_rows_app.
  destruct (for_rows_returns_each periods_positive (row_kept st0 i r)
              (refresh_row fl (S fuel) (refresh_all_timers fl fuel) t) (seq 0 i))
    with (st := st0) as (st1 & -> & HP1 & [l1 Hl1] & r1 & Hi1 & Hs1 & Ht1).
  { apply List.Forall_forall. intros j Hj%List.in_seq.
    apply refresh_row_row_kept; lia. }
  { exact HP. }
  { apply row_kept_refl. exact Hi. }
  destruct (settings_parse_row r r1 Hs1 Ht1) as (En & Ee & Ep & _).
  cbn [for_rows].
  destruct (refresh_row_prewarning_events (fl := fl) (S fuel) (refresh_all_timers fl fuel) t i
              st1 r1 m s last next_time Hi1)
    as (st2 & -> & Hl2 & _ & Ht2); [congruence|congruence|exact Hn|exact Hw|].
  assert (Hi2 : table st2 !! i = Some (displayed fl next_time (Py.mk_timedelta m s) t r1)).
  { rewrite Ht2. apply list_lookup_insert_eq. apply lookup_lt_Some in Hi1. exact Hi1. }
  assert (HP2 : periods_positive st2).
  { unfold periods_positive. rewrite Ht2. apply Forall_insert; [exact HP1|].
    rewrite period_ok_displayed. apply (proj1 (Forall_lookup _ _) HP1 i r1 Hi1). }
  destruct (for_rows_returns_each periods_positive
              (row_kept st2 i (displayed fl next_time (Py.mk_timedelta m s) t r1))
              (refresh_row fl (S fuel) (refresh_all_timers fl fuel) t) (seq (S i) (n - S i)))
    with (st := st2) as (st3 & -> & _ & [l3 Hl3] & _).
  { apply List.Forall_forall. intros j Hj%List.in_seq.
    apply refresh_row_row_kept; lia. }
  { exact HP2. }
  { apply row_kept_refl. exact Hi2. }
  exists st3, l1, l3. split; [reflexivity|].
  rewrite Hl3, Hl2, Hl1, En. cbn [st0 log]. rewrite <- !app_assoc. reflexivity.
Qed.

End EveryTick.

(** C10 (as stated) fails in its bound of three: with ticks one second
    apart the pre-warning of one entry can come four times in a cycle.
    Row A is due at the tick of 11:00:00 in auto mode; its alarm resets it
    and [update_boss_time] starts a pass inside the pass, which shows the
    banner of row B, 180 seconds before its occurrence, and then the pass
    of the tick comes to row B and shows it again; the ticks of 11:00:01
    and 11:00:02 show it a third and a fourth time. *)
Lemma four_prewarnings_in_one_cycle :
  option_map log (run binary64 (S day_fuel) [Tick; Tick; Tick] alarm_beside_prewarning)
  = Some [PlaySound AlarmWav; MessageBox "A" "11:00:00";
          Banner "B"; PlaySound WarningWav; Banner "B"; PlaySound WarningWav;
          Banner "B"; PlaySound WarningWav; Banner "B"; PlaySound WarningWav] /\
  option_map (fun st => List.map last_time (table st))
    (run binary64 (S day_fuel) [Tick; Tick; Tick] alarm_beside_prewarning)
  = Some ["11:00:00"; "10:03:00"]%string /\
  option_map banners (run binary64 (S day_fuel) [Tick; Tick; Tick] alarm_beside_prewarning)
  = Some 4%nat /\
  ~ (4 <= 3)%nat.
Proof. repeat split; try (vm_compute; reflexivity). lia. Qed.

(** C10 (amended): the pre-warning decision does not look at
    [self.ringing] and nothing records that it was taken.  An evaluation
    of a row that is enabled and has between 178 and 180 seconds left
    appends the banner of the row and the warning sound to what the window
    has shown and played, whatever the state, and leaves the flag as it
    is; so does every pass over a table with positive periods that reads
    the clock in that window of the row, whatever the other rows do.  The
    bound of three is one on the ticks, not on the banners: ticks one
    second apart that see the same next occurrence raise the pre-warning at
    most three times, and three times when the first of them sees exactly
    180 seconds.  For a row that is alone in its table the log of [n]
    ticks one second apart within one cycle is the banner and the warning
    sound once for each tick with 178 to 180 seconds left and nothing
    else, at most three times each, with no alarm, whether an alarm is
    ringing or not; starting 180 seconds before the occurrence, three ticks
    or more give exactly three banners and three warning sounds. *)
Theorem prewarning_repeats (fl : Q -> Q) :
  Rounding fl ->
  (forall rem e b1 b2,
     classifyAlert rem e b1 = PreWarning -> classifyAlert rem e b2 = PreWarning) /\
  (forall fuel refresh t i st r m s last next_time,
     table st !! i = Some r -> enabled r = true -> parse_row r = Some (m, s, last) ->
     computeNextOccurrence fuel last (Py.mk_timedelta m s) t = Some next_time ->
     178 * Py.us_per_second <= next_time - t <= 180 * Py.us_per_second ->
     refresh_row fl fuel refresh t i st
     = Some (play_warning_sound
               (show_alert (boss_name r)
                  (update_row_display fl i next_time (Py.mk_timedelta m s) t st))) /\
     exists st',
       refresh_row fl fuel refresh t i st = Some st' /\
       log st' = log st ++ [Banner (boss_name r); PlaySound WarningWav] /\
       ringing st' = ringing st /\
       table st' = <[i := displayed fl next_time (Py.mk_timedelta m s) t r]> (table st)) /\
  (forall next_time ringing_at t0 n,
     (prewarnings fl next_time ringing_at (ticks_1Hz t0 n) <= 3)%nat) /\
  (forall ringing_at t0,
     prewarnings fl (t0 + 180 * Py.us_per_second) ringing_at (ticks_1Hz t0 3) = 3%nat) /\
  (forall fuel st i r m s last next_time,
     periods_positive st -> (day_fuel <= fuel)%nat ->
     table st !! i = Some r -> enabled r = true -> parse_row r = Some (m, s, last) ->
     computeNextOccurrence (S fuel) last (Py.mk_timedelta m s) (clock st (reads st))
     = Some next_time ->
     178 * Py.us_per_second <= next_time - clock st (reads st) <= 180 * Py.us_per_second ->
     exists st' before after,
       step fl (S fuel) Tick st = Some st' /\
       log st' = log st ++ before ++ [Banner (boss_name r); PlaySound WarningWav] ++ after) /\
  (forall fuel r m s last d j next_time rings auto t0 n,
     enabled r = true -> parse_row r = Some (m, s, last) -> 0 < m * 60 + s ->
     (day_fuel <= S fuel)%nat ->
     Py.combine d last <= t0 ->
     t0 + Z.of_nat n * Py.us_per_second <= Py.combine d last + Py.us_per_day ->
     1 <= j -> next_time = Py.combine d last + j * ((m * 60 + s) * Py.us_per_second) ->
     (j = 1 \/ next_time - (m * 60 + s) * Py.us_per_second < t0) ->
     t0 + Z.of_nat n * Py.us_per_second <= next_time ->
     exists st',
       run fl (S fuel) (List.repeat Tick n) (ticking r rings auto t0) = Some st' /\
       log st'
       = List.flat_map
           (fun t =>
              if (178 * Py.us_per_second <=? next_time - t)
                 && (next_time - t <=? 180 * Py.us_per_second)
              then [Banner (boss_name r); PlaySound WarningWav] else [])
           (ticks_1Hz t0 n) /\
       banners st' = prewarnings fl next_time (fun _ => rings) (ticks_1Hz t0 n) /\
       warning_sounds st' = banners st' /\
       (banners st' <= 3)%nat /\
       alarms st' = 0%nat /\
       ringing st' = rings /\
       (t0 + 180 * Py.us_per_second = next_time -> (3 <= n)%nat ->
        log st' = [Banner (boss_name r); PlaySound WarningWav;
                   Banner (boss_name r); PlaySound WarningWav;
                   Banner (boss_name r); PlaySound WarningWav])).
Proof.
  intros HR. split; [|split; [|split; [|split; [|split]]]].
  - intros rem e b1 b2 H. apply classifyAlert_PreWarning in H. apply classifyAlert_PreWarning, H.
  - intros fuel refresh t i st r m s last next_time Hi He Hp Hn Hw. split.
    + apply (refresh_row_prewarning fuel refresh t i st r m s last next_time); assumption.
    + apply (refresh_row_prewarning_events fuel refresh t i st r m s last next_time);
        assumption.
  - intros *. apply prewarnings_1Hz_bound.
  - intros *. apply prewarnings_1Hz_three.
  - intros fuel st i r m s last next_time HP Hf Hi He Hp Hn Hw.
    apply (refresh_all_timers_prewarning fuel st i r m s last next_time); assumption.
  - intros fuel r m s last d j next_time rings auto t0 n He Hp Hpos Hf Hd1 Hd2 Hj Hnext Hc Hn.
    destruct (run_ticks_in_cycle fuel r m s last d j next_time rings auto t0 n)
      as (st' & Hrun & Hl & Hr); try assumption.
    exists st'. split; [exact Hrun|].
    assert (Hb : banners st' = prewarnings fl next_time (fun _ => rings) (ticks_1Hz t0 n)).
    { unfold banners. rewrite Hl. apply prewarning_events_banners. }
    split.
    { rewrite Hl. unfold prewarning_events. apply List.flat_map_ext. intros t.
      rewrite prewarns_window. reflexivity. }
    split; [exact Hb|]. split.
    { unfold warning_sounds. rewrite Hl, Hb. apply prewarning_events_warning_sounds. }
    split; [rewrite Hb; apply prewarnings_1Hz_bound|]. split.
    { unfold alarms. rewrite Hl, prewarning_events_alarms. reflexivity. }
    split; [exact Hr|].
    intros <- H3. rewrite Hl. apply prewarning_events_three, H3.
Qed.

(** An hour's row "A" last triggered at 10:00:00, three ticks from
    10:57:00 while an alarm is ringing, in binary64: three banners, three
    warning sounds. *)
Lemma prewarning_repeats_witness :
  Rounding binary64 /\
  exists st',
    run binary64 (S day_fuel) [Tick; Tick; Tick]
      (ticking (one_row "A" "60" "0" "10:00:00" true) true false (at_time 10 57 0 0))
    = Some st' /\
    log st' = [Banner "A"; PlaySound WarningWav; Banner "A"; PlaySound WarningWav;
               Banner "A"; PlaySound WarningWav] /\
    banners st' = 3%nat /\ alarms st' = 0%nat /\ ringing st' = true.
Proof.
  split; [exact binary64_rounding|].
  destruct (prewarning_repeats binary64 binary64_rounding) as (_ & _ & _ & _ & _ & H).
  destruct (H day_fuel (one_row "A" "60" "0" "10:00:00" true) 60 0 (Py.mk_time 10 0 0)
              739000 1 (at_time 11 0 0 0) true false (at_time 10 57 0 0) 3%nat)
    as (st' & H1 & _ & H2 & _ & _ & H3 & H4 & H5).
  - reflexivity.
  - reflexivity.
  - lia.
  - apply Nat.le_succ_diag_r.
  - vm_compute. discriminate.
  - vm_compute. discriminate.
  - lia.
  - reflexivity.
  - left. reflexivity.
  - vm_compute. discriminate.
  - exists st'. split; [exact H1|]. split; [apply H5; [reflexivity|lia]|].
    split; [|split; [exact H3|exact H4]].
    rewrite H2. reflexivity.
Defined.

(** * The error of the progress computation *)




Section Error.
Context {fl : Q -> Q} `{!Rounding fl}.





End Error.




(** * Texts that [int()] and [strptime] read *)

(** Digits grouped by single underscores are read, as are decimal digits
    of other scripts (here U+0666 U+0660, the Arabic-Indic 6 and 0) and
    white space that is not ASCII (U+3000 before and U+00A0 after a 5). *)
Example int_groups_and_scripts :
  Py.int "6_0" = Some 60 /\ Py.int "0_0" = Some 0 /\ Py.int "1_000" = Some 1000 /\
  Py.int "_6" = None /\ Py.int "6_" = None /\ Py.int "6__0" = None /\
  Py.int (string_of_list_ascii (List.map ascii_of_nat [217; 166; 217; 160]%nat)) = Some 60 /\
  Py.int (string_of_list_ascii (List.map ascii_of_nat [217; 166; 95; 217; 160]%nat))
  = Some 60 /\
  Py.int (string_of_list_ascii (List.map ascii_of_nat [227; 128; 128; 53; 194; 160]%nat))
  = Some 5.
Proof. repeat split; vm_compute; reflexivity. Qed.

(** [%H:%M:%S] takes decimal digits of other scripts where the pattern has
    [\d] (U+0663, U+0664, U+0665 are the Arabic-Indic 3, 4, 5 and U+0669
    the 9), and only ASCII digits where it has a range: the texts are
    3:4:5, 13:00:00, 10:59:00, and two that are refused, 30:00:00 with the
    first digit and 23:00:00 with the second digit in the other script. *)
Example strptime_scripts :
  Py.strptime_HMS
    (string_of_list_ascii (List.map ascii_of_nat [217; 163; 58; 217; 164; 58; 217; 165]%nat))
  = Some (Py.mk_time 3 4 5) /\
  Py.strptime_HMS
    (string_of_list_ascii (List.map ascii_of_nat [49; 217; 163; 58; 48; 48; 58; 48; 48]%nat))
  = Some (Py.mk_time 13 0 0) /\
  Py.strptime_HMS
    (string_of_list_ascii (List.map ascii_of_nat [49; 48; 58; 53; 217; 169; 58; 48; 48]%nat))
  = Some (Py.mk_time 10 59 0) /\
  Py.strptime_HMS
    (string_of_list_ascii (List.map ascii_of_nat [217; 163; 48; 58; 48; 48; 58; 48; 48]%nat))
  = None /\
  Py.strptime_HMS
    (string_of_list_ascii (List.map ascii_of_nat [50; 217; 163; 58; 48; 48; 58; 48; 48]%nat))
  = None.
Proof. repeat split; vm_compute; reflexivity. Qed.

(** A row with the period texts 0_0 and 0 has a period of zero, and one
    with 6_0 and 0 a period of an hour; a file is written for both. *)
Example grouped_period_texts :
  parse_row (one_row "A" "0_0" "0" "10:00:00" true) = Some (0, 0, Py.mk_time 10 0 0) /\
  period_ok (one_row "A" "0_0" "0" "10:00:00" true) = false /\
  parse_row (one_row "A" "6_0" "0" "10:00:00" true) = Some (60, 0, Py.mk_time 10 0 0) /\
  period_ok (one_row "A" "6_0" "0" "10:00:00" true) = true /\
  config_file (save_config (window [one_row "A" "6_0" "0" "10:00:00" true] false
                              [at_time 9 0 0 0]))
  = Some [<["name" := JStr "A"]>
          (<["minutes" := JInt 60]>
           (<["seconds" := JInt 0]>
            (<["last_time" := JStr "10:00:00"]> (<["enabled" := JBool true]> ∅))))].
Proof. repeat split; vm_compute; reflexivity. Qed.
